(** * ESP32-RAK3172: LoRaWAN and P2P session layer

    A shallow embedding of
      - src/Protocols/LoRaWAN/rak3172_lorawan.cpp
      - src/Protocols/P2P/rak3172_p2p_rui3.cpp
      - include/Definitions/rak3172_defs.h
    The target is the ESP32 (ILP32): [int], [long] and [size_t] are 32 bits
    wide, [long long] is 64 bits wide.  Machine integers are values of [Z] with
    the wrap-around written out, strings are [string], byte buffers are
    [list byte], a pointer that the code tests against NULL is an [option]. *)

From Stdlib Require Import ZArith List String Ascii Bool Lia.
From Stdlib Require Import DecimalString.
From Stdlib.Strings Require Byte.
Import ListNotations.

Local Open Scope string_scope.
Local Open Scope Z_scope.

(** ** Machine integers *)

Module Int.

Definition u8 (x : Z) : Z := x mod 2 ^ 8.
Definition u32 (x : Z) : Z := x mod 2 ^ 32.
Definition u64 (x : Z) : Z := x mod 2 ^ 64.

Definition s8 (x : Z) : Z :=
  let y := x mod 2 ^ 8 in if y <? 2 ^ 7 then y else y - 2 ^ 8.

Definition s32 (x : Z) : Z :=
  let y := x mod 2 ^ 32 in if y <? 2 ^ 31 then y else y - 2 ^ 32.

Definition INT_MIN : Z := - 2 ^ 31.
Definition INT_MAX : Z := 2 ^ 31 - 1.

End Int.

(** ** The fragment of <string> and <cstdio> the driver uses *)

Module Str.

(** The two exceptions [std::stoi] and [std::string::substr] raise. *)
Inductive exn : Type :=
  | invalid_argument
  | out_of_range.

Definition size (s : string) : Z := Z.of_nat (String.length s).

(** [std::string::npos], the largest [size_t]. *)
Definition npos : Z := 2 ^ 32 - 1.

(** [std::to_string] at an integer (a [bool] or [uint8_t] argument is
    promoted to [int] first). *)
Definition to_string (v : Z) : string := NilZero.string_of_int (Z.to_int v).

Definition to_string_bool (b : bool) : string := to_string (if b then 1 else 0).

(** [s.find(needle, pos)] *)
Definition find (s needle : string) (pos : Z) : Z :=
  if size s <? pos then npos
  else match String.index (Z.to_nat pos) needle s with
       | Some i => Z.of_nat i
       | None => npos
       end.

Fixpoint mem_char (c : ascii) (cs : string) : bool :=
  match cs with
  | EmptyString => false
  | String d r => if Ascii.eqb c d then true else mem_char c r
  end.

Fixpoint find_last_of_from (i : Z) (cs s : string) (last : Z) : Z :=
  match s with
  | EmptyString => last
  | String c r => find_last_of_from (i + 1) cs r (if mem_char c cs then i else last)
  end.

(** [s.find_last_of(cs)] *)
Definition find_last_of (s cs : string) : Z := find_last_of_from 0 cs s npos.

(** [s.substr(pos, count)]: raises [out_of_range] when [pos > size()],
    otherwise the characters [pos, min(pos + count, size())). *)
Definition substr (s : string) (pos count : Z) : exn + string :=
  if size s <? pos then inl out_of_range
  else inr (String.substring (Z.to_nat pos)
                             (Z.to_nat (Z.min count (size s - pos))) s).

(** [s.find(needle) != std::string::npos] *)
Definition contains (s needle : string) : bool :=
  negb (find s needle 0 =? npos).

(** *** std::stoi, base 10 *)

Definition isspace (c : ascii) : bool :=
  let n := nat_of_ascii c in
  (Nat.eqb n 32 || (Nat.leb 9 n && Nat.leb n 13))%bool.

Definition digit_val (c : ascii) : option Z :=
  let n := Z.of_nat (nat_of_ascii c) in
  if ((48 <=? n) && (n <=? 57))%bool then Some (n - 48) else None.

Fixpoint skip_space (s : string) : string :=
  match s with
  | String c r => if isspace c then skip_space r else s
  | EmptyString => s
  end.

(** The longest prefix of decimal digits, [None] when there is none. *)
Fixpoint read_digits (s : string) (acc : option Z) : option Z :=
  match s with
  | String c r =>
      match digit_val c with
      | Some d =>
          read_digits r (Some (10 * match acc with Some a => a | None => 0 end + d))
      | None => acc
      end
  | EmptyString => acc
  end.

Definition stoi (s : string) : exn + Z :=
  let s1 := skip_space s in
  let '(neg, s2) :=
    match s1 with
    | String "-" r => (true, r)
    | String "+" r => (false, r)
    | _ => (false, s1)
    end in
  match read_digits s2 None with
  | None => inl invalid_argument
  | Some v =>
      let v' := if neg then - v else v in
      if ((Int.INT_MIN <=? v') && (v' <=? Int.INT_MAX))%bool
      then inr v' else inl out_of_range
  end.

(** *** sprintf with the conversions "%02X", "%02x" and "%04X" *)

Definition hex_char (upper : bool) (d : Z) : ascii :=
  if d <? 10 then ascii_of_nat (Z.to_nat (48 + d))
  else ascii_of_nat (Z.to_nat ((if upper then 55 else 87) + d)).

(** Hexadecimal digits of [v], most significant first, without padding. *)
Fixpoint hex_digits (upper : bool) (fuel : nat) (v : Z) (acc : string) : string :=
  match fuel with
  | O => acc
  | S f =>
      let acc' := String (hex_char upper (v mod 16)) acc in
      if v / 16 =? 0 then acc' else hex_digits upper f (v / 16) acc'
  end.

Fixpoint zeros (n : nat) : string :=
  match n with
  | O => EmptyString
  | S k => String "0" (zeros k)
  end.

(** ["%0<width>X"] (or [x]) at an [unsigned int]: at least [width]
    characters, padded with zeros on the left. *)
Definition sprintf_hex (upper : bool) (width : nat) (v : Z) : string :=
  let ds := hex_digits upper 8 (Int.u32 v) EmptyString in
  zeros (width - String.length ds) ++ ds.

End Str.

(** ** Types of rak3172_defs.h *)

(** Modelled from the spec: the error codes of rak3172_errors.h, which is
    not among the sources; these are the kinds the spec lists and the code
    returns. *)
Inductive RAK3172_Error_t : Type :=
  | RAK3172_ERR_OK
  | RAK3172_ERR_INVALID_ARG
  | RAK3172_ERR_INVALID_STATE
  | RAK3172_ERR_NOT_CONNECTED
  | RAK3172_ERR_INVALID_RESPONSE
  | RAK3172_ERR_TIMEOUT
  | RAK3172_ERR_FAIL.

(** The enumerations are integers: the code compares them with [>] and
    casts the result of [std::stoi] to them. *)
Definition RAK3172_JoinMode_t := Z.
Definition RAK_JOIN_ABP : RAK3172_JoinMode_t := 0.
Definition RAK_JOIN_OTAA : RAK3172_JoinMode_t := 1.

Definition RAK3172_Band_t := Z.
Definition RAK_BAND_EU433 : RAK3172_Band_t := 0.
Definition RAK_BAND_CN470 : RAK3172_Band_t := 1.
Definition RAK_BAND_RU864 : RAK3172_Band_t := 2.
Definition RAK_BAND_IN865 : RAK3172_Band_t := 3.
Definition RAK_BAND_EU868 : RAK3172_Band_t := 4.
Definition RAK_BAND_US915 : RAK3172_Band_t := 5.
Definition RAK_BAND_AU915 : RAK3172_Band_t := 6.
Definition RAK_BAND_KR920 : RAK3172_Band_t := 7.
Definition RAK_BAND_AS923 : RAK3172_Band_t := 8.

Definition RAK3172_DataRate_t := Z.
Definition RAK_DR_0 : RAK3172_DataRate_t := 0.
Definition RAK_DR_7 : RAK3172_DataRate_t := 7.

Definition RAK3172_SubBand_t := Z.
Definition RAK_SUB_BAND_NONE : RAK3172_SubBand_t := 0.
Definition RAK_SUB_BAND_ALL : RAK3172_SubBand_t := 1.
Definition RAK_SUB_BAND_1 : RAK3172_SubBand_t := 2.
Definition RAK_SUB_BAND_2 : RAK3172_SubBand_t := 3.
Definition RAK_SUB_BAND_3 : RAK3172_SubBand_t := 4.
Definition RAK_SUB_BAND_4 : RAK3172_SubBand_t := 5.
Definition RAK_SUB_BAND_5 : RAK3172_SubBand_t := 6.
Definition RAK_SUB_BAND_6 : RAK3172_SubBand_t := 7.
Definition RAK_SUB_BAND_7 : RAK3172_SubBand_t := 8.
Definition RAK_SUB_BAND_8 : RAK3172_SubBand_t := 9.
Definition RAK_SUB_BAND_9 : RAK3172_SubBand_t := 10.
Definition RAK_SUB_BAND_10 : RAK3172_SubBand_t := 11.
Definition RAK_SUB_BAND_11 : RAK3172_SubBand_t := 12.
Definition RAK_SUB_BAND_12 : RAK3172_SubBand_t := 13.

(** The fields of [RAK3172_t] that the two modules read or write. *)
Record RAK3172_t : Type := {
  LoRaWAN_Join : RAK3172_JoinMode_t;
  LoRaWAN_isJoined : bool;
  P2P_isEncryptionEnabled : bool
}.

(** An output parameter: the code only asks whether it is NULL; what is
    stored through it is returned next to the error code. *)
Inductive out_ptr : Type := NULL | Out.

(** [RAK3172_Wait_t]: a NULL or non-NULL function pointer. *)
Definition RAK3172_Wait_t := option unit.

(** ** The device and its surroundings *)

(** What a completed [RAK3172_SendCommand] hands back. *)
Record Reply : Type := {
  Error : RAK3172_Error_t;
  Value : string;
  Status : string
}.

(** The world a call runs in.  [Device] is the handle behind [p_Device]
    (the handle exists, so the [p_Device == NULL] disjunct of the argument
    checks is not taken).  [sent] lists the command lines written to the
    transport, oldest first.  [respond] is the module together with the
    command engine: from the commands written so far, the last being the
    one in flight, to the outcome of that command.  [events] scripts the
    successive [xQueueReceive] calls on the event queue ([None]: the call
    ran into its 500 ms limit), [clock] the successive readings of
    [esp_timer_get_time] in microseconds, [joined_events] whether the
    receive task marks the device joined during each sleep.  [hook_calls]
    counts the invocations of the caller's wait hook. *)
Record World : Type := {
  Device : RAK3172_t;
  sent : list string;
  respond : list string -> Reply;
  events : list (option string);
  clock : nat -> Z;
  ticks : nat;
  joined_events : list bool;
  hook_calls : nat
}.

Definition set_Device (d : RAK3172_t) (w : World) : World :=
  Build_World d (sent w) (respond w) (events w) (clock w) (ticks w)
              (joined_events w) (hook_calls w).

Definition set_isJoined (b : bool) (d : RAK3172_t) : RAK3172_t :=
  Build_RAK3172_t (LoRaWAN_Join d) b (P2P_isEncryptionEnabled d).

Definition set_isEncryptionEnabled (b : bool) (d : RAK3172_t) : RAK3172_t :=
  Build_RAK3172_t (LoRaWAN_Join d) (LoRaWAN_isJoined d) b.

(** How a call ends: it returns, it leaves through a C++ exception, it
    runs into undefined behaviour (a read through NULL or past a buffer,
    [delete] of an indeterminate pointer), or the loop bound of the model
    is used up while the code is still polling. *)
Inductive Result (A : Type) : Type :=
  | Ok (a : A)
  | Throw (e : Str.exn)
  | Undefined
  | OutOfFuel.

Arguments Ok {A} a.
Arguments Throw {A} e.
Arguments Undefined {A}.
Arguments OutOfFuel {A}.

Definition M (A : Type) : Type := World -> Result A * World.

Definition ret {A : Type} (a : A) : M A := fun w => (Ok a, w).

Definition bind {A B : Type} (m : M A) (k : A -> M B) : M B :=
  fun w =>
    match m w with
    | (Ok a, w') => k a w'
    | (Throw e, w') => (Throw e, w')
    | (Undefined, w') => (Undefined, w')
    | (OutOfFuel, w') => (OutOfFuel, w')
    end.

Notation "x <- m ;; k" := (bind m (fun x => k))
  (at level 61, m at next level, right associativity).
Notation "m ;; k" := (bind m (fun _ => k))
  (at level 61, right associativity).

Definition get : M World := fun w => (Ok w, w).
Definition modify (f : World -> World) : M unit := fun w => (Ok tt, f w).
Definition undefined {A : Type} : M A := fun w => (Undefined, w).
Definition out_of_fuel {A : Type} : M A := fun w => (OutOfFuel, w).

(** A library call that may raise. *)
Definition may_throw {A : Type} (r : Str.exn + A) : M A :=
  fun w => match r with inl e => (Throw e, w) | inr a => (Ok a, w) end.

(** [RAK3172_ERROR_CHECK(Func)]: leave the enclosing function with the
    error of [Func] unless it is [RAK3172_ERR_OK].  [err] reads the error
    out of what [Func] yields, [leave] builds what the enclosing function
    returns for it. *)
Definition RAK3172_ERROR_CHECK {A B : Type} (err : A -> RAK3172_Error_t)
    (Func : M A) (leave : RAK3172_Error_t -> B) (k : A -> M B) : M B :=
  a <- Func ;;
  match err a with
  | RAK3172_ERR_OK => k a
  | e => ret (leave e)
  end.

(** Modelled from the spec: [RAK3172_SendCommand] of rak3172.cpp, which is
    not among the sources.  It writes the command line to the transport and
    blocks until the line receiver delivers the terminal result or the
    bounded wait elapses; the outcome is the status code, the captured
    value (for [p_Value]) and the raw status text (for [p_Status]).  The
    handle and the script of the receive task are not touched here: in
    this model the receive task marks the device joined only while the
    caller sleeps, not while a command is in flight. *)
Definition RAK3172_SendCommand (Command : string) : M Reply :=
  fun w =>
    let log := (sent w ++ [Command])%list in
    (Ok (respond w log),
     Build_World (Device w) log (respond w) (events w) (clock w) (ticks w)
                 (joined_events w) (hook_calls w)).

(** [esp_timer_get_time()] *)
Definition esp_timer_get_time : M Z :=
  fun w =>
    (Ok (clock w (ticks w)),
     Build_World (Device w) (sent w) (respond w) (events w) (clock w)
                 (S (ticks w)) (joined_events w) (hook_calls w)).

(** [xQueueReceive(p_Device->Internal.RxQueue, &Line, ...)]: [Some] line
    for [pdPASS]. *)
Definition xQueueReceive : M (option string) :=
  fun w =>
    match events w with
    | [] => (Ok None, w)
    | e :: rest =>
        (Ok e,
         Build_World (Device w) (sent w) (respond w) rest (clock w) (ticks w)
                     (joined_events w) (hook_calls w))
    end.

(** [esp_sleep_enable_timer_wakeup(...); esp_light_sleep_start();
    vTaskDelay(20);] the point at which the caller yields to the receive
    task. *)
Definition light_sleep : M unit :=
  fun w =>
    match joined_events w with
    | [] => (Ok tt, w)
    | j :: rest =>
        (Ok tt,
         Build_World (if j then set_isJoined true (Device w) else Device w)
                     (sent w) (respond w) (events w) (clock w) (ticks w)
                     rest (hook_calls w))
    end.

(** [if(Wait) { Wait(); }] *)
Definition call_hook (Wait : RAK3172_Wait_t) : M unit :=
  match Wait with
  | None => ret tt
  | Some _ =>
      modify (fun w =>
        Build_World (Device w) (sent w) (respond w) (events w) (clock w)
                    (ticks w) (joined_events w) (S (hook_calls w)))
  end.

(** ** Hex encoding of a buffer

    [for(uint8_t i = 0; i < n; i++) { sprintf(Buffer, "%02X", p[i]);
    s += std::string(Buffer); }] with [upper] for ["%02X"] against
    ["%02x"]; a read past the end of the buffer is undefined. *)
Definition byte_val (b : Byte.byte) : Z := Z.of_N (Byte.to_N b).

Fixpoint hex_loop (upper : bool) (p : list Byte.byte) (i n : nat) (s : string)
  : option string :=
  match n with
  | O => Some s
  | S n' =>
      match nth_error p i with
      | Some b => hex_loop upper p (S i) n' (s ++ Str.sprintf_hex upper 2 (byte_val b))
      | None => None
      end
  end.

(** The same loop filling two strings from two buffers, as in the key
    provisioning functions. *)
Fixpoint hex_loop2 (upper : bool) (p q : list Byte.byte) (i n : nat)
    (s t : string) : option (string * string) :=
  match n with
  | O => Some (s, t)
  | S n' =>
      match nth_error p i, nth_error q i with
      | Some b, Some c =>
          hex_loop2 upper p q (S i) n'
                    (s ++ Str.sprintf_hex upper 2 (byte_val b))
                    (t ++ Str.sprintf_hex upper 2 (byte_val c))
      | _, _ => None
      end
  end.

Definition defined {A : Type} (o : option A) : M A :=
  match o with
  | Some a => ret a
  | None => undefined
  end.

Notation "' pat <- m ;; k" := (bind m (fun x => match x with pat => k end))
  (at level 61, pat pattern, m at next level, right associativity).

(** [return RAK3172_SendCommand(p_Device, Command, NULL, NULL);] *)
Definition returning (m : M Reply) : M RAK3172_Error_t :=
  r <- m ;; ret (Error r).

Definition is_null {A : Type} (p : option A) : bool :=
  match p with None => true | Some _ => false end.

Definition is_NULL (p : out_ptr) : bool :=
  match p with NULL => true | Out => false end.

Definition is_OK (e : RAK3172_Error_t) : bool :=
  match e with RAK3172_ERR_OK => true | _ => false end.

(** [esp_timer_get_time() / 1000ULL]: the signed reading is converted to
    [unsigned long long] for the division. *)
Definition millis : M Z :=
  t <- esp_timer_get_time ;; ret (Int.u64 t / 1000).

(** ** rak3172_lorawan.cpp *)

Definition RAK3172_LoRaWAN_SetOTAAKeys
    (p_DEVEUI p_APPEUI p_APPKEY : option (list Byte.byte)) : M RAK3172_Error_t :=
  match p_DEVEUI, p_APPEUI, p_APPKEY with
  | Some DEVEUI, Some APPEUI, Some APPKEY =>
      w <- get ;;
      if negb (LoRaWAN_Join (Device w) =? RAK_JOIN_OTAA)
      then ret RAK3172_ERR_INVALID_STATE
      else
        '(AppEUIString, DevEUIString) <-
            defined (hex_loop2 true APPEUI DEVEUI 0 8 "" "") ;;
        AppKeyString <- defined (hex_loop true APPKEY 0 16 "") ;;
        RAK3172_ERROR_CHECK Error
          (RAK3172_SendCommand ("AT+DEVEUI=" ++ DevEUIString)) id (fun _ =>
        RAK3172_ERROR_CHECK Error
          (RAK3172_SendCommand ("AT+APPEUI=" ++ AppEUIString)) id (fun _ =>
        returning (RAK3172_SendCommand ("AT+APPKEY=" ++ AppKeyString))))
  | _, _, _ => ret RAK3172_ERR_INVALID_ARG
  end.

Definition RAK3172_LoRaWAN_SetABPKeys
    (p_APPSKEY p_NWKSKEY p_DEVADDR : option (list Byte.byte)) : M RAK3172_Error_t :=
  match p_APPSKEY, p_NWKSKEY, p_DEVADDR with
  | Some APPSKEY, Some NWKSKEY, Some DEVADDR =>
      w <- get ;;
      if negb (LoRaWAN_Join (Device w) =? RAK_JOIN_ABP)
      then ret RAK3172_ERR_INVALID_STATE
      else
        '(AppSKEYString, NwkSKEYString) <-
            defined (hex_loop2 true APPSKEY NWKSKEY 0 16 "" "") ;;
        DevADDRString <- defined (hex_loop true DEVADDR 0 4 "") ;;
        RAK3172_ERROR_CHECK Error
          (RAK3172_SendCommand ("AT+APPSKEY=" ++ AppSKEYString)) id (fun _ =>
        RAK3172_ERROR_CHECK Error
          (RAK3172_SendCommand ("AT+NWKSKEY=" ++ NwkSKEYString)) id (fun _ =>
        returning (RAK3172_SendCommand ("AT+DEVADDR=" ++ DevADDRString))))
  | _, _, _ => ret RAK3172_ERR_INVALID_ARG
  end.

Definition RAK3172_LoRaWAN_StopJoin : M RAK3172_Error_t :=
  returning (RAK3172_SendCommand "AT+JOIN=0:0:7:0").

(** The [do { ... } while(p_Device->LoRaWAN.isJoined == false);] of
    [RAK3172_LoRaWAN_StartJoin]. *)
Fixpoint StartJoin_loop (fuel : nat) (Timeout TimeNow : Z) : M RAK3172_Error_t :=
  match fuel with
  | O => out_of_fuel
  | S fuel' =>
      expired <-
        (if 0 <? Timeout
         then (now <- millis ;;
               ret (Int.u64 (Timeout * 1000) <=? Int.u64 (now - TimeNow)))
         else ret false) ;;
      if expired : bool
      then (RAK3172_LoRaWAN_StopJoin ;; ret RAK3172_ERR_TIMEOUT)
      else
        light_sleep ;;
        w <- get ;;
        if negb (LoRaWAN_isJoined (Device w))
        then StartJoin_loop fuel' Timeout TimeNow
        else ret RAK3172_ERR_OK
  end.

(** [on_Wait] is a parameter of the function; its body never mentions
    it. *)
Definition RAK3172_LoRaWAN_StartJoin (fuel : nat) (Timeout Attempts : Z)
    (EnableAutoJoin : bool) (Interval : Z) (on_Wait : RAK3172_Wait_t)
  : M RAK3172_Error_t :=
  w <- get ;;
  if Attempts =? 0 then ret RAK3172_ERR_INVALID_ARG
  else if LoRaWAN_isJoined (Device w) then ret RAK3172_ERR_OK
  else
    RAK3172_ERROR_CHECK Error
      (RAK3172_SendCommand
         ("AT+JOIN=1:" ++ Str.to_string_bool EnableAutoJoin ++ ":"
            ++ Str.to_string Interval ++ ":" ++ Str.to_string Attempts))
      id (fun _ =>
    t <- millis ;;
    let TimeNow := Int.u32 t in
    StartJoin_loop fuel Timeout TimeNow).

Definition RAK3172_LoRaWAN_isJoined (p_Joined : out_ptr)
  : M (RAK3172_Error_t * option bool) :=
  if is_NULL p_Joined then ret (RAK3172_ERR_INVALID_ARG, None)
  else
    modify (fun w => set_Device (set_isJoined false (Device w)) w) ;;
    RAK3172_ERROR_CHECK Error (RAK3172_SendCommand "AT+NJS=?")
      (fun e => (e, None)) (fun r =>
    (if String.eqb (Value r) "1"
     then modify (fun w => set_Device (set_isJoined true (Device w)) w)
     else ret tt) ;;
    w <- get ;;
    ret (RAK3172_ERR_OK, Some (LoRaWAN_isJoined (Device w)))).

Definition RAK3172_LoRaWAN_SetConfirmation (Enable : bool) : M RAK3172_Error_t :=
  returning (RAK3172_SendCommand ("AT+CFM=" ++ Str.to_string_bool Enable)).

(** The [do { ... } while(true);] of the confirmed transmission.  The
    product [Timeout * 1000UL] is an [unsigned long], 32 bits wide. *)
Fixpoint Transmit_wait (fuel : nat) (Timeout : Z) (Wait : RAK3172_Wait_t) (Now : Z)
  : M RAK3172_Error_t :=
  match fuel with
  | O => out_of_fuel
  | S fuel' =>
      call_hook Wait ;;
      Line <- xQueueReceive ;;
      let verdict :=
        match Line with
        | Some l =>
            if Str.contains l "SEND CONFIRMED FAILED"
            then Some RAK3172_ERR_INVALID_RESPONSE
            else if Str.contains l "SEND CONFIRMED OK"
            then Some RAK3172_ERR_OK
            else None
        | None => None
        end in
      match verdict with
      | Some e => ret e
      | None =>
          expired <-
            (if 0 <? Timeout
             then (now <- millis ;;
                   ret (Int.u32 (Timeout * 1000) <=? Int.u64 (now - Now)))
             else ret false) ;;
          if expired : bool then ret RAK3172_ERR_TIMEOUT
          else light_sleep ;; Transmit_wait fuel' Timeout Wait Now
      end
  end.

Definition RAK3172_LoRaWAN_Transmit (fuel : nat) (Port : Z)
    (p_Buffer : option (list Byte.byte)) (Length : Z) (Timeout : Z)
    (Confirmed : bool) (Wait : RAK3172_Wait_t) : M RAK3172_Error_t :=
  w <- get ;;
  if (is_null p_Buffer && (Length =? 0)) || (Port =? 0)
  then ret RAK3172_ERR_INVALID_ARG
  else if negb (LoRaWAN_isJoined (Device w))
  then ret RAK3172_ERR_NOT_CONNECTED
  else if Length =? 0
  then ret RAK3172_ERR_OK
  else
    Payload <-
      match p_Buffer with
      | Some buf => defined (hex_loop false buf 0 (Z.to_nat Length) "")
      | None => undefined
      end ;;
    RAK3172_ERROR_CHECK id (RAK3172_LoRaWAN_SetConfirmation Confirmed) id (fun _ =>
    RAK3172_ERROR_CHECK Error
      (RAK3172_SendCommand ("AT+SEND=" ++ Str.to_string Port ++ ":" ++ Payload))
      id (fun r =>
    if Str.contains (Status r) "AT_BUSY_ERROR"
    then ret RAK3172_ERR_INVALID_RESPONSE
    else if Confirmed
    then (t <- millis ;; Transmit_wait fuel Timeout Wait (Int.u32 t))
    else ret RAK3172_ERR_OK)).

(** What [RAK3172_LoRaWAN_Receive] has stored through [p_Payload],
    [p_RSSI] and [p_SNR]; [None] for a location it has not written. *)
Record RxOut : Type := {
  Payload : option string;
  RSSI : option Z;
  SNR : option Z
}.

(** The metadata branch: [int Index] takes the [size_t] result of [find],
    the position and count passed to [substr] are [size_t] again. *)
Definition Receive_RSSI (Line : string) : M Z :=
  let Index := Int.s32 (Str.find Line "," 0) in
  Dummy <- may_throw (Str.substr Line (Int.u32 (Index + 7))
                  (Int.u32 (Index + Str.find Line "," (Int.u32 Index) + 1))) ;;
  may_throw (Str.stoi Dummy).

Definition Receive_SNR (Line : string) : M Z :=
  let Index := Int.s32 (Str.find_last_of Line ",") in
  Dummy <- may_throw (Str.substr Line (Int.u32 (Index + 6))
                  (Int.u32 (Str.size Line - 1))) ;;
  may_throw (Str.stoi Dummy).

Definition Receive_metadata (Line : string) (p_RSSI p_SNR : out_ptr) (o : RxOut)
  : M RxOut :=
  if Str.contains Line "RX"
  then
    o1 <- (if is_NULL p_RSSI then ret o
           else (v <- Receive_RSSI Line ;;
                 ret (Build_RxOut (Payload o) (Some v) (SNR o)))) ;;
    (if is_NULL p_SNR then ret o1
     else (v <- Receive_SNR Line ;;
           ret (Build_RxOut (Payload o1) (RSSI o1) (Some v))))
  else ret o.

(** The [do { ... } while(true);] of [RAK3172_LoRaWAN_Receive].  When
    [xQueueReceive] does not pass, [Line] is still indeterminate at
    [delete Line]. *)
Fixpoint Receive_loop (fuel : nat) (p_RSSI p_SNR : out_ptr) (Timeout Now : Z)
    (o : RxOut) : M (RAK3172_Error_t * RxOut) :=
  match fuel with
  | O => out_of_fuel
  | S fuel' =>
      received <- xQueueReceive ;;
      match received with
      | Some Line =>
          o1 <- Receive_metadata Line p_RSSI p_SNR o ;;
          if Str.contains Line "UNICAST"
          then
            p <- may_throw (Str.substr Line (Int.u32 (Str.find_last_of Line ":" + 1))
                        (Str.size Line)) ;;
            ret (RAK3172_ERR_OK, Build_RxOut (Some p) (RSSI o1) (SNR o1))
          else
            expired <-
              (if 0 <? Timeout
               then (now <- millis ;;
                     ret (Timeout <=? Int.u64 (now - Now) / 1000))
               else ret false) ;;
            if expired : bool then ret (RAK3172_ERR_TIMEOUT, o1)
            else light_sleep ;; Receive_loop fuel' p_RSSI p_SNR Timeout Now o1
      | None => undefined
      end
  end.

Definition RAK3172_LoRaWAN_Receive (fuel : nat) (p_Payload p_RSSI p_SNR : out_ptr)
    (Timeout : Z) : M (RAK3172_Error_t * RxOut) :=
  let untouched := Build_RxOut None None None in
  w <- get ;;
  if is_NULL p_Payload || (Timeout <=? 1)
  then ret (RAK3172_ERR_INVALID_ARG, untouched)
  else if negb (LoRaWAN_isJoined (Device w))
  then ret (RAK3172_ERR_NOT_CONNECTED, untouched)
  else
    t <- millis ;;
    Receive_loop fuel p_RSSI p_SNR Timeout (Int.u32 t) untouched.

(** *** Accessors *)

Definition RAK3172_LoRaWAN_SetRetries (Retries : Z) : M RAK3172_Error_t :=
  if 7 <? Retries then ret RAK3172_ERR_INVALID_ARG
  else
    let Enable := 0 <? Retries in
    RAK3172_ERROR_CHECK Error
      (RAK3172_SendCommand ("AT+CFM=" ++ Str.to_string_bool Enable)) id (fun _ =>
    returning (RAK3172_SendCommand ("AT+RETY=" ++ Str.to_string Retries))).

(** The shape shared by the plain getters: NULL check, one query, the
    captured value through [std::stoi] and a cast. *)
Definition query {T : Type} (p : out_ptr) (Command : string) (cast : Z -> T)
  : M (RAK3172_Error_t * option T) :=
  if is_NULL p then ret (RAK3172_ERR_INVALID_ARG, None)
  else
    RAK3172_ERROR_CHECK Error (RAK3172_SendCommand Command)
      (fun e => (e, None)) (fun r =>
    v <- may_throw (Str.stoi (Value r)) ;;
    ret (RAK3172_ERR_OK, Some (cast v))).

Definition to_bool (v : Z) : bool := negb (v =? 0).

Definition RAK3172_LoRaWAN_GetRetries (p_Retries : out_ptr) :=
  query p_Retries "AT+RETY=?" Int.u8.

Definition RAK3172_LoRaWAN_SetPNM (Enable : bool) : M RAK3172_Error_t :=
  returning (RAK3172_SendCommand ("AT+PNM=" ++ Str.to_string_bool Enable)).

Definition RAK3172_LoRaWAN_GetPNM (p_Enable : out_ptr) :=
  query p_Enable "AT+PNM=?" to_bool.

Definition RAK3172_LoRaWAN_GetConfirmation (p_Enable : out_ptr) :=
  query p_Enable "AT+CFM=?" to_bool.

Definition RAK3172_LoRaWAN_SetBand (Band : RAK3172_Band_t) : M RAK3172_Error_t :=
  returning (RAK3172_SendCommand ("AT+BAND=" ++ Str.to_string (Int.u8 Band))).

Definition RAK3172_LoRaWAN_GetBand (p_Band : out_ptr)
  : M (RAK3172_Error_t * option RAK3172_Band_t) :=
  query p_Band "AT+BAND=?" (fun v => v).

(** [RAK3172_ERROR_CHECK(RAK3172_LoRaWAN_GetBand(p_Device, &Dummy));] *)
Definition check_GetBand {B : Type} (leave : RAK3172_Error_t -> B)
    (k : RAK3172_Band_t -> M B) : M B :=
  RAK3172_ERROR_CHECK fst (RAK3172_LoRaWAN_GetBand Out) leave
    (fun r => Dummy <- defined (snd r) ;; k Dummy).

Definition RAK3172_LoRaWAN_SetSubBand (Band : RAK3172_SubBand_t) : M RAK3172_Error_t :=
  if Band =? RAK_SUB_BAND_NONE then ret RAK3172_ERR_OK
  else
    check_GetBand id (fun Dummy =>
    if (Dummy =? RAK_BAND_US915) || (Dummy =? RAK_BAND_AU915)
       || (Dummy =? RAK_BAND_CN470)
    then
      if (RAK_SUB_BAND_9 <? Band) && negb (Dummy =? RAK_BAND_CN470)
      then ret RAK3172_ERR_INVALID_ARG
      else if Band =? RAK_SUB_BAND_ALL
      then returning (RAK3172_SendCommand "AT+MASK=0000")
      else
        let Mask := Int.u32 (Z.shiftl 1 (Band - 2)) in
        let Temp := Str.sprintf_hex true 4 Mask in
        returning (RAK3172_SendCommand ("AT+MASK=" ++ Temp))
    else ret RAK3172_ERR_FAIL).

(** [while(Mask != 1) { Mask >>= 1; Shifts++; }] on a [uint32_t] mask and
    a [uint8_t] counter. *)
Fixpoint GetSubBand_shifts (fuel : nat) (Mask Shifts : Z) : option Z :=
  match fuel with
  | O => None
  | S fuel' =>
      if Mask =? 1 then Some Shifts
      else GetSubBand_shifts fuel' (Z.shiftr Mask 1) (Int.u8 (Shifts + 1))
  end.

Definition RAK3172_LoRaWAN_GetSubBand (p_Band : out_ptr)
  : M (RAK3172_Error_t * option RAK3172_SubBand_t) :=
  if is_NULL p_Band then ret (RAK3172_ERR_INVALID_ARG, None)
  else
    check_GetBand (fun e => (e, None)) (fun Dummy =>
    if negb (Dummy =? RAK_BAND_US915) && negb (Dummy =? RAK_BAND_AU915)
       && negb (Dummy =? RAK_BAND_CN470)
    then ret (RAK3172_ERR_OK, Some RAK_SUB_BAND_NONE)
    else
      RAK3172_ERROR_CHECK Error (RAK3172_SendCommand "AT+MASK=?")
        (fun e => (e, None)) (fun r =>
      v <- may_throw (Str.stoi (Value r)) ;;
      let Mask := Int.u32 v in
      if Mask =? 0 then ret (RAK3172_ERR_OK, Some RAK_SUB_BAND_ALL)
      else
        match GetSubBand_shifts 32 Mask 1 with
        | Some Shifts => ret (RAK3172_ERR_OK, Some (Shifts + 2))
        | None => out_of_fuel
        end)).

(** The index computed by [RAK3172_LoRaWAN_SetTxPwr] before it is sent. *)
Definition TxPwrIndex (Band : RAK3172_Band_t) (TxPwr : Z) : Z :=
  if Band =? RAK_BAND_EU868
  then
    let EIRP := 16 in
    if EIRP <=? TxPwr then 0
    else if TxPwr <? EIRP - 14 then 10
    else Int.u8 (Z.quot (EIRP - TxPwr) 2)
  else if Band =? RAK_BAND_US915
  then
    let MaxPwr := 30 in
    if MaxPwr <=? TxPwr then 0
    else if TxPwr <? 10 then 10
    else Int.u8 (Z.quot (MaxPwr - TxPwr) 2)
  else 0.

Definition RAK3172_LoRaWAN_SetTxPwr (TxPwr : Z) : M RAK3172_Error_t :=
  check_GetBand id (fun Band =>
  returning (RAK3172_SendCommand ("AT+TXP=" ++ Str.to_string (TxPwrIndex Band TxPwr)))).

Definition RAK3172_LoRaWAN_SetRX1Delay (Delay : Z) : M RAK3172_Error_t :=
  returning (RAK3172_SendCommand ("AT+RX1DL=" ++ Str.to_string Delay)).

Definition RAK3172_LoRaWAN_SetRX2Delay (Delay : Z) : M RAK3172_Error_t :=
  returning (RAK3172_SendCommand ("AT+RX2DL=" ++ Str.to_string Delay)).

(** [p_SNR], [p_RSSI] and [p_Duty] are written without a NULL check. *)
Definition RAK3172_LoRaWAN_GetSNR : M (RAK3172_Error_t * option Z) :=
  query Out "AT+SNR=?" Int.u8.

Definition RAK3172_LoRaWAN_GetRSSI : M (RAK3172_Error_t * option Z) :=
  query Out "AT+RSSI=?" Int.s8.

Definition RAK3172_LoRaWAN_GetDuty : M (RAK3172_Error_t * option Z) :=
  check_GetBand (fun e => (e, None)) (fun Band =>
  if negb (Band =? RAK_BAND_EU868) && negb (Band =? RAK_BAND_RU864)
     && negb (Band =? RAK_BAND_EU433)
  then ret (RAK3172_ERR_INVALID_ARG, None)
  else query Out "AT+DUTYTIME=?" Int.u8).

Definition RAK3172_LoRaWAN_SetDataRate (DR : RAK3172_DataRate_t) : M RAK3172_Error_t :=
  if RAK_DR_7 <? DR then ret RAK3172_ERR_INVALID_ARG
  else returning (RAK3172_SendCommand ("AT+DR=" ++ Str.to_string DR)).

Definition RAK3172_LoRaWAN_GetDataRate (p_DR : out_ptr)
  : M (RAK3172_Error_t * option RAK3172_DataRate_t) :=
  query p_DR "AT+DR=?" (fun v => v).

Definition RAK3172_LoRaWAN_SetADR (Enable : bool) : M RAK3172_Error_t :=
  returning (RAK3172_SendCommand ("AT+ADR=" ++ Str.to_string_bool Enable)).

Definition RAK3172_LoRaWAN_GetADR (p_Enable : out_ptr) :=
  query p_Enable "AT+ADR=?" to_bool.

Definition RAK3172_LoRaWAN_SetJoinMode (Mode : RAK3172_JoinMode_t) : M RAK3172_Error_t :=
  returning (RAK3172_SendCommand ("AT+NJM=" ++ Str.to_string Mode)).

Definition RAK3172_LoRaWAN_GetJoinMode (p_Mode : out_ptr)
  : M (RAK3172_Error_t * option RAK3172_JoinMode_t) :=
  query p_Mode "AT+NJM=?" (fun v => v).

(** ** rak3172_p2p_rui3.cpp *)

Definition RAK3172_P2P_EnableEncryption (p_Key : option (list Byte.byte))
  : M RAK3172_Error_t :=
  match p_Key with
  | None => ret RAK3172_ERR_INVALID_ARG
  | Some key =>
      RAK3172_ERROR_CHECK Error
        (RAK3172_SendCommand ("AT+ENCRY=" ++ Str.to_string_bool true)) id (fun _ =>
      modify (fun w => set_Device (set_isEncryptionEnabled true (Device w)) w) ;;
      Key <- defined (hex_loop false key 0 8 "") ;;
      returning (RAK3172_SendCommand ("AT+ENCKEY=" ++ Key)))
  end.

Definition RAK3172_P2P_DisableEncryption : M RAK3172_Error_t :=
  RAK3172_ERROR_CHECK Error
    (RAK3172_SendCommand ("AT+ENCRY=" ++ Str.to_string_bool false)) id (fun _ =>
  modify (fun w => set_Device (set_isEncryptionEnabled false (Device w)) w) ;;
  ret RAK3172_ERR_OK).

Definition RAK3172_P2P_isEncryptionEnabled (p_Enabled : out_ptr) :=
  query p_Enabled "AT+ENCRY=?" to_bool.

(** ** Reading the encoding back

    The driver never decodes; the module does.  [hex_decode] is the reader
    the specification measures the encoding against: two hexadecimal
    characters per byte, either case accepted. *)
Definition hex_val (c : ascii) : option Z :=
  let n := Z.of_nat (nat_of_ascii c) in
  if ((48 <=? n) && (n <=? 57))%bool then Some (n - 48)
  else if ((65 <=? n) && (n <=? 70))%bool then Some (n - 55)
  else if ((97 <=? n) && (n <=? 102))%bool then Some (n - 87)
  else None.

Definition hex_pair (a b : ascii) : option Byte.byte :=
  match hex_val a, hex_val b with
  | Some x, Some y => Byte.of_N (Z.to_N (16 * x + y))
  | _, _ => None
  end.

Fixpoint hex_decode (s : string) : option (list Byte.byte) :=
  match s with
  | EmptyString => Some []
  | String a (String b r) =>
      match hex_pair a b, hex_decode r with
      | Some x, Some l => Some (x :: l)
      | _, _ => None
      end
  | String _ EmptyString => None
  end.

(** The two characters of every byte, in buffer order. *)
Fixpoint hex_string (upper : bool) (bs : list Byte.byte) : string :=
  match bs with
  | [] => EmptyString
  | b :: r => Str.sprintf_hex upper 2 (byte_val b) ++ hex_string upper r
  end.

Definition is_digit (c : ascii) : bool :=
  let n := nat_of_ascii c in (Nat.leb 48 n && Nat.leb n 57)%bool.

(** [0-9A-F] for [upper], [0-9a-f] otherwise. *)
Definition is_hex (upper : bool) (c : ascii) : bool :=
  let n := nat_of_ascii c in
  (is_digit c
   || (if upper then Nat.leb 65 n && Nat.leb n 70
       else Nat.leb 97 n && Nat.leb n 102))%bool.

Fixpoint all_chars (P : ascii -> bool) (s : string) : bool :=
  match s with
  | EmptyString => true
  | String c r => (P c && all_chars P r)%bool
  end.

(** ** Vocabulary of the statements and example worlds *)

(** A module that accepts every command and captures nothing; a device
    that has not joined and one that has; the world of a fresh device on a
    given module, with a clock that advances one millisecond per reading. *)
Definition accept_all (log : list string) : Reply :=
  Build_Reply RAK3172_ERR_OK "" "OK".

Definition idle_device : RAK3172_t := Build_RAK3172_t RAK_JOIN_OTAA false false.
Definition joined_device : RAK3172_t := Build_RAK3172_t RAK_JOIN_OTAA true false.

Definition world_of (d : RAK3172_t) (m : list string -> Reply) : World :=
  Build_World d [] m [] (fun n => 1000 * Z.of_nat n) 0 [] 0.

(** A module that answers ERROR to every command that starts with [p] and
    accepts the others. *)
Definition reject_prefix (p : string) (log : list string) : Reply :=
  if String.prefix p (List.last log "")
  then Build_Reply RAK3172_ERR_INVALID_RESPONSE "" "ERROR"
  else accept_all log.

Definition key16 : list Byte.byte :=
  [Byte.x00; Byte.x11; Byte.x22; Byte.x33; Byte.x44; Byte.x55; Byte.x66; Byte.x77;
   Byte.x88; Byte.x99; Byte.xaa; Byte.xbb; Byte.xcc; Byte.xdd; Byte.xee; Byte.xff].

(** The world after the command [c] has been written. *)
Definition after_send (c : string) (w : World) : World :=
  Build_World (Device w) (sent w ++ [c])%list (respond w) (events w)
              (clock w) (ticks w) (joined_events w) (hook_calls w).

Definition ENCRY_on : string := "AT+ENCRY=1".

Definition ENCKEY (key : list Byte.byte) : string :=
  "AT+ENCKEY=" ++ hex_string false (firstn 8 key).

(** The index as the specification words it. *)
Definition spec_TxPwrIndex (Band dBm : Z) : Z :=
  if Band =? RAK_BAND_EU868
  then (if 16 <=? dBm then 0 else if dBm <? 2 then 10 else (16 - dBm) / 2)
  else if Band =? RAK_BAND_US915
  then (if 30 <=? dBm then 0 else if dBm <? 10 then 10 else (30 - dBm) / 2)
  else 0.

(** What a successful band query looks like from the caller's side. *)
Definition band_query_yields (w : World) (Band : RAK3172_Band_t) : Prop :=
  let r := respond w (sent w ++ ["AT+BAND=?"])%list in
  Error r = RAK3172_ERR_OK /\ Str.stoi (Value r) = inr Band.

(** A module that reports the band [Band] and accepts everything else. *)
Definition band_module (Band : RAK3172_Band_t) (log : list string) : Reply :=
  if String.eqb (List.last log "") "AT+BAND=?"
  then Build_Reply RAK3172_ERR_OK (Str.to_string Band) "OK"
  else accept_all log.

(** A module that reports the band [Band], keeps the channel mask it was
    last given and reports it back as it was written ("0000" before the
    first write), and accepts everything else. *)
Definition arg_of (key cmd : string) : option string :=
  if String.prefix key cmd
  then Some (String.substring (String.length key)
                              (String.length cmd - String.length key) cmd)
  else None.

Fixpoint stored_mask (log : list string) (cur : string) : string :=
  match log with
  | [] => cur
  | c :: r =>
      stored_mask r
        match arg_of "AT+MASK=" c with
        | Some a => if String.eqb a "?" then cur else a
        | None => cur
        end
  end.

Definition mask_module (Band : RAK3172_Band_t) (log : list string) : Reply :=
  let c := List.last log "" in
  if String.eqb c "AT+BAND=?"
  then Build_Reply RAK3172_ERR_OK (Str.to_string Band) "OK"
  else if String.eqb c "AT+MASK=?"
  then Build_Reply RAK3172_ERR_OK (stored_mask log "0000") "OK"
  else accept_all log.

(** [SetSubBand(x)] followed by [GetSubBand] on that module: the outcome
    of the first call, the commands written by both, and the outcome of
    the second. *)
Definition set_then_get (Band : RAK3172_Band_t) (x : RAK3172_SubBand_t)
  : Result RAK3172_Error_t * list string
    * Result (RAK3172_Error_t * option RAK3172_SubBand_t) :=
  let w0 := world_of idle_device (mask_module Band) in
  let s := RAK3172_LoRaWAN_SetSubBand x w0 in
  let g := RAK3172_LoRaWAN_GetSubBand Out (snd s) in
  (fst s, sent (snd g), fst g).

Definition STOP_JOIN : string := "AT+JOIN=0:0:7:0".

(** A world in which the join succeeds during the third sleep. *)
Definition joining_world : World :=
  Build_World idle_device [] accept_all [] (fun n => 1000 * Z.of_nat n) 0
              [false; false; true] 0.

(** The world after a reading of the clock, after a sleep, and after a
    take from the event queue. *)
Definition tick (w : World) : World := snd (esp_timer_get_time w).
Definition slept (w : World) : World := snd (light_sleep w).
Definition pop_event (w : World) : World := snd (xQueueReceive w).

Definition RX_spec_example : string := "+EVT:RX:-42,10,RSSI -60,SNR 7".
Definition RX_module : string := "+EVT:RX_1, RSSI -60, SNR 7".
Definition UNICAST_line : string := "+EVT:UNICAST:48656C6C6F".

Definition Hello : list Byte.byte :=
  [Byte.x48; Byte.x65; Byte.x6c; Byte.x6c; Byte.x6f].

Definition receiving_world (metadata : string) : World :=
  Build_World joined_device [] accept_all [Some metadata; Some UNICAST_line]
              (fun n => 1000 * Z.of_nat n) 0 [] 0.

(** The number of [RAK3172_SendCommand] calls a call makes. *)
Definition round_trips {A : Type} (m : M A) (w : World) : nat :=
  (List.length (sent (snd (m w))) - List.length (sent w))%nat.

(** A setter that is one command: the call is that command. *)
Definition sends (m : M RAK3172_Error_t) (Command : string) : Prop :=
  forall w : World,
    m w = (Ok (Error (respond w (sent w ++ [Command])%list)), after_send Command w).

(** A getter that is one query: it writes the query and nothing else, and
    on success its result is the captured value read by [std::stoi] and
    cast to the type of the result. *)
Definition queries {T : Type} (m : M (RAK3172_Error_t * option T))
    (Command : string) (cast : Z -> T) : Prop :=
  forall w : World,
    let r := respond w (sent w ++ [Command])%list in
    sent (snd (m w)) = (sent w ++ [Command])%list
    /\ (forall v : Z, Error r = RAK3172_ERR_OK -> Str.stoi (Value r) = inr v ->
          fst (m w) = Ok (RAK3172_ERR_OK, Some (cast v)))
    /\ (Error r <> RAK3172_ERR_OK -> fst (m w) = Ok (Error r, None)).

Definition CFM (Enable : bool) : string := "AT+CFM=" ++ Str.to_string_bool Enable.

Definition MASK (x : RAK3172_SubBand_t) : string :=
  if x =? RAK_SUB_BAND_ALL then "AT+MASK=0000"
  else "AT+MASK=" ++ Str.sprintf_hex true 4 (Int.u32 (Z.shiftl 1 (x - 2))).

Definition has_sub_bands (Band : RAK3172_Band_t) : Prop :=
  Band = RAK_BAND_US915 \/ Band = RAK_BAND_AU915 \/ Band = RAK_BAND_CN470.

Definition has_duty_cycle (Band : RAK3172_Band_t) : Prop :=
  Band = RAK_BAND_EU868 \/ Band = RAK_BAND_RU864 \/ Band = RAK_BAND_EU433.

(** Three commands in a row, each sent only when the one before it was
    accepted: the result and the world after them. *)
Definition after_three (c1 c2 c3 : string) (w : World)
  : Result RAK3172_Error_t * World :=
  let r1 := respond w (sent w ++ [c1])%list in
  let r2 := respond w (sent w ++ [c1; c2])%list in
  let r3 := respond w (sent w ++ [c1; c2; c3])%list in
  if negb (is_OK (Error r1)) then (Ok (Error r1), after_send c1 w)
  else if negb (is_OK (Error r2))
  then (Ok (Error r2), after_send c2 (after_send c1 w))
  else (Ok (Error r3), after_send c3 (after_send c2 (after_send c1 w))).

Definition key8 : list Byte.byte :=
  [Byte.x70; Byte.xb3; Byte.xd5; Byte.x7e; Byte.xd0; Byte.x05; Byte.x1a; Byte.x2b].

Definition abp_device : RAK3172_t := Build_RAK3172_t RAK_JOIN_ABP false false.

(** The join command of [RAK3172_LoRaWAN_StartJoin]. *)
Definition JOIN (EnableAutoJoin : bool) (Interval Attempts : Z) : string :=
  "AT+JOIN=1:" ++ Str.to_string_bool EnableAutoJoin ++ ":"
    ++ Str.to_string Interval ++ ":" ++ Str.to_string Attempts.

(** The timeout is not reached at the readings of the clock that [k + 1]
    polling iterations take, the wait having started at the current
    reading.  (With a timeout of zero the clock is not read.) *)
Definition timeout_not_reached (Timeout : Z) (k : nat) (w : World) : Prop :=
  0 < Timeout ->
  forall i : nat, (i <= k)%nat ->
    Int.u64 (Int.u64 (clock w (S (ticks w) + i)) / 1000
             - Int.u32 (Int.u64 (clock w (ticks w)) / 1000))
    < Int.u64 (Timeout * 1000).

(** A module that reports the join status [status] and accepts everything
    else. *)
Definition status_module (status : string) (log : list string) : Reply :=
  if String.eqb (List.last log "") "AT+NJS=?"
  then Build_Reply RAK3172_ERR_OK status "OK"
  else accept_all log.

(** What the next [xQueueReceive] yields, the world after the wait hook
    has been given its turn, and what the confirmed transmission makes of
    an event. *)
Definition next_event (w : World) : option string :=
  match events w with
  | [] => None
  | e :: _ => e
  end.

Definition hooked (Wait : RAK3172_Wait_t) (w : World) : World :=
  snd (call_hook Wait w).

Definition Transmit_verdict (Line : option string) : option RAK3172_Error_t :=
  match Line with
  | Some l =>
      if Str.contains l "SEND CONFIRMED FAILED"
      then Some RAK3172_ERR_INVALID_RESPONSE
      else if Str.contains l "SEND CONFIRMED OK"
      then Some RAK3172_ERR_OK
      else None
  | None => None
  end.

(** The send command of [RAK3172_LoRaWAN_Transmit]. *)
Definition SEND (Port : Z) (buf : list Byte.byte) : string :=
  "AT+SEND=" ++ Str.to_string Port ++ ":" ++ hex_string false buf.

(** A module that accepts every command and reports [status] as the raw
    status text. *)
Definition status_text_module (status : string) (log : list string) : Reply :=
  Build_Reply RAK3172_ERR_OK "" status.

(** The module has accepted both commands of a transmission and does not
    report itself busy. *)
Definition send_accepted (Port : Z) (buf : list Byte.byte) (Confirmed : bool)
    (w : World) : Prop :=
  let r1 := respond w (sent w ++ [CFM Confirmed])%list in
  let r2 := respond w (sent w ++ [CFM Confirmed; SEND Port buf])%list in
  Error r1 = RAK3172_ERR_OK /\ Error r2 = RAK3172_ERR_OK
  /\ Str.contains (Status r2) "AT_BUSY_ERROR" = false.

Definition confirming_world (lines : list (option string)) : World :=
  Build_World joined_device [] accept_all lines
              (fun n => 1000000 * Z.of_nat n) 0 [] 0.

(** No colon in a string. *)
Definition colon_free (s : string) : bool :=
  all_chars (fun c => negb (Str.mem_char c ":")) s.

(** Every line that is still to arrive is shorter than [npos]. *)
Definition lines_fit (w : World) : Prop :=
  Forall (fun ev => match ev with
                    | Some l => Str.size l < Str.npos
                    | None => True
                    end) (events w).

(** The argument last given with the command [key], as a module that
    keeps a setting would report it; [cur] before the first write. *)
Fixpoint stored_arg (key : string) (log : list string) (cur : string) : string :=
  match log with
  | [] => cur
  | c :: r =>
      stored_arg key r
        match arg_of key c with
        | Some a => if String.eqb a "?" then cur else a
        | None => cur
        end
  end.

(** A module that keeps the band it was last given and reports it back. *)
Definition band_store (log : list string) : Reply :=
  if String.eqb (List.last log "") "AT+BAND=?"
  then Build_Reply RAK3172_ERR_OK (stored_arg "AT+BAND=" log "4") "OK"
  else accept_all log.

(** [SetBand(Band)] followed by [GetBand] on that module. *)
Definition set_then_get_band (Band : RAK3172_Band_t)
  : Result (RAK3172_Error_t * option RAK3172_Band_t) :=
  let w0 := world_of idle_device band_store in
  fst (RAK3172_LoRaWAN_GetBand Out (snd (RAK3172_LoRaWAN_SetBand Band w0))).

(** A module that answers every query with the value [v]. *)
Definition value_module (v : string) (log : list string) : Reply :=
  Build_Reply RAK3172_ERR_OK v "OK".

(** A getter that lets the exception of [std::stoi] escape. *)
Definition throws_on_bad_value {T : Type} (m : M (RAK3172_Error_t * option T))
    (Command : string) : Prop :=
  forall (w : World) (e : Str.exn),
    let r := respond w (sent w ++ [Command])%list in
    Error r = RAK3172_ERR_OK -> Str.stoi (Value r) = inl e ->
    m w = (Throw e, after_send Command w).

(** The check behind the band round trip, for one band value. *)
Definition band_comes_back (n : nat) : bool :=
  match set_then_get_band (Z.of_nat n) with
  | Ok (RAK3172_ERR_OK, Some b) => b =? Z.of_nat n
  | _ => false
  end.

(** The number a string of hexadecimal digits denotes. *)
Fixpoint hex_number_from (acc : Z) (s : string) : option Z :=
  match s with
  | EmptyString => Some acc
  | String c r =>
      match hex_val c with
      | Some d => hex_number_from (16 * acc + d) r
      | None => None
      end
  end.

Definition hex_number (s : string) : option Z := hex_number_from 0 s.

(** [t] is what a [uint8_t] (bounds 0 and 255) or an [int8_t] (bounds -128
    and 127) holds after the number [v] has been cast to it: the number in
    that range that differs from [v] by a multiple of 256, which is [v]
    itself when [v] is in the range. *)
Definition reduced (lo hi v t : Z) : Prop :=
  lo <= t <= hi /\ (t - v) mod 256 = 0 /\ (lo <= v <= hi -> t = v).

(** A buffer in the text written for it: the two hexadecimal characters
    of every byte in buffer order and nothing else, in the given case,
    twice as many characters as bytes, reading back as the buffer. *)
Definition encodes (upper : bool) (s : string) (bs : list Byte.byte) : Prop :=
  s = hex_string upper bs
  /\ String.length s = (2 * List.length bs)%nat
  /\ all_chars (is_hex upper) s = true
  /\ hex_decode s = Some bs.

(** A getter that asks for the band first: on a world whose band query
    succeeds it writes [AT+BAND=?] and its own query and nothing else, and
    on success of the second query its result is the value captured by
    that query, read by [std::stoi] and converted by [cast]. *)
Definition queries_after_band {T : Type} (m : M (RAK3172_Error_t * option T))
    (w : World) (Command : string) (cast : Z -> T) : Prop :=
  let r := respond w (sent w ++ ["AT+BAND=?"; Command])%list in
  sent (snd (m w)) = (sent w ++ ["AT+BAND=?"; Command])%list
  /\ (forall v : Z, Error r = RAK3172_ERR_OK -> Str.stoi (Value r) = inr v ->
        fst (m w) = Ok (RAK3172_ERR_OK, Some (cast v)))
  /\ (Error r <> RAK3172_ERR_OK -> fst (m w) = Ok (Error r, None)).

(** The sub-band [GetSubBand] makes of the number read from the mask. *)
Definition sub_band_of_mask (v : Z) : RAK3172_SubBand_t :=
  if Int.u32 v =? 0 then RAK_SUB_BAND_ALL else Z.log2 (Int.u32 v) + 3.

(** A command written after a successful band query: the outcome of the
    call is the outcome of that command. *)
Definition sends_after_band (m : M RAK3172_Error_t) (w : World)
    (Command : string) : Prop :=
  m w = (Ok (Error (respond w (sent w ++ ["AT+BAND=?"; Command])%list)),
         after_send Command (after_send "AT+BAND=?" w)).

(** A module on EU868 that reports the duty time [v]. *)
Definition duty_module (v : string) (log : list string) : Reply :=
  if String.eqb (List.last log "") "AT+DUTYTIME=?"
  then Build_Reply RAK3172_ERR_OK v "OK"
  else band_module RAK_BAND_EU868 log.

(** * Properties *)

(** ** Library functions on examples *)

Example to_string_7 : Str.to_string 7 = "7".
Proof. reflexivity. Qed.

Example stoi_neg : Str.stoi "-60, SNR 7" = inr (-60).
Proof. reflexivity. Qed.

Example stoi_letter : Str.stoi "I -60,SNR 7" = inl Str.invalid_argument.
Proof. reflexivity. Qed.

Example sprintf_mask : Str.sprintf_hex true 4 2048 = "0800".
Proof. reflexivity. Qed.

Example sprintf_byte : Str.sprintf_hex false 2 171 = "ab".
Proof. reflexivity. Qed.

(** ** Strings *)

Lemma append_nil_r (s : string) : s ++ "" = s.
Proof. induction s as [|c s IH]; simpl; [reflexivity | now rewrite IH]. Qed.

Lemma append_assoc (s t u : string) : (s ++ t) ++ u = s ++ (t ++ u).
Proof. induction s as [|c s IH]; simpl; [reflexivity | now rewrite IH]. Qed.

Lemma length_append (s t : string) :
  String.length (s ++ t) = (String.length s + String.length t)%nat.
Proof. induction s as [|c s IH]; simpl; [reflexivity | now rewrite IH]. Qed.

Lemma all_chars_append (P : ascii -> bool) (s t : string) :
  all_chars P (s ++ t) = (all_chars P s && all_chars P t)%bool.
Proof.
  induction s as [|c s IH]; simpl; [reflexivity|].
  now rewrite IH, andb_assoc.
Qed.

(** ** One byte *)

Lemma sprintf_hex_byte (upper : bool) (b : Byte.byte) :
  exists hi lo : ascii,
    Str.sprintf_hex upper 2 (byte_val b) = String hi (String lo "")
    /\ is_hex upper hi = true /\ is_hex upper lo = true
    /\ hex_pair hi lo = Some b.
Proof.
  destruct upper; destruct b;
    (eexists; eexists; repeat split; vm_compute; reflexivity).
Qed.

Lemma hex_string_length (upper : bool) (bs : list Byte.byte) :
  String.length (hex_string upper bs) = (2 * List.length bs)%nat.
Proof.
  induction bs as [|b r IH]; [reflexivity|].
  destruct (sprintf_hex_byte upper b) as (hi & lo & E & _).
  simpl hex_string. rewrite E. simpl. rewrite IH. lia.
Qed.

Lemma hex_string_chars (upper : bool) (bs : list Byte.byte) :
  all_chars (is_hex upper) (hex_string upper bs) = true.
Proof.
  induction bs as [|b r IH]; [reflexivity|].
  destruct (sprintf_hex_byte upper b) as (hi & lo & E & Hhi & Hlo & _).
  simpl hex_string. rewrite E. simpl. now rewrite Hhi, Hlo, IH.
Qed.

Lemma hex_decode_string (upper : bool) (bs : list Byte.byte) :
  hex_decode (hex_string upper bs) = Some bs.
Proof.
  induction bs as [|b r IH]; [reflexivity|].
  destruct (sprintf_hex_byte upper b) as (hi & lo & E & _ & _ & D).
  simpl hex_string. rewrite E. simpl. now rewrite D, IH.
Qed.

Lemma hex_string_app (upper : bool) (xs ys : list Byte.byte) :
  hex_string upper (xs ++ ys) = hex_string upper xs ++ hex_string upper ys.
Proof.
  induction xs as [|x xs IH]; simpl; [reflexivity|].
  now rewrite IH, append_assoc.
Qed.

(** ** The encoding loops *)

Lemma skipn_nth_error {A : Type} (p : list A) (i : nat) (b : A) :
  nth_error p i = Some b -> skipn i p = b :: skipn (S i) p.
Proof.
  revert i; induction p as [|a p IH]; intros [|i] H; simpl in *;
    try discriminate.
  - now inversion H.
  - now apply IH.
Qed.

Lemma hex_loop_spec (upper : bool) (p : list Byte.byte) (n i : nat) (s : string) :
  (i + n <= List.length p)%nat ->
  hex_loop upper p i n s = Some (s ++ hex_string upper (firstn n (skipn i p))).
Proof.
  revert i s; induction n as [|n IH]; intros i s H; simpl.
  - now rewrite append_nil_r.
  - destruct (nth_error p i) as [b|] eqn:E.
    + rewrite (skipn_nth_error _ _ _ E). simpl.
      rewrite IH by lia. now rewrite append_assoc.
    + apply nth_error_None in E. lia.
Qed.

Lemma hex_loop2_spec (upper : bool) (p q : list Byte.byte) (n i : nat)
    (s t : string) :
  (i + n <= List.length p)%nat -> (i + n <= List.length q)%nat ->
  hex_loop2 upper p q i n s t =
    Some (s ++ hex_string upper (firstn n (skipn i p)),
          t ++ hex_string upper (firstn n (skipn i q))).
Proof.
  revert i s t; induction n as [|n IH]; intros i s t Hp Hq; simpl.
  - now rewrite !append_nil_r.
  - destruct (nth_error p i) as [b|] eqn:Ep.
    2:{ apply nth_error_None in Ep. lia. }
    destruct (nth_error q i) as [c|] eqn:Eq.
    2:{ apply nth_error_None in Eq. lia. }
    rewrite (skipn_nth_error _ _ _ Ep), (skipn_nth_error _ _ _ Eq). simpl.
    rewrite IH by lia. now rewrite !append_assoc.
Qed.

Lemma hex_loop_all (upper : bool) (bs : list Byte.byte) :
  hex_loop upper bs 0 (List.length bs) "" = Some (hex_string upper bs).
Proof.
  rewrite hex_loop_spec by lia. simpl. now rewrite firstn_all.
Qed.


(** ** Running the monad *)

Lemma bind_Ok {A B : Type} (m : M A) (k : A -> M B) (w w' : World) (a : A) :
  m w = (Ok a, w') -> bind m k w = k a w'.
Proof. intros H. unfold bind. now rewrite H. Qed.

Lemma SendCommand_run (c : string) (w : World) :
  RAK3172_SendCommand c w =
    (Ok (respond w (sent w ++ [c])%list),
     Build_World (Device w) (sent w ++ [c])%list (respond w) (events w)
                 (clock w) (ticks w) (joined_events w) (hook_calls w)).
Proof. reflexivity. Qed.

Ltac run :=
  unfold RAK3172_ERROR_CHECK, returning, defined, may_throw, modify, get, ret,
         undefined, out_of_fuel, bind; simpl.

(** ** Transmission *)

(** C1: on a joined device, [Transmit(port = 5, payload = NULL,
    length = 0)] is supposed to succeed without a transport write.  The
    first guard of the function rejects a NULL buffer exactly when the
    length is zero, so the call ends with [RAK3172_ERR_INVALID_ARG] before
    the zero-length branch is reached; nothing is written. *)
Theorem Transmit_null_zero_length :
  forall (fuel : nat) (Timeout : Z) (Confirmed : bool) (Wait : RAK3172_Wait_t),
    let w := world_of joined_device accept_all in
    RAK3172_LoRaWAN_Transmit fuel 5 None 0 Timeout Confirmed Wait w
      = (Ok RAK3172_ERR_INVALID_ARG, w).
Proof. reflexivity. Qed.

(** The guard does so in every world and for every port. *)
Lemma Transmit_null_zero_length_any (fuel : nat) (Port Timeout : Z)
    (Confirmed : bool) (Wait : RAK3172_Wait_t) (w : World) :
  RAK3172_LoRaWAN_Transmit fuel Port None 0 Timeout Confirmed Wait w
    = (Ok RAK3172_ERR_INVALID_ARG, w).
Proof. reflexivity. Qed.

(** The zero-length branch is taken for a buffer that is not NULL. *)
Lemma Transmit_zero_length (fuel : nat) (Port Timeout : Z) (buf : list Byte.byte)
    (Confirmed : bool) (Wait : RAK3172_Wait_t) (w : World) :
  Port <> 0 -> LoRaWAN_isJoined (Device w) = true ->
  RAK3172_LoRaWAN_Transmit fuel Port (Some buf) 0 Timeout Confirmed Wait w
    = (Ok RAK3172_ERR_OK, w).
Proof.
  intros HP HJ. unfold RAK3172_LoRaWAN_Transmit. run.
  apply Z.eqb_neq in HP. now rewrite HP, HJ.
Qed.

(** A NULL buffer with a length above zero passes the guard and is read. *)
Lemma Transmit_null_nonzero_length (fuel : nat) (Port Length Timeout : Z)
    (Confirmed : bool) (Wait : RAK3172_Wait_t) (w : World) :
  Port <> 0 -> Length <> 0 -> LoRaWAN_isJoined (Device w) = true ->
  RAK3172_LoRaWAN_Transmit fuel Port None Length Timeout Confirmed Wait w
    = (Undefined, w).
Proof.
  intros HP HL HJ. unfold RAK3172_LoRaWAN_Transmit. run.
  apply Z.eqb_neq in HP. apply Z.eqb_neq in HL. now rewrite HP, HL, HJ.
Qed.

(** C8: on a device that is not joined, [Transmit(port = 1, one byte,
    confirmed = false)] returns [RAK3172_ERR_NOT_CONNECTED] and leaves the
    world as it was: no command is written. *)
Theorem Transmit_not_joined (fuel : nat) (b : Byte.byte) (Timeout : Z)
    (Wait : RAK3172_Wait_t) (w : World) :
  LoRaWAN_isJoined (Device w) = false ->
  RAK3172_LoRaWAN_Transmit fuel 1 (Some [b]) 1 Timeout false Wait w
    = (Ok RAK3172_ERR_NOT_CONNECTED, w).
Proof.
  intros HJ. unfold RAK3172_LoRaWAN_Transmit. run. now rewrite HJ.
Qed.

Lemma Transmit_not_joined_witness :
  LoRaWAN_isJoined (Device (world_of idle_device accept_all)) = false
  /\ RAK3172_LoRaWAN_Transmit 0 1 (Some [Byte.x01]) 1 0 false None
       (world_of idle_device accept_all)
     = (Ok RAK3172_ERR_NOT_CONNECTED, world_of idle_device accept_all).
Proof.
  split; [reflexivity|].
  apply (Transmit_not_joined 0 Byte.x01 0 None (world_of idle_device accept_all)).
  reflexivity.
Defined.

(** ** P2P encryption *)

Lemma EnableEncryption_run (key : list Byte.byte) (w : World) :
  (8 <= List.length key)%nat ->
  RAK3172_P2P_EnableEncryption (Some key) w =
    if is_OK (Error (respond w (sent w ++ [ENCRY_on])%list))
    then returning (RAK3172_SendCommand (ENCKEY key))
           (set_Device (set_isEncryptionEnabled true (Device w))
                       (after_send ENCRY_on w))
    else (Ok (Error (respond w (sent w ++ [ENCRY_on])%list)),
          after_send ENCRY_on w).
Proof.
  intros H. unfold RAK3172_P2P_EnableEncryption, RAK3172_ERROR_CHECK.
  rewrite (bind_Ok _ _ _ _ _ (SendCommand_run _ w)).
  change ("AT+ENCRY=" ++ Str.to_string_bool true) with ENCRY_on.
  destruct (Error (respond w (sent w ++ [ENCRY_on])%list)) eqn:E;
    try reflexivity.
  simpl is_OK. cbv iota.
  unfold bind at 1. unfold modify at 1.
  rewrite (hex_loop_spec false key 8 0 "") by (simpl; lia).
  reflexivity.
Qed.

(** C9: [RAK3172_P2P_EnableEncryption] answers a NULL key with
    [RAK3172_ERR_INVALID_ARG] without writing anything.  For a key that is
    not NULL the first command is [AT+ENCRY=1]; once the module has accepted
    it, the second and last command is [AT+ENCKEY=] followed by the first 8
    bytes of the key as 16 lower-case hexadecimal characters, and its
    outcome is the outcome of the call.  (When the module refuses
    [AT+ENCRY=1] the call ends there with that error.) *)
Theorem EnableEncryption_commands (p_Key : option (list Byte.byte)) (w : World) :
  (forall key, p_Key = Some key -> (8 <= List.length key)%nat) ->
  match p_Key with
  | None => RAK3172_P2P_EnableEncryption p_Key w = (Ok RAK3172_ERR_INVALID_ARG, w)
  | Some key =>
      let hex := hex_string false (firstn 8 key) in
      let r1 := respond w (sent w ++ [ENCRY_on])%list in
      let r2 := respond w (sent w ++ [ENCRY_on; ENCKEY key])%list in
      let run := RAK3172_P2P_EnableEncryption p_Key w in
      String.length hex = 16%nat
      /\ all_chars (is_hex false) hex = true
      /\ hex_decode hex = Some (firstn 8 key)
      /\ (Error r1 = RAK3172_ERR_OK ->
          fst run = Ok (Error r2)
          /\ sent (snd run) = (sent w ++ [ENCRY_on; ENCKEY key])%list)
      /\ (Error r1 <> RAK3172_ERR_OK ->
          fst run = Ok (Error r1)
          /\ sent (snd run) = (sent w ++ [ENCRY_on])%list)
  end.
Proof.
  intros H. destruct p_Key as [key|]; [|reflexivity].
  specialize (H key eq_refl). cbv zeta.
  rewrite (EnableEncryption_run key w H).
  split.
  { rewrite hex_string_length, length_firstn. lia. }
  split; [apply hex_string_chars|]. split; [apply hex_decode_string|].
  split; intros E.
  - rewrite E. simpl.
    rewrite <- app_assoc. simpl. split; reflexivity.
  - destruct (Error (respond w (sent w ++ [ENCRY_on])%list)); try congruence;
      split; reflexivity.
Qed.

Lemma EnableEncryption_commands_witness :
  let w := world_of idle_device accept_all in
  fst (RAK3172_P2P_EnableEncryption (Some key16) w) = Ok RAK3172_ERR_OK
  /\ sent (snd (RAK3172_P2P_EnableEncryption (Some key16) w))
     = ["AT+ENCRY=1"; "AT+ENCKEY=0011223344556677"].
Proof.
  assert (K : forall key, Some key16 = Some key -> (8 <= List.length key)%nat).
  { intros key E. inversion E. subst key. simpl. lia. }
  destruct (EnableEncryption_commands (Some key16)
              (world_of idle_device accept_all) K) as (_ & _ & _ & H & _).
  exact (H eq_refl).
Defined.



(** ** Transmit power *)

Ltac split_tests :=
  repeat match goal with
         | |- context [?a =? ?b] => destruct (Z.eqb_spec a b)
         | |- context [?a <=? ?b] => destruct (Z.leb_spec a b)
         | |- context [?a <? ?b] => destruct (Z.ltb_spec a b)
         end.

Lemma TxPwrIndex_spec (Band TxPwr : Z) :
  0 <= TxPwr < 256 -> TxPwrIndex Band TxPwr = spec_TxPwrIndex Band TxPwr.
Proof.
  intros H. unfold TxPwrIndex, spec_TxPwrIndex, Int.u8.
  split_tests; try reflexivity;
    Z.to_euclidean_division_equations; lia.
Qed.

Lemma TxPwrIndex_antitone (Band p q : Z) :
  0 <= p -> p <= q -> q < 256 -> TxPwrIndex Band q <= TxPwrIndex Band p.
Proof.
  intros H0 H1 H2.
  rewrite !TxPwrIndex_spec by lia. unfold spec_TxPwrIndex.
  split_tests; try lia; Z.to_euclidean_division_equations; lia.
Qed.

Lemma check_GetBand_run {B : Type} (leave : RAK3172_Error_t -> B)
    (k : RAK3172_Band_t -> M B) (w : World) (Band : RAK3172_Band_t) :
  band_query_yields w Band ->
  check_GetBand leave k w = k Band (after_send "AT+BAND=?" w).
Proof.
  intros [E V].
  unfold check_GetBand, RAK3172_LoRaWAN_GetBand, query, RAK3172_ERROR_CHECK.
  simpl is_NULL. cbv iota.
  unfold bind at 1. unfold bind at 1. rewrite SendCommand_run, E.
  unfold bind at 1. unfold may_throw at 1. rewrite V. reflexivity.
Qed.

(** C3: when the band query yields [Band], [SetTxPwr] sends [AT+TXP=]
    with the index the specification gives for that band (EU868: 0 from
    16 dBm, 10 below 2 dBm, otherwise (16 - dBm)/2; US915: 0 from 30 dBm,
    10 below 10 dBm, otherwise (30 - dBm)/2; 0 for every other band), the
    outcome of the call is the outcome of that command, so that no band
    makes the call fail by itself, and the index does not increase when
    the requested power does. *)
Theorem SetTxPwr_index (w : World) (Band : RAK3172_Band_t) (TxPwr : Z) :
  0 <= TxPwr < 256 ->
  band_query_yields w Band ->
  let idx := spec_TxPwrIndex Band TxPwr in
  let TXP := "AT+TXP=" ++ Str.to_string idx in
  let run := RAK3172_LoRaWAN_SetTxPwr TxPwr w in
  TxPwrIndex Band TxPwr = idx
  /\ sent (snd run) = (sent w ++ ["AT+BAND=?"; TXP])%list
  /\ fst run = Ok (Error (respond w (sent w ++ ["AT+BAND=?"; TXP])%list))
  /\ (Band <> RAK_BAND_EU868 -> Band <> RAK_BAND_US915 -> idx = 0)
  /\ (forall p q : Z, 0 <= p -> p <= q -> q < 256 ->
        TxPwrIndex Band q <= TxPwrIndex Band p).
Proof.
  intros HT HB. cbv zeta.
  split; [now apply TxPwrIndex_spec|].
  unfold RAK3172_LoRaWAN_SetTxPwr.
  rewrite (check_GetBand_run _ _ w Band HB).
  rewrite (TxPwrIndex_spec Band TxPwr HT).
  unfold returning. unfold bind. rewrite SendCommand_run. simpl.
  rewrite <- app_assoc. simpl.
  split; [reflexivity|]. split; [reflexivity|]. split.
  - intros N1 N2. unfold spec_TxPwrIndex.
    apply Z.eqb_neq in N1, N2. now rewrite N1, N2.
  - intros p q. apply TxPwrIndex_antitone.
Qed.

Lemma SetTxPwr_index_witness :
  let w := world_of idle_device (band_module RAK_BAND_EU868) in
  sent (snd (RAK3172_LoRaWAN_SetTxPwr 7 w)) = ["AT+BAND=?"; "AT+TXP=4"]
  /\ fst (RAK3172_LoRaWAN_SetTxPwr 7 w) = Ok RAK3172_ERR_OK.
Proof.
  assert (HT : 0 <= 7 < 256) by lia.
  assert (HB : band_query_yields (world_of idle_device (band_module RAK_BAND_EU868))
                                 RAK_BAND_EU868)
    by (split; reflexivity).
  destruct (SetTxPwr_index _ _ 7 HT HB) as (_ & S & R & _).
  split; [exact S | exact R].
Defined.

Example TxPwrIndex_EU868 :
  map (TxPwrIndex RAK_BAND_EU868) [0; 1; 2; 3; 4; 15; 16; 17; 255]
    = [10; 10; 7; 6; 6; 0; 0; 0; 0].
Proof. reflexivity. Qed.

Example TxPwrIndex_US915 :
  map (TxPwrIndex RAK_BAND_US915) [0; 9; 10; 11; 12; 29; 30; 255]
    = [10; 10; 10; 9; 9; 0; 0; 0].
Proof. reflexivity. Qed.

Example TxPwrIndex_AS923 :
  map (TxPwrIndex RAK_BAND_AS923) [0; 14; 255] = [0; 0; 0].
Proof. reflexivity. Qed.

(** ** Sub-band mask *)

(** C2: the round trip [GetSubBand] after [SetSubBand(x)] is supposed to
    give [x] back.  On band US915, [SetSubBand(RAK_SUB_BAND_1)] succeeds
    and writes the mask [1 << 0] as "0001"; [GetSubBand] then reads that
    mask, starts its counter at 1, needs no shift, adds 2 and reports
    [RAK_SUB_BAND_2]. *)
Theorem SubBand_roundtrip_off_by_one :
  set_then_get RAK_BAND_US915 RAK_SUB_BAND_1
    = (Ok RAK3172_ERR_OK,
       ["AT+BAND=?"; "AT+MASK=0001"; "AT+BAND=?"; "AT+MASK=?"],
       Ok (RAK3172_ERR_OK, Some RAK_SUB_BAND_2))
  /\ RAK_SUB_BAND_2 <> RAK_SUB_BAND_1.
Proof. split; [vm_compute; reflexivity | discriminate]. Qed.

(** The whole table on CN470, where every sub-band can be set: the mask is
    written in hexadecimal and read back with [std::stoi] in decimal, and
    the counter is one ahead.  The value comes back for ALL and, the two
    effects cancelling, for the sub-bands 5 to 8. *)
Example SubBand_roundtrip_table :
  map (fun x => snd (set_then_get RAK_BAND_CN470 x))
      [1; 2; 3; 4; 5; 6; 7; 8; 9; 10; 11; 12; 13]
  = map (fun y => Ok (RAK3172_ERR_OK, Some y))
      [1; 3; 4; 5; 6; 6; 7; 8; 9; 9; 10; 11; 12].
Proof. vm_compute. reflexivity. Qed.

Example SubBand_masks :
  map (fun x => snd (fst (set_then_get RAK_BAND_CN470 x))) [1; 2; 6; 13]
  = [ ["AT+BAND=?"; "AT+MASK=0000"; "AT+BAND=?"; "AT+MASK=?"];
      ["AT+BAND=?"; "AT+MASK=0001"; "AT+BAND=?"; "AT+MASK=?"];
      ["AT+BAND=?"; "AT+MASK=0010"; "AT+BAND=?"; "AT+MASK=?"];
      ["AT+BAND=?"; "AT+MASK=0800"; "AT+BAND=?"; "AT+MASK=?"] ].
Proof. vm_compute. reflexivity. Qed.

(** The shift loop ends within 32 steps on every non-zero 32-bit mask. *)
Lemma GetSubBand_shifts_total (fuel : nat) (Mask Shifts : Z) :
  0 < Mask < 2 ^ Z.of_nat fuel ->
  exists n, GetSubBand_shifts fuel Mask Shifts = Some n.
Proof.
  revert Mask Shifts; induction fuel as [|fuel IH]; intros Mask Shifts H.
  - simpl in H. lia.
  - simpl. destruct (Z.eqb_spec Mask 1) as [|N]; [eauto|].
    apply IH. rewrite Z.shiftr_div_pow2 by lia.
    rewrite Nat2Z.inj_succ, Z.pow_succ_r in H by lia.
    change (2 ^ 1) with 2. split.
    + apply Z.div_str_pos. lia.
    + apply Z.div_lt_upper_bound; lia.
Qed.

(** The second half of the property holds: outside US915, AU915 and CN470
    every sub-band other than NONE is refused with [RAK3172_ERR_FAIL] once
    the band is known, and no mask is written. *)
Lemma SetSubBand_unsupported_band (w : World) (Band : RAK3172_Band_t)
    (x : RAK3172_SubBand_t) :
  x <> RAK_SUB_BAND_NONE ->
  band_query_yields w Band ->
  Band <> RAK_BAND_US915 -> Band <> RAK_BAND_AU915 -> Band <> RAK_BAND_CN470 ->
  RAK3172_LoRaWAN_SetSubBand x w
    = (Ok RAK3172_ERR_FAIL, after_send "AT+BAND=?" w).
Proof.
  intros Hx HB N1 N2 N3. unfold RAK3172_LoRaWAN_SetSubBand.
  apply Z.eqb_neq in Hx, N1, N2, N3. rewrite Hx.
  rewrite (check_GetBand_run _ _ w Band HB). now rewrite N1, N2, N3.
Qed.

Lemma SetSubBand_none (w : World) :
  RAK3172_LoRaWAN_SetSubBand RAK_SUB_BAND_NONE w = (Ok RAK3172_ERR_OK, w).
Proof. reflexivity. Qed.

(** ** Joining *)

(** C5: [StartJoin] is supposed to invoke the caller's wait hook on every
    polling iteration.  With a hook that is not NULL, on a device that
    joins during the third sleep, the call sends the join command, polls
    three times (all three scripted sleeps are used up) and returns
    success, and the hook has not been invoked once. *)
Theorem StartJoin_ignores_hook :
  let run := RAK3172_LoRaWAN_StartJoin 3 0 1 false 10 (Some tt) joining_world in
  fst run = Ok RAK3172_ERR_OK
  /\ sent (snd run) = ["AT+JOIN=1:0:10:1"]
  /\ joined_events (snd run) = []
  /\ LoRaWAN_isJoined (Device (snd run)) = true
  /\ hook_calls (snd run) = 0%nat.
Proof. vm_compute. repeat split; reflexivity. Qed.

(** The polling loop of the confirmed transmission, for comparison, calls
    the hook once per iteration. *)
Example Transmit_wait_calls_hook :
  let w := Build_World joined_device [] accept_all
             [None; None; Some "+EVT:SEND CONFIRMED OK"]
             (fun n => 1000 * Z.of_nat n) 0 [] 0 in
  let run := RAK3172_LoRaWAN_Transmit 3 1 (Some [Byte.x01]) 1 0 true (Some tt) w in
  fst run = Ok RAK3172_ERR_OK /\ hook_calls (snd run) = 3%nat.
Proof. vm_compute. split; reflexivity. Qed.

Lemma light_sleep_run (w : World) : light_sleep w = (Ok tt, slept w).
Proof. unfold slept, light_sleep. now destruct (joined_events w). Qed.

Lemma millis_run (w : World) :
  millis w = (Ok (Int.u64 (clock w (ticks w)) / 1000), tick w).
Proof. reflexivity. Qed.

(** One iteration of the polling loop, spelled out. *)
Lemma StartJoin_loop_step (fuel : nat) (Timeout TimeNow : Z) (w : World) :
  StartJoin_loop (S fuel) Timeout TimeNow w =
    if 0 <? Timeout
    then
      if Int.u64 (Timeout * 1000)
           <=? Int.u64 (Int.u64 (clock w (ticks w)) / 1000 - TimeNow)
      then (Ok RAK3172_ERR_TIMEOUT, after_send STOP_JOIN (tick w))
      else if LoRaWAN_isJoined (Device (slept (tick w)))
      then (Ok RAK3172_ERR_OK, slept (tick w))
      else StartJoin_loop fuel Timeout TimeNow (slept (tick w))
    else if LoRaWAN_isJoined (Device (slept w))
    then (Ok RAK3172_ERR_OK, slept w)
    else StartJoin_loop fuel Timeout TimeNow (slept w).
Proof.
  simpl. unfold bind at 1.
  destruct (0 <? Timeout).
  - unfold bind at 1. rewrite millis_run. unfold ret at 1.
    destruct (Int.u64 (Timeout * 1000)
                <=? Int.u64 (Int.u64 (clock w (ticks w)) / 1000 - TimeNow)).
    + reflexivity.
    + unfold bind at 1. rewrite light_sleep_run.
      unfold bind at 1. unfold get.
      now destruct (LoRaWAN_isJoined (Device (slept (tick w)))).
  - unfold ret at 1. unfold bind at 1. rewrite light_sleep_run.
    unfold bind at 1. unfold get.
    now destruct (LoRaWAN_isJoined (Device (slept w))).
Qed.

Lemma hook_calls_slept (w : World) : hook_calls (slept w) = hook_calls w.
Proof.
  unfold slept, light_sleep. now destruct (joined_events w) as [|[] ?].
Qed.

Lemma sent_slept (w : World) : sent (slept w) = sent w.
Proof.
  unfold slept, light_sleep. now destruct (joined_events w) as [|[] ?].
Qed.

Lemma StartJoin_loop_hook (fuel : nat) (Timeout TimeNow : Z) (w : World) :
  hook_calls (snd (StartJoin_loop fuel Timeout TimeNow w)) = hook_calls w.
Proof.
  revert w; induction fuel as [|fuel IH]; intros w; [reflexivity|].
  rewrite StartJoin_loop_step.
  repeat match goal with |- context [if ?c then _ else _] => destruct c end;
    cbn [snd]; rewrite ?IH, ?hook_calls_slept; reflexivity.
Qed.

(** In no world and for no arguments does [StartJoin] invoke the hook. *)
Lemma StartJoin_never_calls_hook (fuel : nat) (Timeout Attempts : Z)
    (EnableAutoJoin : bool) (Interval : Z) (on_Wait : RAK3172_Wait_t) (w : World) :
  hook_calls
    (snd (RAK3172_LoRaWAN_StartJoin fuel Timeout Attempts EnableAutoJoin
            Interval on_Wait w))
  = hook_calls w.
Proof.
  unfold RAK3172_LoRaWAN_StartJoin, RAK3172_ERROR_CHECK.
  unfold bind at 1. unfold get.
  destruct (Attempts =? 0); [reflexivity|].
  destruct (LoRaWAN_isJoined (Device w)); [reflexivity|].
  unfold bind at 1. rewrite SendCommand_run.
  match goal with |- context [match Error ?r with _ => _ end] =>
    destruct (Error r) end; try reflexivity.
  unfold bind at 1. rewrite millis_run.
  now rewrite StartJoin_loop_hook.
Qed.

(** The other parts of the description hold.  A joined device: success at
    once, nothing written. *)
Lemma StartJoin_already_joined (fuel : nat) (Timeout Attempts : Z)
    (EnableAutoJoin : bool) (Interval : Z) (on_Wait : RAK3172_Wait_t) (w : World) :
  Attempts <> 0 -> LoRaWAN_isJoined (Device w) = true ->
  RAK3172_LoRaWAN_StartJoin fuel Timeout Attempts EnableAutoJoin Interval on_Wait w
    = (Ok RAK3172_ERR_OK, w).
Proof.
  intros HA HJ. unfold RAK3172_LoRaWAN_StartJoin. run.
  apply Z.eqb_neq in HA. now rewrite HA, HJ.
Qed.

(** A timeout is reported only after the stop-join command has been
    written, and only for a timeout above zero. *)
Lemma StartJoin_loop_timeout (fuel : nat) (Timeout TimeNow : Z) (w w' : World) :
  StartJoin_loop fuel Timeout TimeNow w = (Ok RAK3172_ERR_TIMEOUT, w') ->
  0 < Timeout /\ exists l, sent w' = (l ++ [STOP_JOIN])%list.
Proof.
  revert w; induction fuel as [|fuel IH]; intros w; [discriminate|].
  rewrite StartJoin_loop_step.
  destruct (Z.ltb_spec 0 Timeout) as [HT|HT].
  - repeat match goal with |- context [if ?c then _ else _] => destruct c end;
      try discriminate; try apply IH.
    intros E. inversion E. subst w'. simpl. eauto.
  - repeat match goal with |- context [if ?c then _ else _] => destruct c end;
      try discriminate. intros E. apply IH in E. lia.
Qed.

(** With a timeout of zero the loop is still polling after any number of
    iterations, as long as the device has not joined. *)
Lemma StartJoin_loop_forever (fuel : nat) (TimeNow : Z) (w : World) :
  LoRaWAN_isJoined (Device w) = false ->
  Forall (fun j => j = false) (joined_events w) ->
  fst (StartJoin_loop fuel 0 TimeNow w) = OutOfFuel.
Proof.
  revert w; induction fuel as [|fuel IH]; intros w HJ HE; [reflexivity|].
  rewrite StartJoin_loop_step. simpl (0 <? 0).
  assert (S1 : LoRaWAN_isJoined (Device (slept w)) = false).
  { unfold slept, light_sleep. destruct (joined_events w) as [|j rest]; simpl;
      [assumption|]. inversion HE. subst j. assumption. }
  assert (S2 : Forall (fun j => j = false) (joined_events (slept w))).
  { unfold slept, light_sleep. destruct (joined_events w) as [|j rest] eqn:EJ;
      simpl; [now rewrite EJ|]. now inversion HE. }
  rewrite S1. now apply IH.
Qed.

Example StartJoin_times_out :
  let w := Build_World idle_device [] accept_all []
             (fun n => 1500000 * Z.of_nat n) 0 [] 0 in
  let run := RAK3172_LoRaWAN_StartJoin 10 3 1 true 8 None w in
  fst run = Ok RAK3172_ERR_TIMEOUT
  /\ sent (snd run) = ["AT+JOIN=1:1:8:1"; "AT+JOIN=0:0:7:0"]
  /\ LoRaWAN_isJoined (Device (snd run)) = false.
Proof. vm_compute. repeat split; reflexivity. Qed.

(** ** Receiving *)

Example Hello_text : String.list_byte_of_string "Hello" = Hello.
Proof. reflexivity. Qed.

(** The fixed offsets on the two metadata lines: 7 characters past the
    first comma and 6 past the last one. *)
Example offsets_spec_example :
  Str.substr RX_spec_example 18 23 = inr "I -60,SNR 7"
  /\ Str.substr RX_spec_example 29 28 = inr "".
Proof. split; reflexivity. Qed.

Example offsets_module :
  Str.substr RX_module 16 19 = inr "-60, SNR 7"
  /\ Str.substr RX_module 25 25 = inr "7".
Proof. split; reflexivity. Qed.

(** C7, as stated: on the metadata line [+EVT:RX:-42,10,RSSI -60,SNR 7]
    followed by [+EVT:UNICAST:48656C6C6F], with RSSI and SNR requested,
    [Receive] does not return success with RSSI -60 and SNR 7: the text
    selected for the RSSI starts with a letter and [std::stoi] raises
    [std::invalid_argument] on the first line. *)
Lemma Receive_spec_line_raises :
  fst (RAK3172_LoRaWAN_Receive 5 Out Out Out 10 (receiving_world RX_spec_example))
    = Throw Str.invalid_argument
  /\ fst (RAK3172_LoRaWAN_Receive 5 Out Out Out 10 (receiving_world RX_spec_example))
     <> Ok (RAK3172_ERR_OK,
            Build_RxOut (Some "48656C6C6F") (Some (-60)) (Some 7)).
Proof. split; [vm_compute; reflexivity | vm_compute; discriminate]. Qed.

(** Requesting only one of the two values does not help. *)
Example Receive_spec_line_SNR_only :
  fst (RAK3172_LoRaWAN_Receive 5 Out NULL Out 10 (receiving_world RX_spec_example))
    = Throw Str.invalid_argument.
Proof. vm_compute. reflexivity. Qed.

Lemma xQueueReceive_run (w : World) (e : option string) (rest : list (option string)) :
  events w = e :: rest ->
  xQueueReceive w = (Ok e, pop_event w) /\ events (pop_event w) = rest.
Proof.
  intros H. unfold pop_event, xQueueReceive. rewrite H. split; reflexivity.
Qed.

(** What the steps of the environment leave alone. *)
Lemma tick_fields (w : World) :
  events (tick w) = events w /\ ticks (tick w) = S (ticks w)
  /\ sent (tick w) = sent w /\ clock (tick w) = clock w
  /\ joined_events (tick w) = joined_events w.
Proof. repeat split; reflexivity. Qed.

Lemma slept_fields (w : World) :
  events (slept w) = events w /\ ticks (slept w) = ticks w
  /\ sent (slept w) = sent w /\ clock (slept w) = clock w.
Proof.
  unfold slept, light_sleep. destruct (joined_events w); repeat split; reflexivity.
Qed.

Lemma pop_event_fields (w : World) :
  ticks (pop_event w) = ticks w /\ sent (pop_event w) = sent w
  /\ clock (pop_event w) = clock w.
Proof.
  unfold pop_event, xQueueReceive. destruct (events w); repeat split; reflexivity.
Qed.

Lemma Receive_metadata_module (o : RxOut) (w : World) :
  Receive_metadata RX_module Out Out o w
    = (Ok (Build_RxOut (Payload o) (Some (-60)) (Some 7)), w).
Proof. reflexivity. Qed.

Lemma Receive_module_lines_run (fuel : nat) (Timeout : Z) (w : World)
    (rest : list (option string)) :
  LoRaWAN_isJoined (Device w) = true ->
  1 < Timeout ->
  events w = Some RX_module :: Some UNICAST_line :: rest ->
  Int.u64 (Int.u64 (clock w (S (ticks w))) / 1000
           - Int.u32 (Int.u64 (clock w (ticks w)) / 1000)) / 1000 < Timeout ->
  RAK3172_LoRaWAN_Receive (S (S fuel)) Out Out Out Timeout w
    = (Ok (RAK3172_ERR_OK,
           Build_RxOut (Some "48656C6C6F") (Some (-60)) (Some 7)),
       pop_event (slept (tick (pop_event (tick w))))).
Proof.
  intros HJ HT HE HC.
  assert (T1 : (Timeout <=? 1) = false) by (apply Z.leb_gt; lia).
  assert (T0 : (0 <? Timeout) = true) by (apply Z.ltb_lt; lia).
  unfold RAK3172_LoRaWAN_Receive.
  unfold bind at 1. unfold get. rewrite T1, HJ. cbn [is_NULL orb negb].
  unfold bind at 1. rewrite millis_run.
  (* first line *)
  destruct (xQueueReceive_run (tick w) (Some RX_module) (Some UNICAST_line :: rest))
    as [Q1 E1]; [exact HE|].
  cbn [Receive_loop]. unfold bind at 1. rewrite Q1.
  unfold bind at 1. rewrite Receive_metadata_module.
  change (Str.contains RX_module "UNICAST") with false. cbv iota.
  rewrite T0. unfold bind at 1. unfold bind at 1. rewrite millis_run.
  unfold ret at 1.
  destruct (pop_event_fields (tick w)) as (P1 & _ & P3).
  destruct (tick_fields w) as (_ & K2 & _ & K4 & _).
  rewrite P1, P3, K2, K4.
  apply Z.leb_gt in HC. rewrite HC.
  unfold bind at 1. rewrite light_sleep_run.
  (* second line *)
  set (w2 := slept _).
  assert (E2 : events w2 = Some UNICAST_line :: rest).
  { unfold w2. destruct (slept_fields (tick (pop_event (tick w)))) as (S1 & _).
    rewrite S1. exact E1. }
  destruct (xQueueReceive_run w2 (Some UNICAST_line) rest E2) as [Q2 E3].
  unfold bind at 1. rewrite Q2. reflexivity.
Qed.

(** C7, amended: for a joined device and a timeout above 1 that has not
    run out when the first line has been handled, [Receive] on the metadata
    line [+EVT:RX_1, RSSI -60, SNR 7] followed by [+EVT:UNICAST:48656C6C6F]
    stores RSSI -60 and SNR 7, and returns success on the unicast line
    itself (two events taken from the queue, no further clock reading,
    nothing written) with the payload [48656C6C6F], the text after the
    last colon, whose bytes read "Hello". *)
Theorem Receive_module_lines (fuel : nat) (Timeout : Z) (w : World)
    (rest : list (option string)) :
  LoRaWAN_isJoined (Device w) = true ->
  1 < Timeout ->
  events w = Some RX_module :: Some UNICAST_line :: rest ->
  Int.u64 (Int.u64 (clock w (S (ticks w))) / 1000
           - Int.u32 (Int.u64 (clock w (ticks w)) / 1000)) / 1000 < Timeout ->
  let run := RAK3172_LoRaWAN_Receive (S (S fuel)) Out Out Out Timeout w in
  fst run = Ok (RAK3172_ERR_OK,
                Build_RxOut (Some "48656C6C6F") (Some (-60)) (Some 7))
  /\ events (snd run) = rest
  /\ ticks (snd run) = S (S (ticks w))
  /\ sent (snd run) = sent w
  /\ hex_decode "48656C6C6F" = Some Hello.
Proof.
  intros HJ HT HE HC. cbv zeta.
  rewrite (Receive_module_lines_run fuel Timeout w rest HJ HT HE HC).
  cbn [fst snd].
  assert (E1 : events (pop_event (tick w)) = Some UNICAST_line :: rest)
    by (apply (xQueueReceive_run (tick w) (Some RX_module)); exact HE).
  set (w1 := pop_event (tick w)) in *.
  destruct (slept_fields (tick w1)) as (S1 & S2 & S3 & _).
  destruct (pop_event_fields (slept (tick w1))) as (P1 & P2 & _).
  destruct (pop_event_fields (tick w)) as (Q1 & Q2 & _).
  split; [reflexivity|]. split.
  - apply (xQueueReceive_run (slept (tick w1)) (Some UNICAST_line)).
    rewrite S1. exact E1.
  - split; [|split; [|reflexivity]].
    + rewrite P1, S2. cbn [tick esp_timer_get_time snd ticks].
      unfold w1. rewrite Q1. reflexivity.
    + rewrite P2, S3. cbn [tick esp_timer_get_time snd sent].
      unfold w1. rewrite Q2. reflexivity.
Qed.

Lemma Receive_module_lines_witness :
  let w := receiving_world RX_module in
  fst (RAK3172_LoRaWAN_Receive 2 Out Out Out 10 w)
    = Ok (RAK3172_ERR_OK,
          Build_RxOut (Some "48656C6C6F") (Some (-60)) (Some 7))
  /\ events (snd (RAK3172_LoRaWAN_Receive 2 Out Out Out 10 w)) = [].
Proof.
  assert (HT : 1 < 10) by lia.
  assert (HC : Int.u64 (Int.u64 (clock (receiving_world RX_module)
                                   (S (ticks (receiving_world RX_module)))) / 1000
                        - Int.u32 (Int.u64 (clock (receiving_world RX_module)
                                     (ticks (receiving_world RX_module))) / 1000))
               / 1000 < 10) by (vm_compute; reflexivity).
  destruct (Receive_module_lines 0 10 (receiving_world RX_module) []
              eq_refl HT eq_refl HC) as (R & E & _).
  split; [exact R | exact E].
Defined.

(** ** Accessors and command round trips *)

(** C6, as stated: every accessor makes exactly one round trip.
    [SetRetries(3)] on a module that accepts everything makes two, first
    [AT+CFM=1] and then [AT+RETY=3]. *)
Lemma SetRetries_two_round_trips :
  sent (snd (RAK3172_LoRaWAN_SetRetries 3 (world_of idle_device accept_all)))
    = ["AT+CFM=1"; "AT+RETY=3"]
  /\ round_trips (RAK3172_LoRaWAN_SetRetries 3) (world_of idle_device accept_all)
     <> 1%nat.
Proof. split; [reflexivity | vm_compute; discriminate]. Qed.

Lemma returning_sends (Command : string) :
  sends (returning (RAK3172_SendCommand Command)) Command.
Proof. intros w. reflexivity. Qed.

Lemma query_run {T : Type} (Command : string) (cast : Z -> T) (w : World) :
  query Out Command cast w =
    let r := respond w (sent w ++ [Command])%list in
    (if is_OK (Error r)
     then match Str.stoi (Value r) with
          | inr v => Ok (RAK3172_ERR_OK, Some (cast v))
          | inl e => Throw e
          end
     else Ok (Error r, None),
     after_send Command w).
Proof.
  unfold query, RAK3172_ERROR_CHECK. cbn [is_NULL].
  unfold bind at 1. rewrite SendCommand_run. cbv zeta.
  destruct (Error (respond w (sent w ++ [Command])%list)); try reflexivity.
  cbn [is_OK]. unfold bind, may_throw.
  now destruct (Str.stoi (Value (respond w (sent w ++ [Command])%list))).
Qed.

Lemma query_queries {T : Type} (Command : string) (cast : Z -> T) :
  queries (query Out Command cast) Command cast.
Proof.
  intros w. cbv zeta. rewrite query_run. cbv zeta. cbn [fst snd].
  split; [reflexivity|]. split.
  - intros v E V. now rewrite E, V.
  - intros N. destruct (Error (respond w (sent w ++ [Command])%list));
      try reflexivity. congruence.
Qed.

Lemma query_NULL {T : Type} (Command : string) (cast : Z -> T) (w : World) :
  query NULL Command cast w = (Ok (RAK3172_ERR_INVALID_ARG, None), w).
Proof. reflexivity. Qed.

Lemma SetSubBand_writes (x : RAK3172_SubBand_t) (w : World) (Band : RAK3172_Band_t) :
  x <> RAK_SUB_BAND_NONE ->
  band_query_yields w Band -> has_sub_bands Band ->
  (x <= RAK_SUB_BAND_9 \/ Band = RAK_BAND_CN470) ->
  sent (snd (RAK3172_LoRaWAN_SetSubBand x w))
    = (sent w ++ ["AT+BAND=?"; MASK x])%list.
Proof.
  intros Hx HB HS HR. unfold RAK3172_LoRaWAN_SetSubBand.
  apply Z.eqb_neq in Hx. rewrite Hx.
  rewrite (check_GetBand_run _ _ w Band HB).
  assert (S1 : ((Band =? RAK_BAND_US915) || (Band =? RAK_BAND_AU915)
                || (Band =? RAK_BAND_CN470))%bool = true).
  { destruct HS as [-> | [-> | ->]]; reflexivity. }
  assert (S2 : ((RAK_SUB_BAND_9 <? x) && negb (Band =? RAK_BAND_CN470))%bool = false).
  { destruct HR as [L | ->]; [|now rewrite andb_false_r].
    apply Z.ltb_ge in L. now rewrite L. }
  rewrite S1, S2. unfold MASK.
  destruct (x =? RAK_SUB_BAND_ALL); unfold returning, bind;
    rewrite SendCommand_run; cbn [snd sent after_send];
    now rewrite <- app_assoc.
Qed.

(** ** Where the two cases of the encoding are used *)

(** The payload of a transmission goes out in lower case. *)
Lemma Transmit_sends_lower_case (fuel : nat) (Port Timeout : Z)
    (buf : list Byte.byte) (w : World) :
  Port <> 0 -> LoRaWAN_isJoined (Device w) = true ->
  buf <> [] -> (List.length buf < 256)%nat ->
  Error (respond w (sent w ++ [CFM false])%list) = RAK3172_ERR_OK ->
  sent (snd (RAK3172_LoRaWAN_Transmit fuel Port (Some buf)
               (Z.of_nat (List.length buf)) Timeout false None w))
    = (sent w ++ [CFM false;
                  ("AT+SEND=" ++ Str.to_string Port ++ ":"
                     ++ hex_string false buf)%string])%list.
Proof.
  intros HP HJ HB HL HC. unfold RAK3172_LoRaWAN_Transmit.
  unfold bind at 1. unfold get.
  apply Z.eqb_neq in HP. rewrite HP, HJ. cbn [is_null andb orb negb].
  assert (L0 : (Z.of_nat (List.length buf) =? 0) = false).
  { apply Z.eqb_neq. destruct buf; [congruence | simpl; lia]. }
  rewrite L0, Nat2Z.id, hex_loop_all.
  unfold bind at 1. unfold defined, ret at 1.
  unfold RAK3172_ERROR_CHECK, RAK3172_LoRaWAN_SetConfirmation, returning.
  unfold bind at 1. unfold bind at 1. rewrite SendCommand_run.
  fold (CFM false). unfold ret at 1. unfold id at 1. rewrite HC.
  unfold bind at 1. rewrite SendCommand_run.
  assert (L : (sent (after_send (CFM false) w)
                 ++ [("AT+SEND=" ++ Str.to_string Port ++ ":"
                        ++ hex_string false buf)%string]
               = sent w ++ [CFM false;
                   ("AT+SEND=" ++ Str.to_string Port ++ ":"
                      ++ hex_string false buf)%string])%list)
    by (cbn [sent after_send]; now rewrite <- app_assoc).
  match goal with |- context [match Error ?r with _ => _ end] =>
    destruct (Error r) end; try exact L.
  match goal with |- context [if ?c then _ else _] => destruct c end; exact L.
Qed.

(** The OTAA keys go out in upper case: 8, 8 and 16 bytes. *)
Lemma SetOTAAKeys_sends_upper_case (DEVEUI APPEUI APPKEY : list Byte.byte)
    (w : World) :
  LoRaWAN_Join (Device w) = RAK_JOIN_OTAA ->
  (8 <= List.length DEVEUI)%nat -> (8 <= List.length APPEUI)%nat ->
  (16 <= List.length APPKEY)%nat ->
  (forall log, Error (respond w log) = RAK3172_ERR_OK) ->
  RAK3172_LoRaWAN_SetOTAAKeys (Some DEVEUI) (Some APPEUI) (Some APPKEY) w
    = (Ok RAK3172_ERR_OK,
       after_send ("AT+APPKEY=" ++ hex_string true (firstn 16 APPKEY))
         (after_send ("AT+APPEUI=" ++ hex_string true (firstn 8 APPEUI))
            (after_send ("AT+DEVEUI=" ++ hex_string true (firstn 8 DEVEUI)) w))).
Proof.
  intros HJ H1 H2 H3 HA. unfold RAK3172_LoRaWAN_SetOTAAKeys.
  unfold bind at 1. unfold get. rewrite HJ. cbn [Z.eqb RAK_JOIN_OTAA negb Pos.eqb].
  rewrite (hex_loop2_spec true APPEUI DEVEUI 8 0 "" "") by (simpl; lia).
  rewrite (hex_loop_spec true APPKEY 16 0 "") by (simpl; lia).
  cbn [skipn append]. unfold defined.
  unfold bind at 1. unfold ret at 1. unfold bind at 1. unfold ret at 1.
  unfold RAK3172_ERROR_CHECK, returning.
  unfold bind at 1. rewrite SendCommand_run, HA.
  unfold bind at 1. rewrite SendCommand_run. cbn [respond]. rewrite HA.
  unfold bind at 1. rewrite SendCommand_run. cbn [respond]. rewrite HA.
  reflexivity.
Qed.

(** * Further properties of the session layer *)

(** ** Key provisioning *)

Lemma SendCommand_after (c : string) (w : World) :
  RAK3172_SendCommand c w
    = (Ok (respond w (sent w ++ [c])%list), after_send c w).
Proof. reflexivity. Qed.

Lemma after_send_fields (c : string) (w : World) :
  sent (after_send c w) = (sent w ++ [c])%list
  /\ respond (after_send c w) = respond w
  /\ Device (after_send c w) = Device w
  /\ events (after_send c w) = events w
  /\ hook_calls (after_send c w) = hook_calls w
  /\ ticks (after_send c w) = ticks w.
Proof. repeat split; reflexivity. Qed.

Lemma three_commands_run (c1 c2 c3 : string) (w : World) :
  RAK3172_ERROR_CHECK Error (RAK3172_SendCommand c1) id (fun _ =>
  RAK3172_ERROR_CHECK Error (RAK3172_SendCommand c2) id (fun _ =>
  returning (RAK3172_SendCommand c3))) w
  = after_three c1 c2 c3 w.
Proof.
  assert (L2 : ((sent w ++ [c1]) ++ [c2] = sent w ++ [c1; c2])%list)
    by now rewrite <- app_assoc.
  assert (L3 : (((sent w ++ [c1]) ++ [c2]) ++ [c3] = sent w ++ [c1; c2; c3])%list)
    by now rewrite <- !app_assoc.
  unfold after_three, RAK3172_ERROR_CHECK, returning.
  unfold bind at 1. rewrite SendCommand_after.
  destruct (Error (respond w (sent w ++ [c1])%list)) eqn:E1; try reflexivity.
  cbn [is_OK negb]. unfold bind at 1. rewrite SendCommand_after.
  destruct (after_send_fields c1 w) as (S1 & R1 & _). rewrite S1, R1, L2.
  destruct (Error (respond w (sent w ++ [c1; c2])%list)) eqn:E2;
    try reflexivity.
  cbn [is_OK negb]. unfold bind. rewrite SendCommand_after.
  destruct (after_send_fields c2 (after_send c1 w)) as (S2 & R2 & _).
  rewrite S2, R2, S1, R1, L3. reflexivity.
Qed.

(** X1: on a handle in OTAA mode, [SetOTAAKeys] writes [AT+DEVEUI=],
    [AT+APPEUI=] and [AT+APPKEY=] in this order, with the first 8, 8 and 16
    bytes of the buffers as 16, 16 and 32 upper-case hexadecimal
    characters; a command is written only when the one before it was
    accepted, and the call returns the error of the first command the
    module refuses, otherwise the outcome of the last. *)
Theorem SetOTAAKeys_provisions (DEVEUI APPEUI APPKEY : list Byte.byte) (w : World) :
  LoRaWAN_Join (Device w) = RAK_JOIN_OTAA ->
  (8 <= List.length DEVEUI)%nat -> (8 <= List.length APPEUI)%nat ->
  (16 <= List.length APPKEY)%nat ->
  let dev := hex_string true (firstn 8 DEVEUI) in
  let app := hex_string true (firstn 8 APPEUI) in
  let key := hex_string true (firstn 16 APPKEY) in
  RAK3172_LoRaWAN_SetOTAAKeys (Some DEVEUI) (Some APPEUI) (Some APPKEY) w
    = after_three ("AT+DEVEUI=" ++ dev) ("AT+APPEUI=" ++ app) ("AT+APPKEY=" ++ key) w
  /\ String.length dev = 16%nat /\ String.length app = 16%nat
  /\ String.length key = 32%nat
  /\ hex_decode dev = Some (firstn 8 DEVEUI)
  /\ hex_decode app = Some (firstn 8 APPEUI)
  /\ hex_decode key = Some (firstn 16 APPKEY).
Proof.
  intros HJ H1 H2 H3. cbv zeta. split.
  - unfold RAK3172_LoRaWAN_SetOTAAKeys.
    unfold bind at 1. unfold get. rewrite HJ.
    cbn [Z.eqb RAK_JOIN_OTAA negb Pos.eqb].
    rewrite (hex_loop2_spec true APPEUI DEVEUI 8 0 "" "") by (simpl; lia).
    rewrite (hex_loop_spec true APPKEY 16 0 "") by (simpl; lia).
    cbn [skipn append]. unfold defined.
    unfold bind at 1. unfold ret at 1. unfold bind at 1. unfold ret at 1.
    apply three_commands_run.
  - rewrite !hex_string_length, !length_firstn, !hex_decode_string.
    repeat split; lia.
Qed.

Lemma SetOTAAKeys_provisions_witness :
  let w := world_of idle_device (reject_prefix "AT+APPEUI=") in
  RAK3172_LoRaWAN_SetOTAAKeys (Some key8) (Some key8) (Some key16) w
    = (Ok RAK3172_ERR_INVALID_RESPONSE,
       after_send "AT+APPEUI=70B3D57ED0051A2B"
         (after_send "AT+DEVEUI=70B3D57ED0051A2B" w)).
Proof.
  assert (H8 : (8 <= List.length key8)%nat) by (simpl; lia).
  assert (H16 : (16 <= List.length key16)%nat) by (simpl; lia).
  destruct (SetOTAAKeys_provisions key8 key8 key16
              (world_of idle_device (reject_prefix "AT+APPEUI="))
              eq_refl H8 H8 H16) as (R & _).
  exact R.
Defined.

(** X2: on a handle in ABP mode, [SetABPKeys] writes [AT+APPSKEY=],
    [AT+NWKSKEY=] and [AT+DEVADDR=] in this order, with the first 16, 16
    and 4 bytes of the buffers as 32, 32 and 8 upper-case hexadecimal
    characters, and stops at the first command the module refuses. *)
Theorem SetABPKeys_provisions (APPSKEY NWKSKEY DEVADDR : list Byte.byte) (w : World) :
  LoRaWAN_Join (Device w) = RAK_JOIN_ABP ->
  (16 <= List.length APPSKEY)%nat -> (16 <= List.length NWKSKEY)%nat ->
  (4 <= List.length DEVADDR)%nat ->
  let app := hex_string true (firstn 16 APPSKEY) in
  let nwk := hex_string true (firstn 16 NWKSKEY) in
  let addr := hex_string true (firstn 4 DEVADDR) in
  RAK3172_LoRaWAN_SetABPKeys (Some APPSKEY) (Some NWKSKEY) (Some DEVADDR) w
    = after_three ("AT+APPSKEY=" ++ app) ("AT+NWKSKEY=" ++ nwk)
                  ("AT+DEVADDR=" ++ addr) w
  /\ String.length app = 32%nat /\ String.length nwk = 32%nat
  /\ String.length addr = 8%nat
  /\ hex_decode app = Some (firstn 16 APPSKEY)
  /\ hex_decode nwk = Some (firstn 16 NWKSKEY)
  /\ hex_decode addr = Some (firstn 4 DEVADDR).
Proof.
  intros HJ H1 H2 H3. cbv zeta. split.
  - unfold RAK3172_LoRaWAN_SetABPKeys.
    unfold bind at 1. unfold get. rewrite HJ.
    cbn [Z.eqb RAK_JOIN_ABP negb].
    rewrite (hex_loop2_spec true APPSKEY NWKSKEY 16 0 "" "") by (simpl; lia).
    rewrite (hex_loop_spec true DEVADDR 4 0 "") by (simpl; lia).
    cbn [skipn append]. unfold defined.
    unfold bind at 1. unfold ret at 1. unfold bind at 1. unfold ret at 1.
    apply three_commands_run.
  - rewrite !hex_string_length, !length_firstn, !hex_decode_string.
    repeat split; lia.
Qed.

Lemma SetABPKeys_provisions_witness :
  let w := world_of abp_device accept_all in
  RAK3172_LoRaWAN_SetABPKeys (Some key16) (Some key16) (Some key8) w
    = (Ok RAK3172_ERR_OK,
       after_send "AT+DEVADDR=70B3D57E"
         (after_send "AT+NWKSKEY=00112233445566778899AABBCCDDEEFF"
            (after_send "AT+APPSKEY=00112233445566778899AABBCCDDEEFF" w))).
Proof.
  assert (H4 : (4 <= List.length key8)%nat) by (simpl; lia).
  assert (H16 : (16 <= List.length key16)%nat) by (simpl; lia).
  destruct (SetABPKeys_provisions key16 key16 key8
              (world_of abp_device accept_all) eq_refl H16 H16 H4) as (R & _).
  exact R.
Defined.

(** X3: the handle decides which keys can be provisioned.  Whatever the
    buffers and whatever the module would answer, at least one of
    [SetOTAAKeys] and [SetABPKeys] ends with [RAK3172_ERR_INVALID_STATE]
    and leaves the world untouched; a NULL buffer is answered with
    [RAK3172_ERR_INVALID_ARG] before the mode is looked at. *)
Theorem key_provisioning_exclusive
    (k1 k2 k3 k4 k5 k6 : list Byte.byte) (w : World) :
  (RAK3172_LoRaWAN_SetOTAAKeys (Some k1) (Some k2) (Some k3) w
     = (Ok RAK3172_ERR_INVALID_STATE, w)
   \/ RAK3172_LoRaWAN_SetABPKeys (Some k4) (Some k5) (Some k6) w
     = (Ok RAK3172_ERR_INVALID_STATE, w))
  /\ (forall p q, RAK3172_LoRaWAN_SetOTAAKeys None p q w
                    = (Ok RAK3172_ERR_INVALID_ARG, w)
               /\ RAK3172_LoRaWAN_SetOTAAKeys p None q w
                    = (Ok RAK3172_ERR_INVALID_ARG, w)
               /\ RAK3172_LoRaWAN_SetOTAAKeys p q None w
                    = (Ok RAK3172_ERR_INVALID_ARG, w)
               /\ RAK3172_LoRaWAN_SetABPKeys None p q w
                    = (Ok RAK3172_ERR_INVALID_ARG, w)
               /\ RAK3172_LoRaWAN_SetABPKeys p None q w
                    = (Ok RAK3172_ERR_INVALID_ARG, w)
               /\ RAK3172_LoRaWAN_SetABPKeys p q None w
                    = (Ok RAK3172_ERR_INVALID_ARG, w)).
Proof.
  split.
  - destruct (Z.eqb_spec (LoRaWAN_Join (Device w)) RAK_JOIN_OTAA) as [E|N].
    + right. unfold RAK3172_LoRaWAN_SetABPKeys.
      unfold bind at 1. unfold get. rewrite E. reflexivity.
    + left. unfold RAK3172_LoRaWAN_SetOTAAKeys.
      unfold bind at 1. unfold get.
      apply Z.eqb_neq in N. rewrite N. reflexivity.
  - intros [p|] [q|]; repeat split; reflexivity.
Qed.

(** ** Joining, continued *)

Lemma StartJoin_run (fuel : nat) (Timeout Attempts : Z) (EnableAutoJoin : bool)
    (Interval : Z) (on_Wait : RAK3172_Wait_t) (w : World) :
  Attempts <> 0 -> LoRaWAN_isJoined (Device w) = false ->
  RAK3172_LoRaWAN_StartJoin fuel Timeout Attempts EnableAutoJoin Interval on_Wait w
    = let c := JOIN EnableAutoJoin Interval Attempts in
      let r := respond w (sent w ++ [c])%list in
      if is_OK (Error r)
      then StartJoin_loop fuel Timeout
             (Int.u32 (Int.u64 (clock w (ticks w)) / 1000))
             (tick (after_send c w))
      else (Ok (Error r), after_send c w).
Proof.
  intros HA HJ. unfold RAK3172_LoRaWAN_StartJoin, RAK3172_ERROR_CHECK.
  unfold bind at 1. unfold get. apply Z.eqb_neq in HA. rewrite HA, HJ.
  unfold bind at 1. rewrite SendCommand_after.
  fold (JOIN EnableAutoJoin Interval Attempts). cbv zeta.
  destruct (Error (respond w (sent w ++ [JOIN EnableAutoJoin Interval Attempts])%list));
    reflexivity.
Qed.

(** X4: the ways out of [StartJoin] before any polling.  Zero attempts
    are refused with [RAK3172_ERR_INVALID_ARG] before anything else is
    looked at, also on a device that has joined; on a device that has
    joined the call succeeds without writing anything; and when the module
    refuses the join command, the call returns that error at once: the
    join command is the only command written, the clock is not read and no
    stop-join follows. *)
Theorem StartJoin_refused (fuel : nat) (Timeout Attempts : Z)
    (EnableAutoJoin : bool) (Interval : Z) (on_Wait : RAK3172_Wait_t) (w : World) :
  let run := RAK3172_LoRaWAN_StartJoin fuel Timeout Attempts EnableAutoJoin
               Interval on_Wait w in
  let c := JOIN EnableAutoJoin Interval Attempts in
  let r := respond w (sent w ++ [c])%list in
  (Attempts = 0 -> run = (Ok RAK3172_ERR_INVALID_ARG, w))
  /\ (Attempts <> 0 -> LoRaWAN_isJoined (Device w) = true ->
      run = (Ok RAK3172_ERR_OK, w))
  /\ (Attempts <> 0 -> LoRaWAN_isJoined (Device w) = false ->
      Error r <> RAK3172_ERR_OK ->
      run = (Ok (Error r), after_send c w)).
Proof.
  cbv zeta. split; [|split].
  - intros ->. reflexivity.
  - intros HA HJ. now apply StartJoin_already_joined.
  - intros HA HJ HE. rewrite (StartJoin_run _ _ _ _ _ _ _ HA HJ). cbv zeta.
    destruct (Error (respond w (sent w ++ [JOIN EnableAutoJoin Interval Attempts])%list));
      try reflexivity. congruence.
Qed.

Lemma StartJoin_refused_witness :
  let w := world_of idle_device (reject_prefix "AT+JOIN=1") in
  RAK3172_LoRaWAN_StartJoin 5 30 3 true 8 None w
    = (Ok RAK3172_ERR_INVALID_RESPONSE, after_send "AT+JOIN=1:1:8:3" w)
  /\ RAK3172_LoRaWAN_StartJoin 5 30 0 true 8 None (world_of joined_device accept_all)
     = (Ok RAK3172_ERR_INVALID_ARG, world_of joined_device accept_all).
Proof.
  assert (HA : 3 <> 0) by lia.
  assert (HE : Error (respond (world_of idle_device (reject_prefix "AT+JOIN=1"))
                        (sent (world_of idle_device (reject_prefix "AT+JOIN=1"))
                           ++ [JOIN true 8 3])%list) <> RAK3172_ERR_OK)
    by (vm_compute; discriminate).
  split.
  - exact (proj2 (proj2 (StartJoin_refused 5 30 3 true 8 None
                           (world_of idle_device (reject_prefix "AT+JOIN=1"))))
                 HA eq_refl HE).
  - exact (proj1 (StartJoin_refused 5 30 0 true 8 None
                    (world_of joined_device accept_all)) eq_refl).
Defined.

Lemma slept_joined (w : World) :
  LoRaWAN_Join (Device (slept w)) = LoRaWAN_Join (Device w)
  /\ hook_calls (slept w) = hook_calls w
  /\ joined_events (slept w) = List.tl (joined_events w)
  /\ LoRaWAN_isJoined (Device (slept w))
     = (List.hd false (joined_events w) || LoRaWAN_isJoined (Device w))%bool.
Proof.
  unfold slept, light_sleep.
  destruct (joined_events w) as [|[] rest] eqn:E; cbn [snd Device joined_events];
    rewrite ?E; repeat split; reflexivity.
Qed.

Lemma StartJoin_loop_OK (fuel : nat) (Timeout TimeNow : Z) (w w' : World) :
  StartJoin_loop fuel Timeout TimeNow w = (Ok RAK3172_ERR_OK, w') ->
  LoRaWAN_isJoined (Device w') = true.
Proof.
  revert w; induction fuel as [|fuel IH]; intros w; [discriminate|].
  rewrite StartJoin_loop_step.
  repeat match goal with
         | |- context [if ?c then _ else _] => destruct c eqn:?
         end; try discriminate; try apply IH;
    intros E; inversion E; subst w'; assumption.
Qed.

(** X5: [StartJoin] returns [RAK3172_ERR_OK] only with the joined flag of
    the handle set. *)
Theorem StartJoin_OK_implies_joined (fuel : nat) (Timeout Attempts : Z)
    (EnableAutoJoin : bool) (Interval : Z) (on_Wait : RAK3172_Wait_t) (w : World) :
  fst (RAK3172_LoRaWAN_StartJoin fuel Timeout Attempts EnableAutoJoin
         Interval on_Wait w) = Ok RAK3172_ERR_OK ->
  LoRaWAN_isJoined
    (Device (snd (RAK3172_LoRaWAN_StartJoin fuel Timeout Attempts EnableAutoJoin
                    Interval on_Wait w))) = true.
Proof.
  destruct (Z.eq_dec Attempts 0) as [->|HA]; [discriminate|].
  destruct (LoRaWAN_isJoined (Device w)) eqn:HJ.
  - rewrite StartJoin_already_joined by assumption. intros _. exact HJ.
  - rewrite (StartJoin_run _ _ _ _ _ _ _ HA HJ). cbv zeta.
    destruct (Error (respond w (sent w ++ [JOIN EnableAutoJoin Interval Attempts])%list));
      cbn [is_OK fst]; try discriminate.
    destruct (StartJoin_loop fuel Timeout
                (Int.u32 (Int.u64 (clock w (ticks w)) / 1000))
                (tick (after_send (JOIN EnableAutoJoin Interval Attempts) w)))
      as [res w'] eqn:EX.
    cbn [fst snd]. intros ->. eapply StartJoin_loop_OK. exact EX.
Qed.

Lemma StartJoin_OK_implies_joined_witness :
  LoRaWAN_isJoined (Device joining_world) = false
  /\ LoRaWAN_isJoined
       (Device (snd (RAK3172_LoRaWAN_StartJoin 3 0 1 false 10 None joining_world)))
     = true.
Proof.
  split; [reflexivity|].
  apply (StartJoin_OK_implies_joined 3 0 1 false 10 None joining_world).
  vm_compute. reflexivity.
Defined.




(** X7: with a timeout of zero and the join command accepted, [StartJoin]
    does not return while the device has not joined: whatever number of
    polling iterations the model is given, the call is still polling. *)
Theorem StartJoin_zero_timeout_waits (fuel : nat) (Attempts : Z)
    (EnableAutoJoin : bool) (Interval : Z) (on_Wait : RAK3172_Wait_t) (w : World) :
  Attempts <> 0 -> LoRaWAN_isJoined (Device w) = false ->
  Error (respond w (sent w ++ [JOIN EnableAutoJoin Interval Attempts])%list)
    = RAK3172_ERR_OK ->
  Forall (fun j => j = false) (joined_events w) ->
  fst (RAK3172_LoRaWAN_StartJoin fuel 0 Attempts EnableAutoJoin Interval on_Wait w)
    = OutOfFuel.
Proof.
  intros HA HJ HE HF. rewrite (StartJoin_run _ _ _ _ _ _ _ HA HJ). cbv zeta.
  rewrite HE. cbn [is_OK]. apply StartJoin_loop_forever; assumption.
Qed.

Lemma StartJoin_zero_timeout_waits_witness :
  fst (RAK3172_LoRaWAN_StartJoin 1000 0 1 false 10 None
         (world_of idle_device accept_all)) = OutOfFuel.
Proof.
  assert (HA : 1 <> 0) by lia.
  apply (StartJoin_zero_timeout_waits 1000 1 false 10 None
           (world_of idle_device accept_all) HA eq_refl eq_refl).
  constructor.
Defined.

Lemma StartJoin_loop_joins (k : nat) :
  forall (fuel : nat) (Timeout TimeNow : Z) (w : World) (rest : list bool),
    (k < fuel)%nat ->
    LoRaWAN_isJoined (Device w) = false ->
    joined_events w = (repeat false k ++ true :: rest)%list ->
    (0 < Timeout ->
     forall i : nat, (i <= k)%nat ->
       Int.u64 (Int.u64 (clock w (ticks w + i)) / 1000 - TimeNow)
       < Int.u64 (Timeout * 1000)) ->
    exists w',
      StartJoin_loop fuel Timeout TimeNow w = (Ok RAK3172_ERR_OK, w')
      /\ joined_events w' = rest /\ sent w' = sent w.
Proof.
  induction k as [|k IH]; intros fuel Timeout TimeNow w rest HF HJ HE HC;
    (destruct fuel as [|fuel]; [lia|]); rewrite StartJoin_loop_step.
  - (* the device joins during this sleep *)
    assert (X : forall v, joined_events v = joined_events w ->
                  LoRaWAN_isJoined (Device (slept v)) = true
                  /\ joined_events (slept v) = rest).
    { intros v Ev. destruct (slept_joined v) as (_ & _ & T & J).
      rewrite T, J, Ev, HE. split; reflexivity. }
    destruct (Z.ltb_spec 0 Timeout) as [HT|HT].
    + pose proof (HC HT 0%nat (Nat.le_0_l _)) as H0.
      rewrite Nat.add_0_r in H0. apply Z.leb_gt in H0. rewrite H0.
      destruct (X (tick w) eq_refl) as [X1 X2]. rewrite X1.
      eexists. split; [reflexivity|]. split; [exact X2|].
      destruct (slept_fields (tick w)) as (_ & _ & S3 & _).
      now rewrite S3.
    + destruct (X w eq_refl) as [X1 X2]. rewrite X1.
      eexists. split; [reflexivity|]. split; [exact X2|].
      destruct (slept_fields w) as (_ & _ & S3 & _). now rewrite S3.
  - (* not yet *)
    assert (X : forall v, joined_events v = joined_events w ->
                  LoRaWAN_isJoined (Device v) = false ->
                  LoRaWAN_isJoined (Device (slept v)) = false
                  /\ joined_events (slept v) = (repeat false k ++ true :: rest)%list).
    { intros v Ev Jv. destruct (slept_joined v) as (_ & _ & T & J).
      rewrite T, J, Ev, HE, Jv. split; reflexivity. }
    destruct (Z.ltb_spec 0 Timeout) as [HT|HT].
    + pose proof (HC HT 0%nat (Nat.le_0_l _)) as H0.
      rewrite Nat.add_0_r in H0. apply Z.leb_gt in H0. rewrite H0.
      destruct (X (tick w) eq_refl HJ) as [X1 X2]. rewrite X1.
      destruct (slept_fields (tick w)) as (_ & S2 & S3 & S4).
      destruct (IH fuel Timeout TimeNow (slept (tick w)) rest) as (w' & R & E1 & E2);
        [lia | exact X1 | exact X2 | |].
      * intros _ i Hi. rewrite S4, S2.
        cbn [tick esp_timer_get_time snd ticks clock].
        replace (S (ticks w) + i)%nat with (ticks w + S i)%nat by lia.
        apply (HC HT). lia.
      * exists w'. split; [exact R|]. split; [exact E1|]. now rewrite E2, S3.
    + destruct (X w eq_refl HJ) as [X1 X2]. rewrite X1.
      destruct (slept_fields w) as (_ & _ & S3 & _).
      destruct (IH fuel Timeout TimeNow (slept w) rest) as (w' & R & E1 & E2);
        [lia | exact X1 | exact X2 | intros HT'; lia |].
      exists w'. split; [exact R|]. split; [exact E1|]. now rewrite E2, S3.
Qed.

(** X8: when the module accepts the join command, the receive task marks
    the device joined during sleep number k + 1, and the timeout is zero or
    is not reached at the k + 1 readings of the clock taken until then,
    [StartJoin] returns [RAK3172_ERR_OK] after k + 1 polling iterations,
    having written the join command and nothing else. *)
Theorem StartJoin_returns_when_joined (k fuel : nat) (Timeout Attempts : Z)
    (EnableAutoJoin : bool) (Interval : Z) (on_Wait : RAK3172_Wait_t)
    (w : World) (rest : list bool) :
  let run := RAK3172_LoRaWAN_StartJoin fuel Timeout Attempts EnableAutoJoin
               Interval on_Wait w in
  let c := JOIN EnableAutoJoin Interval Attempts in
  (k < fuel)%nat ->
  Attempts <> 0 -> LoRaWAN_isJoined (Device w) = false ->
  Error (respond w (sent w ++ [c])%list) = RAK3172_ERR_OK ->
  joined_events w = (repeat false k ++ true :: rest)%list ->
  timeout_not_reached Timeout k w ->
  fst run = Ok RAK3172_ERR_OK
  /\ joined_events (snd run) = rest
  /\ sent (snd run) = (sent w ++ [c])%list.
Proof.
  cbv zeta. intros HF HA HJ HE HQ HC.
  rewrite (StartJoin_run _ _ _ _ _ _ _ HA HJ). cbv zeta. rewrite HE.
  cbn [is_OK].
  destruct (StartJoin_loop_joins k fuel Timeout
              (Int.u32 (Int.u64 (clock w (ticks w)) / 1000))
              (tick (after_send (JOIN EnableAutoJoin Interval Attempts) w))
              rest HF HJ HQ) as (v' & R & E1 & E2).
  { intros HT i Hi. exact (HC HT i Hi). }
  rewrite R. cbn [fst snd]. split; [reflexivity|]. split; [exact E1|].
  rewrite E2. reflexivity.
Qed.

Lemma StartJoin_returns_when_joined_witness :
  let run := RAK3172_LoRaWAN_StartJoin 3 30 1 false 10 (Some tt) joining_world in
  fst run = Ok RAK3172_ERR_OK /\ joined_events (snd run) = []
  /\ sent (snd run) = ["AT+JOIN=1:0:10:1"].
Proof.
  assert (HF : (2 < 3)%nat) by lia.
  assert (HA : 1 <> 0) by lia.
  assert (HC : timeout_not_reached 30 2 joining_world).
  { intros _ i Hi.
    assert (C : i = 0%nat \/ i = 1%nat \/ i = 2%nat) by lia.
    destruct C as [-> | [-> | ->]]; vm_compute; reflexivity. }
  exact (StartJoin_returns_when_joined 2 3 30 1 false 10 (Some tt)
           joining_world [] HF HA eq_refl eq_refl eq_refl HC).
Defined.

(** ** Join status *)

Lemma isJoined_run (w : World) :
  RAK3172_LoRaWAN_isJoined Out w
    = let r := respond w (sent w ++ ["AT+NJS=?"])%list in
      if is_OK (Error r)
      then (Ok (RAK3172_ERR_OK, Some (String.eqb (Value r) "1")),
            set_Device (set_isJoined (String.eqb (Value r) "1") (Device w))
                       (after_send "AT+NJS=?" w))
      else (Ok (Error r, None),
            set_Device (set_isJoined false (Device w)) (after_send "AT+NJS=?" w)).
Proof.
  unfold RAK3172_LoRaWAN_isJoined, RAK3172_ERROR_CHECK, bind, modify, get, ret.
  cbn [is_NULL]. rewrite SendCommand_after. cbn [respond sent set_Device].
  cbv zeta.
  destruct (Error (respond w (sent w ++ ["AT+NJS=?"])%list)); try reflexivity.
  cbn [is_OK].
  destruct (String.eqb (Value (respond w (sent w ++ ["AT+NJS=?"])%list)) "1");
    reflexivity.
Qed.

(** X9: [isJoined] refuses a NULL result pointer without touching
    anything.  Otherwise it writes [AT+NJS=?] and nothing else; on success
    the cached flag of the handle and the reported value are both "the
    captured value is exactly the text 1"; when the query fails the error is
    returned and the handle is left marked not joined, also when it was
    joined before the call. *)
Theorem isJoined_refreshes_flag (w : World) :
  let r := respond w (sent w ++ ["AT+NJS=?"])%list in
  let run := RAK3172_LoRaWAN_isJoined Out w in
  RAK3172_LoRaWAN_isJoined NULL w = (Ok (RAK3172_ERR_INVALID_ARG, None), w)
  /\ sent (snd run) = (sent w ++ ["AT+NJS=?"])%list
  /\ (Error r = RAK3172_ERR_OK ->
        fst run = Ok (RAK3172_ERR_OK, Some (String.eqb (Value r) "1"))
        /\ LoRaWAN_isJoined (Device (snd run)) = String.eqb (Value r) "1")
  /\ (Error r <> RAK3172_ERR_OK ->
        fst run = Ok (Error r, None)
        /\ LoRaWAN_isJoined (Device (snd run)) = false).
Proof.
  cbv zeta. split; [reflexivity|]. rewrite isJoined_run. cbv zeta.
  destruct (Error (respond w (sent w ++ ["AT+NJS=?"])%list)) eqn:E;
    cbn [is_OK fst snd]; (split; [reflexivity|]); split;
    try (intros _; split; reflexivity); try discriminate; congruence.
Qed.

Lemma isJoined_refreshes_flag_witness :
  let w := world_of joined_device (reject_prefix "AT+NJS") in
  LoRaWAN_isJoined (Device w) = true
  /\ fst (RAK3172_LoRaWAN_isJoined Out w) = Ok (RAK3172_ERR_INVALID_RESPONSE, None)
  /\ LoRaWAN_isJoined (Device (snd (RAK3172_LoRaWAN_isJoined Out w))) = false.
Proof.
  destruct (isJoined_refreshes_flag (world_of joined_device (reject_prefix "AT+NJS")))
    as (_ & _ & _ & H).
  split; [reflexivity|]. apply H. vm_compute. discriminate.
Defined.

Example isJoined_exact_text :
  map (fun s => fst (RAK3172_LoRaWAN_isJoined Out
                       (world_of idle_device (status_module s))))
      ["1"; "0"; "01"; " 1"; ""]
  = map (fun b => Ok (RAK3172_ERR_OK, Some b)) [true; false; false; false; false].
Proof. vm_compute. reflexivity. Qed.

(** ** P2P encryption, continued *)

Lemma DisableEncryption_run (w : World) :
  RAK3172_P2P_DisableEncryption w
    = let r := respond w (sent w ++ ["AT+ENCRY=0"])%list in
      if is_OK (Error r)
      then (Ok RAK3172_ERR_OK,
            set_Device (set_isEncryptionEnabled false (Device w))
                       (after_send "AT+ENCRY=0" w))
      else (Ok (Error r), after_send "AT+ENCRY=0" w).
Proof.
  unfold RAK3172_P2P_DisableEncryption, RAK3172_ERROR_CHECK, bind, modify, ret.
  change ("AT+ENCRY=" ++ Str.to_string_bool false) with "AT+ENCRY=0".
  rewrite SendCommand_after. cbv zeta.
  now destruct (Error (respond w (sent w ++ ["AT+ENCRY=0"])%list)).
Qed.

(** X10: [DisableEncryption] writes [AT+ENCRY=0] and nothing else; the
    flag of the handle is cleared when the module accepts the command and
    keeps its value when the module refuses it, in which case the error is
    returned. *)
Theorem DisableEncryption_flag (w : World) :
  let r := respond w (sent w ++ ["AT+ENCRY=0"])%list in
  let run := RAK3172_P2P_DisableEncryption w in
  fst run = Ok (Error r)
  /\ sent (snd run) = (sent w ++ ["AT+ENCRY=0"])%list
  /\ P2P_isEncryptionEnabled (Device (snd run))
     = (negb (is_OK (Error r)) && P2P_isEncryptionEnabled (Device w))%bool.
Proof.
  cbv zeta. rewrite DisableEncryption_run. cbv zeta.
  destruct (Error (respond w (sent w ++ ["AT+ENCRY=0"])%list));
    repeat split; reflexivity.
Qed.

(** X11: enabling and then disabling.  When the module accepts all three
    commands, [EnableEncryption] followed by [DisableEncryption] writes
    [AT+ENCRY=1], the key command and [AT+ENCRY=0], both calls succeed, and
    the flag of the handle is set in between and clear at the end. *)
Theorem Enable_then_Disable (key : list Byte.byte) (w : World) :
  (8 <= List.length key)%nat ->
  (forall log, Error (respond w log) = RAK3172_ERR_OK) ->
  let e := RAK3172_P2P_EnableEncryption (Some key) w in
  let d := RAK3172_P2P_DisableEncryption (snd e) in
  fst e = Ok RAK3172_ERR_OK /\ fst d = Ok RAK3172_ERR_OK
  /\ P2P_isEncryptionEnabled (Device (snd e)) = true
  /\ P2P_isEncryptionEnabled (Device (snd d)) = false
  /\ sent (snd d) = (sent w ++ [ENCRY_on; ENCKEY key; "AT+ENCRY=0"])%list.
Proof.
  intros HK HA. cbv zeta.
  set (w1 := after_send (ENCKEY key)
               (set_Device (set_isEncryptionEnabled true (Device w))
                  (after_send ENCRY_on w))).
  assert (Ee : RAK3172_P2P_EnableEncryption (Some key) w = (Ok RAK3172_ERR_OK, w1)).
  { rewrite (EnableEncryption_run key w HK), HA. cbn [is_OK].
    unfold returning, bind, ret. rewrite SendCommand_after.
    cbn [respond set_Device after_send]. now rewrite HA. }
  rewrite Ee. cbn [fst snd].
  rewrite DisableEncryption_run. cbv zeta.
  assert (R1 : respond w1 = respond w) by reflexivity.
  rewrite R1, HA. cbn [is_OK fst snd].
  split; [reflexivity|]. split; [reflexivity|]. split; [reflexivity|].
  split; [reflexivity|].
  unfold w1. cbn [sent set_Device after_send]. now rewrite <- !app_assoc.
Qed.

Lemma Enable_then_Disable_witness :
  let w := world_of idle_device accept_all in
  let e := RAK3172_P2P_EnableEncryption (Some key16) w in
  let d := RAK3172_P2P_DisableEncryption (snd e) in
  sent (snd d) = ["AT+ENCRY=1"; "AT+ENCKEY=0011223344556677"; "AT+ENCRY=0"]
  /\ P2P_isEncryptionEnabled (Device (snd d)) = false.
Proof.
  assert (HK : (8 <= List.length key16)%nat) by (simpl; lia).
  destruct (Enable_then_Disable key16 (world_of idle_device accept_all) HK
              (fun _ => eq_refl)) as (_ & _ & _ & F & S).
  split; [exact S | exact F].
Defined.

(** ** Transmission, continued *)

Lemma call_hook_run (Wait : RAK3172_Wait_t) (w : World) :
  call_hook Wait w = (Ok tt, hooked Wait w).
Proof. unfold hooked. now destruct Wait. Qed.

Lemma xQueueReceive_next (w : World) :
  xQueueReceive w = (Ok (next_event w), pop_event w).
Proof.
  unfold pop_event, next_event, xQueueReceive. now destruct (events w).
Qed.

Lemma hooked_fields (Wait : RAK3172_Wait_t) (w : World) :
  events (hooked Wait w) = events w /\ sent (hooked Wait w) = sent w
  /\ clock (hooked Wait w) = clock w /\ ticks (hooked Wait w) = ticks w
  /\ Device (hooked Wait w) = Device w.
Proof. unfold hooked. destruct Wait; repeat split; reflexivity. Qed.

Lemma pop_event_events (w : World) : events (pop_event w) = List.tl (events w).
Proof.
  unfold pop_event, xQueueReceive. destruct (events w) eqn:E; [|reflexivity].
  cbn [snd]. now rewrite E.
Qed.

(** One iteration of the wait for the confirmation. *)
Lemma Transmit_wait_step (fuel : nat) (Timeout : Z) (Wait : RAK3172_Wait_t)
    (Now : Z) (w : World) :
  Transmit_wait (S fuel) Timeout Wait Now w =
    let w1 := hooked Wait w in
    let w2 := pop_event w1 in
    match Transmit_verdict (next_event w1) with
    | Some e => (Ok e, w2)
    | None =>
        if 0 <? Timeout
        then
          if Int.u32 (Timeout * 1000)
               <=? Int.u64 (Int.u64 (clock w2 (ticks w2)) / 1000 - Now)
          then (Ok RAK3172_ERR_TIMEOUT, tick w2)
          else Transmit_wait fuel Timeout Wait Now (slept (tick w2))
        else Transmit_wait fuel Timeout Wait Now (slept w2)
    end.
Proof.
  cbn [Transmit_wait]. unfold bind at 1. rewrite call_hook_run.
  unfold bind at 1. rewrite xQueueReceive_next. cbv zeta.
  fold (Transmit_verdict (next_event (hooked Wait w))).
  destruct (Transmit_verdict (next_event (hooked Wait w))); [reflexivity|].
  unfold bind at 1. destruct (0 <? Timeout).
  - unfold bind at 1. rewrite millis_run. unfold ret at 1.
    destruct (Int.u32 (Timeout * 1000) <=? _); [reflexivity|].
    unfold bind. now rewrite light_sleep_run.
  - unfold ret at 1. unfold bind. now rewrite light_sleep_run.
Qed.

Lemma Transmit_wait_sent (fuel : nat) (Timeout : Z) (Wait : RAK3172_Wait_t)
    (Now : Z) (w : World) :
  sent (snd (Transmit_wait fuel Timeout Wait Now w)) = sent w.
Proof.
  revert w; induction fuel as [|fuel IH]; intros w; [reflexivity|].
  rewrite Transmit_wait_step. cbv zeta.
  destruct (hooked_fields Wait w) as (_ & H2 & _).
  destruct (pop_event_fields (hooked Wait w)) as (_ & P2 & _).
  destruct (Transmit_verdict _).
  - cbn [snd]. now rewrite P2, H2.
  - destruct (0 <? Timeout).
    + destruct (Int.u32 (Timeout * 1000) <=? _).
      * cbn [snd]. destruct (tick_fields (pop_event (hooked Wait w))) as (_ & _ & T3 & _).
        now rewrite T3, P2, H2.
      * rewrite IH.
        destruct (slept_fields (tick (pop_event (hooked Wait w)))) as (_ & _ & S3 & _).
        destruct (tick_fields (pop_event (hooked Wait w))) as (_ & _ & T3 & _).
        now rewrite S3, T3, P2, H2.
    + rewrite IH.
      destruct (slept_fields (pop_event (hooked Wait w))) as (_ & _ & S3 & _).
      now rewrite S3, P2, H2.
Qed.

Lemma Transmit_run (fuel : nat) (Port Timeout : Z) (buf : list Byte.byte)
    (Confirmed : bool) (Wait : RAK3172_Wait_t) (w : World) :
  Port <> 0 -> LoRaWAN_isJoined (Device w) = true ->
  buf <> [] -> (List.length buf < 256)%nat ->
  RAK3172_LoRaWAN_Transmit fuel Port (Some buf) (Z.of_nat (List.length buf))
      Timeout Confirmed Wait w
    = let w1 := after_send (CFM Confirmed) w in
      let w2 := after_send (SEND Port buf) w1 in
      let r1 := respond w (sent w ++ [CFM Confirmed])%list in
      let r2 := respond w (sent w ++ [CFM Confirmed; SEND Port buf])%list in
      if negb (is_OK (Error r1)) then (Ok (Error r1), w1)
      else if negb (is_OK (Error r2)) then (Ok (Error r2), w2)
      else if Str.contains (Status r2) "AT_BUSY_ERROR"
      then (Ok RAK3172_ERR_INVALID_RESPONSE, w2)
      else if Confirmed
      then Transmit_wait fuel Timeout Wait
             (Int.u32 (Int.u64 (clock w (ticks w)) / 1000)) (tick w2)
      else (Ok RAK3172_ERR_OK, w2).
Proof.
  intros HP HJ HB HL. unfold RAK3172_LoRaWAN_Transmit.
  unfold bind at 1. unfold get.
  apply Z.eqb_neq in HP. rewrite HP, HJ. cbn [is_null andb orb negb].
  assert (L0 : (Z.of_nat (List.length buf) =? 0) = false).
  { apply Z.eqb_neq. destruct buf; [congruence | simpl; lia]. }
  rewrite L0, Nat2Z.id, hex_loop_all.
  unfold bind at 1. unfold defined, ret at 1.
  unfold RAK3172_ERROR_CHECK, RAK3172_LoRaWAN_SetConfirmation, returning.
  unfold bind at 1. unfold bind at 1. rewrite SendCommand_after.
  fold (CFM Confirmed). unfold ret at 1. unfold id at 1. cbv zeta.
  assert (L2 : ((sent w ++ [CFM Confirmed]) ++ [SEND Port buf]
                = sent w ++ [CFM Confirmed; SEND Port buf])%list)
    by now rewrite <- app_assoc.
  destruct (Error (respond w (sent w ++ [CFM Confirmed])%list)); try reflexivity.
  cbn [is_OK negb]. unfold bind at 1. rewrite SendCommand_after.
  fold (SEND Port buf).
  destruct (after_send_fields (CFM Confirmed) w) as (S1 & R1 & _).
  rewrite S1, R1, L2.
  destruct (Error (respond w (sent w ++ [CFM Confirmed; SEND Port buf])%list));
    try reflexivity.
  cbn [is_OK negb].
  destruct (Str.contains _ "AT_BUSY_ERROR"); [reflexivity|].
  destruct Confirmed; [|reflexivity].
  unfold bind at 1. rewrite millis_run. reflexivity.
Qed.

(** X12: an unconfirmed transmission on a joined device.  [Transmit]
    writes [AT+CFM=0] and, once that is accepted, [AT+SEND=<port>:] with
    the payload in lower-case hexadecimal.  An error of either command is
    returned as it is; when the send command succeeds but its status text
    contains [AT_BUSY_ERROR] the call reports
    [RAK3172_ERR_INVALID_RESPONSE]; otherwise it succeeds at once, without
    taking an event from the queue or reading the clock. *)
Theorem Transmit_unconfirmed (fuel : nat) (Port Timeout : Z)
    (buf : list Byte.byte) (Wait : RAK3172_Wait_t) (w : World) :
  Port <> 0 -> LoRaWAN_isJoined (Device w) = true ->
  buf <> [] -> (List.length buf < 256)%nat ->
  let w1 := after_send (CFM false) w in
  let w2 := after_send (SEND Port buf) w1 in
  let r1 := respond w (sent w ++ [CFM false])%list in
  let r2 := respond w (sent w ++ [CFM false; SEND Port buf])%list in
  RAK3172_LoRaWAN_Transmit fuel Port (Some buf) (Z.of_nat (List.length buf))
      Timeout false Wait w
    = (if negb (is_OK (Error r1)) then (Ok (Error r1), w1)
       else if negb (is_OK (Error r2)) then (Ok (Error r2), w2)
       else if Str.contains (Status r2) "AT_BUSY_ERROR"
       then (Ok RAK3172_ERR_INVALID_RESPONSE, w2)
       else (Ok RAK3172_ERR_OK, w2))
  /\ events w2 = events w /\ ticks w2 = ticks w /\ hook_calls w2 = hook_calls w.
Proof.
  intros HP HJ HB HL. cbv zeta. split; [|repeat split; reflexivity].
  now rewrite (Transmit_run fuel Port Timeout buf false Wait w HP HJ HB HL).
Qed.

Lemma Transmit_unconfirmed_witness :
  let w := world_of joined_device (status_text_module "AT_BUSY_ERROR") in
  RAK3172_LoRaWAN_Transmit 0 2 (Some Hello) 5 0 false None w
    = (Ok RAK3172_ERR_INVALID_RESPONSE,
       after_send "AT+SEND=2:48656c6c6f" (after_send "AT+CFM=0" w)).
Proof.
  assert (HP : 2 <> 0) by lia.
  assert (HB : Hello <> []) by discriminate.
  assert (HL : (List.length Hello < 256)%nat) by (simpl; lia).
  destruct (Transmit_unconfirmed 0 2 0 Hello None
              (world_of joined_device (status_text_module "AT_BUSY_ERROR"))
              HP eq_refl HB HL) as (R & _).
  exact R.
Defined.

Lemma Transmit_wait_verdict (fuel : nat) (Timeout : Z) (Wait : RAK3172_Wait_t)
    (Now : Z) (w w' : World) (e : RAK3172_Error_t) :
  Transmit_wait fuel Timeout Wait Now w = (Ok e, w') ->
  match e with
  | RAK3172_ERR_OK =>
      exists l, In (Some l) (events w)
                /\ Str.contains l "SEND CONFIRMED OK" = true
                /\ Str.contains l "SEND CONFIRMED FAILED" = false
  | RAK3172_ERR_INVALID_RESPONSE =>
      exists l, In (Some l) (events w)
                /\ Str.contains l "SEND CONFIRMED FAILED" = true
  | RAK3172_ERR_TIMEOUT => 0 < Timeout
  | _ => False
  end.
Proof.
  revert w; induction fuel as [|fuel IH]; intros w; [discriminate|].
  rewrite Transmit_wait_step. cbv zeta.
  destruct (hooked_fields Wait w) as (H1 & _).
  assert (T : forall v, events v = List.tl (events w) ->
                Transmit_wait fuel Timeout Wait Now v = (Ok e, w') ->
                match e with
                | RAK3172_ERR_OK =>
                    exists l, In (Some l) (events w)
                              /\ Str.contains l "SEND CONFIRMED OK" = true
                              /\ Str.contains l "SEND CONFIRMED FAILED" = false
                | RAK3172_ERR_INVALID_RESPONSE =>
                    exists l, In (Some l) (events w)
                              /\ Str.contains l "SEND CONFIRMED FAILED" = true
                | RAK3172_ERR_TIMEOUT => 0 < Timeout
                | _ => False
                end).
  { intros v Ev R. apply IH in R. rewrite Ev in R.
    assert (I : forall x, In x (List.tl (events w)) -> In x (events w))
      by (intros x; destruct (events w); simpl; auto).
    destruct e; try exact R.
    - destruct R as (l & Il & C). exists l. split; [now apply I | exact C].
    - destruct R as (l & Il & C). exists l. split; [now apply I | exact C]. }
  unfold Transmit_verdict, next_event. rewrite H1.
  destruct (events w) as [|[l|] rest] eqn:EV.
  1,3: destruct (Z.ltb_spec 0 Timeout) as [HT|HT];
       [ destruct (Int.u32 (Timeout * 1000) <=? _);
         [ intros E; inversion E; subst e; exact HT |]
       | ];
       apply T;
       rewrite ?(proj1 (slept_fields _)), ?(proj1 (tick_fields _)),
               pop_event_events, H1; reflexivity.
  destruct (Str.contains l "SEND CONFIRMED FAILED") eqn:CF.
  - intros E. inversion E. subst e. exists l. split; [now left | exact CF].
  - destruct (Str.contains l "SEND CONFIRMED OK") eqn:CO.
    + intros E. inversion E. subst e. exists l.
      split; [now left | split; assumption].
    + destruct (Z.ltb_spec 0 Timeout) as [HT|HT];
        [ destruct (Int.u32 (Timeout * 1000) <=? _);
          [ intros E; inversion E; subst e; exact HT |]
        | ];
        apply T;
        rewrite ?(proj1 (slept_fields _)), ?(proj1 (tick_fields _)),
                pop_event_events, H1; reflexivity.
Qed.

(** X13: a confirmed transmission that the module has accepted.
    Whatever the wait for the confirmation ends with, no command is written
    after the send command (a timeout is not followed by a cancellation).
    The call reports success only when an event containing
    [SEND CONFIRMED OK] and not [SEND CONFIRMED FAILED] was in the queue,
    [RAK3172_ERR_INVALID_RESPONSE] only when an event containing
    [SEND CONFIRMED FAILED] was in the queue, [RAK3172_ERR_TIMEOUT] only for
    a timeout above zero, and nothing else. *)
Theorem Transmit_confirmed_verdict (fuel : nat) (Port Timeout : Z)
    (buf : list Byte.byte) (Wait : RAK3172_Wait_t) (w : World) :
  Port <> 0 -> LoRaWAN_isJoined (Device w) = true ->
  buf <> [] -> (List.length buf < 256)%nat ->
  send_accepted Port buf true w ->
  let run := RAK3172_LoRaWAN_Transmit fuel Port (Some buf)
               (Z.of_nat (List.length buf)) Timeout true Wait w in
  sent (snd run) = (sent w ++ [CFM true; SEND Port buf])%list
  /\ forall e, fst run = Ok e ->
       match e with
       | RAK3172_ERR_OK =>
           exists l, In (Some l) (events w)
                     /\ Str.contains l "SEND CONFIRMED OK" = true
                     /\ Str.contains l "SEND CONFIRMED FAILED" = false
       | RAK3172_ERR_INVALID_RESPONSE =>
           exists l, In (Some l) (events w)
                     /\ Str.contains l "SEND CONFIRMED FAILED" = true
       | RAK3172_ERR_TIMEOUT => 0 < Timeout
       | _ => False
       end.
Proof.
  intros HP HJ HB HL (A1 & A2 & A3). cbv zeta.
  rewrite (Transmit_run fuel Port Timeout buf true Wait w HP HJ HB HL).
  cbv zeta. rewrite A1, A2, A3. cbn [is_OK negb]. split.
  - rewrite Transmit_wait_sent. cbn [tick esp_timer_get_time snd sent after_send].
    now rewrite <- app_assoc.
  - intros e E.
    destruct (Transmit_wait fuel Timeout Wait _ _) as [res w'] eqn:R.
    cbn [fst] in E. subst res.
    apply Transmit_wait_verdict in R. exact R.
Qed.

Lemma Transmit_confirmed_verdict_witness :
  let w := confirming_world [Some "+EVT:TX_DONE"; None;
                             Some "+EVT:SEND CONFIRMED FAILED"] in
  let run := RAK3172_LoRaWAN_Transmit 5 2 (Some Hello) 5 10 true None w in
  fst run = Ok RAK3172_ERR_INVALID_RESPONSE
  /\ sent (snd run) = ["AT+CFM=1"; "AT+SEND=2:48656c6c6f"].
Proof.
  assert (HP : 2 <> 0) by lia.
  assert (HB : Hello <> []) by discriminate.
  assert (HL : (List.length Hello < 256)%nat) by (simpl; lia).
  assert (HA : send_accepted 2 Hello true
                 (confirming_world [Some "+EVT:TX_DONE"; None;
                                    Some "+EVT:SEND CONFIRMED FAILED"]))
    by (repeat split; reflexivity).
  destruct (Transmit_confirmed_verdict 5 2 10 Hello None
              (confirming_world [Some "+EVT:TX_DONE"; None;
                                 Some "+EVT:SEND CONFIRMED FAILED"])
              HP eq_refl HB HL HA) as (S & _).
  split; [vm_compute; reflexivity | exact S].
Defined.

Lemma Transmit_wait_wraps (fuel : nat) (Timeout : Z) (Wait : RAK3172_Wait_t)
    (Now : Z) (w : World) :
  0 < Timeout ->
  Transmit_wait fuel (Timeout + 2 ^ 29) Wait Now w
    = Transmit_wait fuel Timeout Wait Now w.
Proof.
  intros HT. revert w; induction fuel as [|fuel IH]; intros w; [reflexivity|].
  rewrite !Transmit_wait_step. cbv zeta.
  assert (P1 : (0 <? Timeout + 2 ^ 29) = true) by (apply Z.ltb_lt; lia).
  assert (P2 : (0 <? Timeout) = true) by (apply Z.ltb_lt; lia).
  assert (P3 : Int.u32 ((Timeout + 2 ^ 29) * 1000) = Int.u32 (Timeout * 1000)).
  { unfold Int.u32.
    replace ((Timeout + 2 ^ 29) * 1000) with (Timeout * 1000 + 125 * 2 ^ 32) by lia.
    apply Z.mod_add. lia. }
  rewrite P1, P2, P3, IH. reflexivity.
Qed.

(** X14: the timeout of a confirmed transmission is multiplied by 1000 in
    32-bit arithmetic ([Timeout * 1000UL]), so it is taken modulo 2^32
    milliseconds: a timeout of [Timeout + 536870912] seconds behaves exactly
    like one of [Timeout] seconds. *)
Theorem Transmit_timeout_wraps (fuel : nat) (Port Timeout : Z)
    (buf : list Byte.byte) (Confirmed : bool) (Wait : RAK3172_Wait_t) (w : World) :
  Port <> 0 -> LoRaWAN_isJoined (Device w) = true ->
  buf <> [] -> (List.length buf < 256)%nat ->
  0 < Timeout ->
  RAK3172_LoRaWAN_Transmit fuel Port (Some buf) (Z.of_nat (List.length buf))
      (Timeout + 2 ^ 29) Confirmed Wait w
    = RAK3172_LoRaWAN_Transmit fuel Port (Some buf) (Z.of_nat (List.length buf))
        Timeout Confirmed Wait w.
Proof.
  intros HP HJ HB HL HT.
  rewrite !(Transmit_run fuel Port _ buf Confirmed Wait w HP HJ HB HL).
  cbv zeta. now rewrite Transmit_wait_wraps.
Qed.

Lemma Transmit_timeout_wraps_witness :
  let w := confirming_world [] in
  RAK3172_LoRaWAN_Transmit 3 2 (Some Hello) 5 536870913 true None w
    = RAK3172_LoRaWAN_Transmit 3 2 (Some Hello) 5 1 true None w
  /\ fst (RAK3172_LoRaWAN_Transmit 3 2 (Some Hello) 5 536870913 true None w)
     = Ok RAK3172_ERR_TIMEOUT.
Proof.
  assert (HP : 2 <> 0) by lia.
  assert (HB : Hello <> []) by discriminate.
  assert (HL : (List.length Hello < 256)%nat) by (simpl; lia).
  assert (HT : 0 < 1) by lia.
  split.
  - exact (Transmit_timeout_wraps 3 2 1 Hello true None (confirming_world [])
             HP eq_refl HB HL HT).
  - vm_compute. reflexivity.
Defined.

(** ** Receiving, continued *)

(** The metadata branch does not touch the world. *)
Lemma pure_ret {A : Type} (a : A) :
  exists res : Result A, forall w, ret a w = (res, w).
Proof. eexists; intros w; reflexivity. Qed.

Lemma pure_may_throw {A : Type} (r : Str.exn + A) :
  exists res : Result A, forall w, may_throw r w = (res, w).
Proof. destruct r as [e|a]; eexists; intros w; reflexivity. Qed.

Lemma pure_bind {A B : Type} (m : M A) (k : A -> M B) :
  (exists res, forall w, m w = (res, w)) ->
  (forall a, exists res, forall w, k a w = (res, w)) ->
  exists res : Result B, forall w, bind m k w = (res, w).
Proof.
  intros [res Hm] Hk. unfold bind.
  destruct res as [a| e | |].
  - destruct (Hk a) as [res' Hk']. exists res'. intros w. now rewrite Hm, Hk'.
  - exists (Throw e). intros w. now rewrite Hm.
  - exists Undefined. intros w. now rewrite Hm.
  - exists OutOfFuel. intros w. now rewrite Hm.
Qed.

Lemma Receive_metadata_pure (Line : string) (p_RSSI p_SNR : out_ptr) (o : RxOut) :
  exists res : Result RxOut,
    forall w, Receive_metadata Line p_RSSI p_SNR o w = (res, w).
Proof.
  unfold Receive_metadata.
  destruct (Str.contains Line "RX"); [|apply pure_ret].
  apply pure_bind.
  - destruct (is_NULL p_RSSI); [apply pure_ret|].
    apply pure_bind; [|intros; apply pure_ret].
    unfold Receive_RSSI. apply pure_bind; [apply pure_may_throw|].
    intros; apply pure_may_throw.
  - intros o1. destruct (is_NULL p_SNR); [apply pure_ret|].
    apply pure_bind; [|intros; apply pure_ret].
    unfold Receive_SNR. apply pure_bind; [apply pure_may_throw|].
    intros; apply pure_may_throw.
Qed.

Lemma Receive_metadata_not_requested (Line : string) (o : RxOut) (w : World) :
  Receive_metadata Line NULL NULL o w = (Ok o, w).
Proof.
  unfold Receive_metadata. now destruct (Str.contains Line "RX").
Qed.

(** One iteration of the receive loop on an event that is not a unicast
    line, and on one that is. *)
Lemma Receive_loop_step (fuel : nat) (p_RSSI p_SNR : out_ptr) (Timeout Now : Z)
    (o : RxOut) (w : World) :
  Receive_loop (S fuel) p_RSSI p_SNR Timeout Now o w =
    let w1 := pop_event w in
    match next_event w with
    | None => (Undefined, w1)
    | Some Line =>
        match fst (Receive_metadata Line p_RSSI p_SNR o w1) with
        | Ok o1 =>
            if Str.contains Line "UNICAST"
            then
              match Str.substr Line (Int.u32 (Str.find_last_of Line ":" + 1))
                               (Str.size Line) with
              | inr p => (Ok (RAK3172_ERR_OK, Build_RxOut (Some p) (RSSI o1) (SNR o1)), w1)
              | inl e => (Throw e, w1)
              end
            else if 0 <? Timeout
            then
              if Timeout <=? Int.u64 (Int.u64 (clock w1 (ticks w1)) / 1000 - Now) / 1000
              then (Ok (RAK3172_ERR_TIMEOUT, o1), tick w1)
              else Receive_loop fuel p_RSSI p_SNR Timeout Now o1 (slept (tick w1))
            else Receive_loop fuel p_RSSI p_SNR Timeout Now o1 (slept w1)
        | Throw e => (Throw e, w1)
        | Undefined => (Undefined, w1)
        | OutOfFuel => (OutOfFuel, w1)
        end
    end.
Proof.
  cbn [Receive_loop]. unfold bind at 1. rewrite xQueueReceive_next. cbv zeta.
  destruct (next_event w) as [Line|]; [|reflexivity].
  destruct (Receive_metadata_pure Line p_RSSI p_SNR o) as (res & P).
  unfold bind at 1. rewrite !P. cbn [fst].
  destruct res as [o1| | |]; try reflexivity.
  destruct (Str.contains Line "UNICAST").
  - unfold bind, may_throw, ret.
    now destruct (Str.substr Line _ _).
  - unfold bind at 1. destruct (0 <? Timeout).
    + unfold bind at 1. rewrite millis_run. unfold ret at 1.
      destruct (Timeout <=? _); [reflexivity|].
      unfold bind. now rewrite light_sleep_run.
    + unfold ret at 1. unfold bind. now rewrite light_sleep_run.
Qed.

Lemma Receive_run (fuel : nat) (p_RSSI p_SNR : out_ptr) (Timeout : Z) (w : World) :
  1 < Timeout -> LoRaWAN_isJoined (Device w) = true ->
  RAK3172_LoRaWAN_Receive fuel Out p_RSSI p_SNR Timeout w
    = Receive_loop fuel p_RSSI p_SNR Timeout
        (Int.u32 (Int.u64 (clock w (ticks w)) / 1000))
        (Build_RxOut None None None) (tick w).
Proof.
  intros HT HJ. unfold RAK3172_LoRaWAN_Receive.
  unfold bind at 1. unfold get. apply Z.leb_gt in HT. rewrite HT, HJ.
  cbn [is_NULL orb negb]. unfold bind. now rewrite millis_run.
Qed.

(** X15: [Receive] checks its arguments before the connection: a NULL
    payload pointer or a timeout of 0 or 1 gives [RAK3172_ERR_INVALID_ARG]
    (so [Receive] has no "wait for ever" timeout), also on a device that
    has not joined; with valid arguments a device that has not joined gives
    [RAK3172_ERR_NOT_CONNECTED].  In both cases nothing is taken from the
    event queue and nothing is stored. *)
Theorem Receive_guards (fuel : nat) (p_Payload p_RSSI p_SNR : out_ptr)
    (Timeout : Z) (w : World) :
  let run := RAK3172_LoRaWAN_Receive fuel p_Payload p_RSSI p_SNR Timeout w in
  (p_Payload = NULL \/ Timeout <= 1 ->
   run = (Ok (RAK3172_ERR_INVALID_ARG, Build_RxOut None None None), w))
  /\ (p_Payload = Out -> 1 < Timeout -> LoRaWAN_isJoined (Device w) = false ->
      run = (Ok (RAK3172_ERR_NOT_CONNECTED, Build_RxOut None None None), w)).
Proof.
  cbv zeta. unfold RAK3172_LoRaWAN_Receive. unfold bind, get. split.
  - intros [-> | HT]; [reflexivity|].
    apply Z.leb_le in HT. rewrite HT. now rewrite orb_true_r.
  - intros -> HT HJ. apply Z.leb_gt in HT. now rewrite HT, HJ.
Qed.

Lemma Receive_guards_witness :
  RAK3172_LoRaWAN_Receive 5 Out Out Out 0 (receiving_world RX_module)
    = (Ok (RAK3172_ERR_INVALID_ARG, Build_RxOut None None None),
       receiving_world RX_module)
  /\ RAK3172_LoRaWAN_Receive 5 Out Out Out 10 (world_of idle_device accept_all)
     = (Ok (RAK3172_ERR_NOT_CONNECTED, Build_RxOut None None None),
        world_of idle_device accept_all).
Proof.
  assert (H0 : Out = NULL \/ 0 <= 1) by (right; lia).
  assert (H1 : 1 < 10) by lia.
  split.
  - exact (proj1 (Receive_guards 5 Out Out Out 0 (receiving_world RX_module)) H0).
  - exact (proj2 (Receive_guards 5 Out Out Out 10 (world_of idle_device accept_all))
                 eq_refl H1 eq_refl).
Defined.

Lemma Receive_loop_quiet (fuel : nat) (p_RSSI p_SNR : out_ptr) (Timeout Now : Z)
    (o : RxOut) (w : World) :
  sent (snd (Receive_loop fuel p_RSSI p_SNR Timeout Now o w)) = sent w
  /\ hook_calls (snd (Receive_loop fuel p_RSSI p_SNR Timeout Now o w))
     = hook_calls w.
Proof.
  revert o w; induction fuel as [|fuel IH]; intros o w; [split; reflexivity|].
  rewrite Receive_loop_step. cbv zeta.
  assert (P : sent (pop_event w) = sent w /\ hook_calls (pop_event w) = hook_calls w).
  { unfold pop_event, xQueueReceive. destruct (events w); split; reflexivity. }
  destruct P as [P1 P2].
  destruct (next_event w) as [Line|]; [|split; assumption].
  destruct (fst (Receive_metadata Line p_RSSI p_SNR o (pop_event w)))
    as [o1| | |]; try (split; assumption).
  destruct (Str.contains Line "UNICAST").
  - destruct (Str.substr Line _ _); split; assumption.
  - destruct (0 <? Timeout).
    + destruct (Timeout <=? _); [split; assumption|].
      destruct (IH o1 (slept (tick (pop_event w)))) as [I1 I2].
      rewrite I1, I2, hook_calls_slept, sent_slept. split; assumption.
    + destruct (IH o1 (slept (pop_event w))) as [I1 I2].
      rewrite I1, I2, hook_calls_slept, sent_slept. split; assumption.
Qed.

(** X16: [Receive] only listens.  Whatever its arguments, the state of
    the device and the events, and however the call ends, it writes no
    command to the module. *)
Theorem Receive_never_writes (fuel : nat) (p_Payload p_RSSI p_SNR : out_ptr)
    (Timeout : Z) (w : World) :
  sent (snd (RAK3172_LoRaWAN_Receive fuel p_Payload p_RSSI p_SNR Timeout w))
    = sent w.
Proof.
  unfold RAK3172_LoRaWAN_Receive. unfold bind at 1. unfold get.
  destruct (is_NULL p_Payload || (Timeout <=? 1))%bool; [reflexivity|].
  destruct (negb (LoRaWAN_isJoined (Device w))); [reflexivity|].
  unfold bind. rewrite millis_run.
  now rewrite (proj1 (Receive_loop_quiet _ _ _ _ _ _ _)).
Qed.

(** *** The text after the last delimiter *)

Lemma find_last_of_from_spec (cs s : string) :
  forall (i last : Z),
    (all_chars (fun c => negb (Str.mem_char c cs)) s = true
     /\ Str.find_last_of_from i cs s last = last)
    \/ (exists pre c p,
          s = pre ++ String c p
          /\ Str.mem_char c cs = true
          /\ all_chars (fun c => negb (Str.mem_char c cs)) p = true
          /\ Str.find_last_of_from i cs s last = i + Z.of_nat (String.length pre)).
Proof.
  induction s as [|a t IH]; intros i last; [left; split; reflexivity|].
  cbn [Str.find_last_of_from all_chars].
  destruct (Str.mem_char a cs) eqn:Ma.
  - destruct (IH (i + 1) i) as [[F R] | (pre & c & p & E & Mc & F & R)].
    + right. exists "", a, t.
      split; [reflexivity|]. split; [exact Ma|]. split; [exact F|].
      rewrite R. cbn [String.length Z.of_nat]. lia.
    + right. exists (String a pre), c, p. rewrite R, E.
      cbn [append String.length]. repeat split; auto. lia.
  - destruct (IH (i + 1) last) as [[F R] | (pre & c & p & E & Mc & F & R)].
    + left. rewrite F, R. split; reflexivity.
    + right. exists (String a pre), c, p. rewrite R, E.
      cbn [append String.length]. repeat split; auto. lia.
Qed.

Lemma substring_whole (p : string) : String.substring 0 (String.length p) p = p.
Proof. induction p as [|c p IH]; simpl; [reflexivity | now rewrite IH]. Qed.

Lemma substring_after (pre t : string) (n m : nat) :
  String.substring (String.length pre + n) m (pre ++ t) = String.substring n m t.
Proof. induction pre as [|c pre IH]; simpl; [reflexivity | apply IH]. Qed.

Lemma payload_position (Line : string) :
  0 <= Int.u32 (Str.find_last_of Line ":" + 1) <= Str.size Line.
Proof.
  unfold Str.find_last_of, Str.size, Int.u32.
  destruct (find_last_of_from_spec ":" Line 0 Str.npos)
    as [[_ R] | (pre & c & p & E & _ & _ & R)]; rewrite R.
  - change ((Str.npos + 1) mod 2 ^ 32) with 0. lia.
  - assert (L : Z.of_nat (String.length pre) + 1 <= Z.of_nat (String.length Line)).
    { rewrite E, length_append. cbn [String.length]. lia. }
    pose proof (Z.mod_pos_bound (0 + Z.of_nat (String.length pre) + 1) (2 ^ 32)).
    pose proof (Z.mod_le (0 + Z.of_nat (String.length pre) + 1) (2 ^ 32)).
    lia.
Qed.

Lemma payload_text (Line : string) :
  Str.size Line < Str.npos ->
  exists p,
    Str.substr Line (Int.u32 (Str.find_last_of Line ":" + 1)) (Str.size Line)
      = inr p
    /\ colon_free p = true
    /\ (Line = p \/ exists pre, Line = pre ++ String ":" p).
Proof.
  intros HS. unfold Str.substr.
  pose proof (payload_position Line) as HP.
  assert (HL : (Str.size Line <? Int.u32 (Str.find_last_of Line ":" + 1)) = false)
    by (apply Z.ltb_ge; lia).
  rewrite HL. unfold Str.find_last_of in *.
  destruct (find_last_of_from_spec ":" Line 0 Str.npos)
    as [[F R] | (pre & c & p & E & Mc & F & R)]; rewrite R in *.
  - exists Line. change (Int.u32 (Str.npos + 1)) with 0.
    rewrite Z.sub_0_r, Z.min_id. unfold Str.size. rewrite Nat2Z.id.
    cbn [Z.to_nat]. rewrite substring_whole. repeat split; auto.
  - exists p.
    assert (Ec : c = ":"%char).
    { cbn [Str.mem_char] in Mc. destruct (Ascii.eqb_spec c ":"); congruence. }
    subst c.
    assert (LL : String.length Line = (String.length pre + S (String.length p))%nat)
      by (rewrite E, length_append; reflexivity).
    unfold Str.size, Str.npos in *. rewrite LL in *.
    assert (U : Int.u32 (0 + Z.of_nat (String.length pre) + 1)
                = Z.of_nat (String.length pre + 1)).
    { unfold Int.u32. rewrite Z.mod_small; lia. }
    rewrite U, Nat2Z.id.
    replace (Z.to_nat (Z.min (Z.of_nat (String.length pre + S (String.length p)))
                         (Z.of_nat (String.length pre + S (String.length p))
                          - Z.of_nat (String.length pre + 1))))
      with (String.length p) by lia.
    rewrite E, substring_after. cbn [String.substring].
    rewrite substring_whole. repeat split; auto. right. now exists pre.
Qed.

Lemma Receive_loop_no_throw (fuel : nat) (Timeout Now : Z) (o : RxOut) (w : World)
    (e : Str.exn) :
  fst (Receive_loop fuel NULL NULL Timeout Now o w) <> Throw e.
Proof.
  revert o w; induction fuel as [|fuel IH]; intros o w; [discriminate|].
  rewrite Receive_loop_step. cbv zeta.
  destruct (next_event w) as [Line|]; [|discriminate].
  rewrite Receive_metadata_not_requested. cbn [fst].
  destruct (Str.contains Line "UNICAST").
  - unfold Str.substr. pose proof (payload_position Line) as HP.
    assert (HL : (Str.size Line <? Int.u32 (Str.find_last_of Line ":" + 1)) = false)
      by (apply Z.ltb_ge; lia).
    rewrite HL. discriminate.
  - destruct (0 <? Timeout); [destruct (Timeout <=? _); [discriminate|]|];
      apply IH.
Qed.

(** X17: when neither the RSSI nor the SNR is requested, [Receive] never
    leaves through a C++ exception, whatever lines arrive: the metadata
    line is not parsed, and the position handed to [substr] for the payload
    never lies behind the end of the line. *)
Theorem Receive_without_metadata_never_throws (fuel : nat) (p_Payload : out_ptr)
    (Timeout : Z) (w : World) (e : Str.exn) :
  fst (RAK3172_LoRaWAN_Receive fuel p_Payload NULL NULL Timeout w) <> Throw e.
Proof.
  unfold RAK3172_LoRaWAN_Receive. unfold bind at 1. unfold get.
  destruct (is_NULL p_Payload || (Timeout <=? 1))%bool; [discriminate|].
  destruct (negb (LoRaWAN_isJoined (Device w))); [discriminate|].
  unfold bind. rewrite millis_run. apply Receive_loop_no_throw.
Qed.

Lemma Receive_loop_payload (fuel : nat) (p_RSSI p_SNR : out_ptr) (Timeout Now : Z)
    (o0 o : RxOut) (w w' : World) :
  lines_fit w ->
  Receive_loop fuel p_RSSI p_SNR Timeout Now o0 w = (Ok (RAK3172_ERR_OK, o), w') ->
  exists Line p,
    In (Some Line) (events w) /\ Str.contains Line "UNICAST" = true
    /\ Payload o = Some p /\ colon_free p = true
    /\ (Line = p \/ exists pre, Line = pre ++ String ":" p).
Proof.
  revert o0 w; induction fuel as [|fuel IH]; intros o0 w HF; [discriminate|].
  rewrite Receive_loop_step. cbv zeta.
  assert (T : forall v o1, events v = List.tl (events w) ->
                Receive_loop fuel p_RSSI p_SNR Timeout Now o1 v
                  = (Ok (RAK3172_ERR_OK, o), w') ->
                exists Line p,
                  In (Some Line) (events w) /\ Str.contains Line "UNICAST" = true
                  /\ Payload o = Some p /\ colon_free p = true
                  /\ (Line = p \/ exists pre, Line = pre ++ String ":" p)).
  { intros v o1 Ev R. apply IH in R.
    - destruct R as (Line & p & I & R). exists Line, p. split; [|exact R].
      rewrite Ev in I. destruct (events w); simpl in *; auto.
    - unfold lines_fit in *. rewrite Ev.
      destruct (events w); simpl; [constructor | now inversion HF]. }
  unfold next_event.
  destruct (events w) as [|[Line|] rest] eqn:EV; try discriminate.
  destruct (fst (Receive_metadata Line p_RSSI p_SNR o0 (pop_event w)))
    as [o1| | |]; try discriminate.
  destruct (Str.contains Line "UNICAST") eqn:CU.
  - assert (HS : Str.size Line < Str.npos).
    { unfold lines_fit in HF. rewrite EV in HF. now inversion HF. }
    destruct (payload_text Line HS) as (p & Ep & Cp & Sp). rewrite Ep.
    intros E. inversion E. subst o. exists Line, p.
    split; [now left|]. repeat split; assumption.
  - destruct (0 <? Timeout);
      [destruct (Timeout <=? _); [discriminate|]|];
      apply T;
      rewrite ?(proj1 (slept_fields _)), ?(proj1 (tick_fields _)),
              pop_event_events, EV; reflexivity.
Qed.

(** X18: what [Receive] hands back on success.  When every line still to
    arrive is shorter than [npos] and [Receive] returns [RAK3172_ERR_OK],
    the payload it stored is the text after the last colon of a queued line
    that contains [UNICAST] (the whole line when it has no colon), and that
    text contains no colon. *)
Theorem Receive_payload_after_last_colon (fuel : nat)
    (p_Payload p_RSSI p_SNR : out_ptr) (Timeout : Z) (w : World) (o : RxOut) :
  lines_fit w ->
  fst (RAK3172_LoRaWAN_Receive fuel p_Payload p_RSSI p_SNR Timeout w)
    = Ok (RAK3172_ERR_OK, o) ->
  exists Line p,
    In (Some Line) (events w) /\ Str.contains Line "UNICAST" = true
    /\ Payload o = Some p /\ colon_free p = true
    /\ (Line = p \/ exists pre, Line = pre ++ String ":" p).
Proof.
  intros HF. unfold RAK3172_LoRaWAN_Receive. unfold bind at 1. unfold get.
  destruct (is_NULL p_Payload || (Timeout <=? 1))%bool; [discriminate|].
  destruct (negb (LoRaWAN_isJoined (Device w))); [discriminate|].
  unfold bind. rewrite millis_run.
  destruct (Receive_loop fuel p_RSSI p_SNR Timeout _ _ (tick w)) as [res w'] eqn:R.
  cbn [fst]. intros ->.
  apply Receive_loop_payload in R; [exact R | exact HF].
Qed.

Lemma Receive_payload_after_last_colon_witness :
  exists Line p,
    In (Some Line) (events (receiving_world RX_module))
    /\ Str.contains Line "UNICAST" = true
    /\ Payload (Build_RxOut (Some "48656C6C6F") (Some (-60)) (Some 7)) = Some p
    /\ colon_free p = true
    /\ (Line = p \/ exists pre, Line = pre ++ String ":" p).
Proof.
  apply (Receive_payload_after_last_colon 2 Out Out Out 10
           (receiving_world RX_module)).
  - repeat constructor.
  - vm_compute. reflexivity.
Defined.

(** ** Accessors, continued *)

Lemma check_GetBand_fails {B : Type} (leave : RAK3172_Error_t -> B)
    (k : RAK3172_Band_t -> M B) (w : World) :
  Error (respond w (sent w ++ ["AT+BAND=?"])%list) <> RAK3172_ERR_OK ->
  check_GetBand leave k w
    = (Ok (leave (Error (respond w (sent w ++ ["AT+BAND=?"])%list))),
       after_send "AT+BAND=?" w).
Proof.
  intros N.
  unfold check_GetBand, RAK3172_LoRaWAN_GetBand, RAK3172_ERROR_CHECK.
  unfold bind at 1. rewrite query_run. cbv zeta.
  destruct (Error (respond w (sent w ++ ["AT+BAND=?"])%list)); try reflexivity.
  congruence.
Qed.

Lemma check_GetBand_throws {B : Type} (leave : RAK3172_Error_t -> B)
    (k : RAK3172_Band_t -> M B) (w : World) (e : Str.exn) :
  Error (respond w (sent w ++ ["AT+BAND=?"])%list) = RAK3172_ERR_OK ->
  Str.stoi (Value (respond w (sent w ++ ["AT+BAND=?"])%list)) = inl e ->
  check_GetBand leave k w = (Throw e, after_send "AT+BAND=?" w).
Proof.
  intros E V.
  unfold check_GetBand, RAK3172_LoRaWAN_GetBand, RAK3172_ERROR_CHECK.
  unfold bind at 1. rewrite query_run. cbv zeta. now rewrite E, V.
Qed.

(** X19: [SetRetries] also sets the confirmation mode.  More than 7
    retries are refused with [RAK3172_ERR_INVALID_ARG] before anything is
    written; otherwise the call first writes [AT+CFM=1] for a count above
    zero and [AT+CFM=0] for zero, and only when that is accepted
    [AT+RETY=<count>], whose outcome it returns. *)
Theorem SetRetries_sets_confirmation (Retries : Z) (w : World) :
  let c1 := CFM (0 <? Retries) in
  let c2 := "AT+RETY=" ++ Str.to_string Retries in
  let r1 := respond w (sent w ++ [c1])%list in
  let r2 := respond w (sent w ++ [c1; c2])%list in
  (7 < Retries ->
   RAK3172_LoRaWAN_SetRetries Retries w = (Ok RAK3172_ERR_INVALID_ARG, w))
  /\ (Retries <= 7 ->
      RAK3172_LoRaWAN_SetRetries Retries w
        = if is_OK (Error r1)
          then (Ok (Error r2), after_send c2 (after_send c1 w))
          else (Ok (Error r1), after_send c1 w)).
Proof.
  cbv zeta. unfold RAK3172_LoRaWAN_SetRetries. split; intros H.
  - apply Z.ltb_lt in H. now rewrite H.
  - apply Z.ltb_ge in H. rewrite H. cbv zeta.
    unfold RAK3172_ERROR_CHECK, returning.
    unfold bind at 1. rewrite SendCommand_after. fold (CFM (0 <? Retries)).
    destruct (Error (respond w (sent w ++ [CFM (0 <? Retries)])%list));
      try reflexivity.
    cbn [is_OK]. unfold bind, ret. rewrite SendCommand_after.
    destruct (after_send_fields (CFM (0 <? Retries)) w) as (S1 & R1 & _).
    rewrite S1, R1, <- app_assoc. reflexivity.
Qed.

Lemma SetRetries_sets_confirmation_witness :
  RAK3172_LoRaWAN_SetRetries 0 (world_of idle_device accept_all)
    = (Ok RAK3172_ERR_OK,
       after_send "AT+RETY=0" (after_send "AT+CFM=0" (world_of idle_device accept_all)))
  /\ RAK3172_LoRaWAN_SetRetries 8 (world_of idle_device accept_all)
     = (Ok RAK3172_ERR_INVALID_ARG, world_of idle_device accept_all).
Proof.
  assert (H0 : 0 <= 7) by lia.
  assert (H8 : 7 < 8) by lia.
  split.
  - exact (proj2 (SetRetries_sets_confirmation 0 (world_of idle_device accept_all)) H0).
  - exact (proj1 (SetRetries_sets_confirmation 8 (world_of idle_device accept_all)) H8).
Defined.

(** X20: two range checks come after a round trip.  On US915 and AU915
    a sub-band above [RAK_SUB_BAND_9] is refused with
    [RAK3172_ERR_INVALID_ARG], and on a band without duty cycle [GetDuty]
    is refused with [RAK3172_ERR_INVALID_ARG], in both cases only after
    [AT+BAND=?] has been written and answered; no mask and no duty-time
    query follow. *)
Theorem range_checks_after_band_query (w : World) (Band : RAK3172_Band_t) :
  band_query_yields w Band ->
  (forall x, RAK_SUB_BAND_9 < x ->
     Band = RAK_BAND_US915 \/ Band = RAK_BAND_AU915 ->
     RAK3172_LoRaWAN_SetSubBand x w
       = (Ok RAK3172_ERR_INVALID_ARG, after_send "AT+BAND=?" w))
  /\ (~ has_duty_cycle Band ->
      RAK3172_LoRaWAN_GetDuty w
        = (Ok (RAK3172_ERR_INVALID_ARG, None), after_send "AT+BAND=?" w)).
Proof.
  intros HB. split.
  - intros x Hx HS. unfold RAK3172_LoRaWAN_SetSubBand.
    assert (N : (x =? RAK_SUB_BAND_NONE) = false)
      by (apply Z.eqb_neq; unfold RAK_SUB_BAND_9, RAK_SUB_BAND_NONE in *; lia).
    rewrite N, (check_GetBand_run _ _ w Band HB).
    apply Z.ltb_lt in Hx. rewrite Hx.
    destruct HS as [-> | ->]; reflexivity.
  - intros HD. unfold RAK3172_LoRaWAN_GetDuty.
    rewrite (check_GetBand_run _ _ w Band HB).
    unfold has_duty_cycle in HD.
    destruct (Z.eqb_spec Band RAK_BAND_EU868); [tauto|].
    destruct (Z.eqb_spec Band RAK_BAND_RU864); [tauto|].
    destruct (Z.eqb_spec Band RAK_BAND_EU433); [tauto|].
    reflexivity.
Qed.

Lemma range_checks_after_band_query_witness :
  let w := world_of idle_device (band_module RAK_BAND_US915) in
  RAK3172_LoRaWAN_SetSubBand RAK_SUB_BAND_10 w
    = (Ok RAK3172_ERR_INVALID_ARG, after_send "AT+BAND=?" w)
  /\ RAK3172_LoRaWAN_GetDuty w
     = (Ok (RAK3172_ERR_INVALID_ARG, None), after_send "AT+BAND=?" w).
Proof.
  assert (HB : band_query_yields (world_of idle_device (band_module RAK_BAND_US915))
                                 RAK_BAND_US915) by (split; reflexivity).
  assert (Hx : RAK_SUB_BAND_9 < RAK_SUB_BAND_10)
    by (unfold RAK_SUB_BAND_9, RAK_SUB_BAND_10; lia).
  assert (HD : ~ has_duty_cycle RAK_BAND_US915)
    by (intros [H | [H | H]]; discriminate H).
  destruct (range_checks_after_band_query _ _ HB) as (A & B).
  split; [exact (A RAK_SUB_BAND_10 Hx (or_introl eq_refl)) | exact (B HD)].
Defined.

(** X21: the accessors that depend on the band stop at a band query that
    fails: [SetTxPwr], [SetSubBand] (for a sub-band other than NONE),
    [GetSubBand] and [GetDuty] return the error of [AT+BAND=?] and write
    nothing after it. *)
Theorem band_query_failure_stops (w : World) :
  let r := respond w (sent w ++ ["AT+BAND=?"])%list in
  Error r <> RAK3172_ERR_OK ->
  (forall TxPwr, RAK3172_LoRaWAN_SetTxPwr TxPwr w
                   = (Ok (Error r), after_send "AT+BAND=?" w))
  /\ (forall x, x <> RAK_SUB_BAND_NONE ->
        RAK3172_LoRaWAN_SetSubBand x w = (Ok (Error r), after_send "AT+BAND=?" w))
  /\ RAK3172_LoRaWAN_GetSubBand Out w
     = (Ok (Error r, None), after_send "AT+BAND=?" w)
  /\ RAK3172_LoRaWAN_GetDuty w = (Ok (Error r, None), after_send "AT+BAND=?" w).
Proof.
  cbv zeta. intros N. repeat split.
  - intros TxPwr. unfold RAK3172_LoRaWAN_SetTxPwr.
    now rewrite check_GetBand_fails.
  - intros x Hx. unfold RAK3172_LoRaWAN_SetSubBand.
    apply Z.eqb_neq in Hx. rewrite Hx. now rewrite check_GetBand_fails.
  - unfold RAK3172_LoRaWAN_GetSubBand. cbn [is_NULL].
    now rewrite check_GetBand_fails.
  - unfold RAK3172_LoRaWAN_GetDuty. now rewrite check_GetBand_fails.
Qed.

Lemma band_query_failure_stops_witness :
  let w := world_of idle_device (reject_prefix "AT+BAND") in
  RAK3172_LoRaWAN_SetTxPwr 14 w
    = (Ok RAK3172_ERR_INVALID_RESPONSE, after_send "AT+BAND=?" w).
Proof.
  assert (N : Error (respond (world_of idle_device (reject_prefix "AT+BAND"))
                       (sent (world_of idle_device (reject_prefix "AT+BAND"))
                          ++ ["AT+BAND=?"])%list) <> RAK3172_ERR_OK)
    by (vm_compute; discriminate).
  destruct (band_query_failure_stops
              (world_of idle_device (reject_prefix "AT+BAND")) N) as (A & _).
  exact (A 14).
Defined.

Lemma GetSubBand_shifts_log2 (fuel : nat) :
  forall Mask Shifts : Z,
    0 < Mask < 2 ^ Z.of_nat fuel ->
    0 <= Shifts -> Shifts + Z.of_nat fuel < 256 ->
    GetSubBand_shifts fuel Mask Shifts = Some (Shifts + Z.log2 Mask).
Proof.
  induction fuel as [|fuel IH]; intros Mask Shifts HM HS HB.
  - simpl in HM. lia.
  - cbn [GetSubBand_shifts].
    destruct (Z.eqb_spec Mask 1) as [->|N].
    + now rewrite Z.add_0_r.
    + rewrite Nat2Z.inj_succ, Z.pow_succ_r in HM by lia.
      assert (U : Int.u8 (Shifts + 1) = Shifts + 1)
        by (unfold Int.u8; apply Z.mod_small; lia).
      rewrite U, IH.
      * rewrite Z.log2_shiftr by lia.
        assert (1 <= Z.log2 Mask) by (apply Z.log2_le_pow2; [lia | simpl; lia]).
        f_equal. lia.
      * rewrite Z.shiftr_div_pow2 by lia. change (2 ^ 1) with 2. split.
        -- apply Z.div_str_pos. lia.
        -- apply Z.div_lt_upper_bound; lia.
      * lia.
      * lia.
Qed.

(** X22: what [GetSubBand] reports.  On a band without sub-bands it
    reports NONE after the band query alone.  On US915, AU915 and CN470 it
    reads the captured mask with [std::stoi] into a [uint32_t]; a mask of
    zero is reported as ALL and every other mask, whether or not it is a
    single bit, as the position of its highest set bit plus 3. *)
Theorem GetSubBand_reports_highest_bit (w : World) (Band : RAK3172_Band_t) :
  band_query_yields w Band ->
  (~ has_sub_bands Band ->
   RAK3172_LoRaWAN_GetSubBand Out w
     = (Ok (RAK3172_ERR_OK, Some RAK_SUB_BAND_NONE), after_send "AT+BAND=?" w))
  /\ (forall v : Z,
        has_sub_bands Band ->
        let r := respond w (sent w ++ ["AT+BAND=?"; "AT+MASK=?"])%list in
        Error r = RAK3172_ERR_OK -> Str.stoi (Value r) = inr v ->
        fst (RAK3172_LoRaWAN_GetSubBand Out w)
          = Ok (RAK3172_ERR_OK,
                Some (if Int.u32 v =? 0 then RAK_SUB_BAND_ALL
                      else Z.log2 (Int.u32 v) + 3))).
Proof.
  intros HB. unfold RAK3172_LoRaWAN_GetSubBand. cbn [is_NULL].
  rewrite (check_GetBand_run _ _ w Band HB). split.
  - intros HN. unfold has_sub_bands in HN.
    destruct (Z.eqb_spec Band RAK_BAND_US915); [tauto|].
    destruct (Z.eqb_spec Band RAK_BAND_AU915); [tauto|].
    destruct (Z.eqb_spec Band RAK_BAND_CN470); [tauto|].
    reflexivity.
  - intros v HS E V.
    assert (S1 : (negb (Band =? RAK_BAND_US915) && negb (Band =? RAK_BAND_AU915)
                  && negb (Band =? RAK_BAND_CN470))%bool = false).
    { destruct HS as [-> | [-> | ->]]; reflexivity. }
    rewrite S1. unfold RAK3172_ERROR_CHECK. unfold bind at 1.
    rewrite SendCommand_after.
    destruct (after_send_fields "AT+BAND=?" w) as (A1 & A2 & _).
    rewrite A1, A2, <- app_assoc. cbn [app]. rewrite E.
    unfold bind at 1. unfold may_throw. rewrite V.
    destruct (Z.eqb_spec (Int.u32 v) 0) as [Z0|NZ]; [reflexivity|].
    assert (R : 0 < Int.u32 v < 2 ^ Z.of_nat 32).
    { unfold Int.u32 in *. pose proof (Z.mod_pos_bound v (2 ^ 32)).
      change (2 ^ Z.of_nat 32) with (2 ^ 32). lia. }
    rewrite (GetSubBand_shifts_log2 32 (Int.u32 v) 1 R) by (simpl; lia).
    cbn [fst ret]. unfold ret. cbn [fst]. do 3 f_equal. lia.
Qed.

Lemma GetSubBand_reports_highest_bit_witness :
  let w := world_of idle_device (mask_module RAK_BAND_IN865) in
  RAK3172_LoRaWAN_GetSubBand Out w
    = (Ok (RAK3172_ERR_OK, Some RAK_SUB_BAND_NONE), after_send "AT+BAND=?" w).
Proof.
  assert (HB : band_query_yields (world_of idle_device (mask_module RAK_BAND_IN865))
                                 RAK_BAND_IN865) by (split; reflexivity).
  assert (HN : ~ has_sub_bands RAK_BAND_IN865)
    by (intros [H | [H | H]]; discriminate H).
  exact (proj1 (GetSubBand_reports_highest_bit _ _ HB) HN).
Defined.

(** X23: the index sent with [AT+TXP=] is between 0 and 10 for every
    band and every [uint8_t] power, and on EU868 it is never 8 or 9: the
    formula ends at 7 for 2 dBm and everything below 2 dBm is index 10. *)
Theorem TxPwrIndex_range (Band : RAK3172_Band_t) (TxPwr : Z) :
  0 <= TxPwr < 256 ->
  0 <= TxPwrIndex Band TxPwr <= 10
  /\ (Band = RAK_BAND_EU868 ->
      TxPwrIndex Band TxPwr <= 7 \/ TxPwrIndex Band TxPwr = 10).
Proof.
  intros H. rewrite (TxPwrIndex_spec Band TxPwr H). unfold spec_TxPwrIndex.
  split.
  - split_tests; try lia; Z.to_euclidean_division_equations; lia.
  - intros ->. cbn [Z.eqb RAK_BAND_EU868 Pos.eqb].
    split_tests; try lia; Z.to_euclidean_division_equations; lia.
Qed.

Lemma TxPwrIndex_range_witness :
  0 <= TxPwrIndex RAK_BAND_US915 10 <= 10
  /\ (TxPwrIndex RAK_BAND_EU868 2 <= 7 \/ TxPwrIndex RAK_BAND_EU868 2 = 10).
Proof.
  assert (H10 : 0 <= 10 < 256) by lia.
  assert (H2 : 0 <= 2 < 256) by lia.
  split.
  - exact (proj1 (TxPwrIndex_range RAK_BAND_US915 10 H10)).
  - exact (proj2 (TxPwrIndex_range RAK_BAND_EU868 2 H2) eq_refl).
Defined.

Lemma query_throws {T : Type} (Command : string) (cast : Z -> T) :
  throws_on_bad_value (query Out Command cast) Command.
Proof.
  intros w e. cbv zeta. intros E V. rewrite query_run. cbv zeta.
  now rewrite E, V.
Qed.

(** X24: the getters let the exceptions of [std::stoi] escape.  When the
    module answers a query with success and a captured value that
    [std::stoi] cannot read (no number at its start, or a number outside
    [int]), the getter does not return an error code: it leaves through
    that exception, after the query has been written. *)
Theorem getters_throw_on_bad_value :
  throws_on_bad_value (RAK3172_LoRaWAN_GetRetries Out) "AT+RETY=?"
  /\ throws_on_bad_value (RAK3172_LoRaWAN_GetPNM Out) "AT+PNM=?"
  /\ throws_on_bad_value (RAK3172_LoRaWAN_GetConfirmation Out) "AT+CFM=?"
  /\ throws_on_bad_value (RAK3172_LoRaWAN_GetBand Out) "AT+BAND=?"
  /\ throws_on_bad_value RAK3172_LoRaWAN_GetSNR "AT+SNR=?"
  /\ throws_on_bad_value RAK3172_LoRaWAN_GetRSSI "AT+RSSI=?"
  /\ throws_on_bad_value (RAK3172_LoRaWAN_GetDataRate Out) "AT+DR=?"
  /\ throws_on_bad_value (RAK3172_LoRaWAN_GetADR Out) "AT+ADR=?"
  /\ throws_on_bad_value (RAK3172_LoRaWAN_GetJoinMode Out) "AT+NJM=?"
  /\ throws_on_bad_value (RAK3172_P2P_isEncryptionEnabled Out) "AT+ENCRY=?".
Proof. repeat split; apply query_throws. Qed.

Lemma getters_throw_on_bad_value_witness :
  RAK3172_LoRaWAN_GetRSSI (world_of idle_device (value_module "n/a"))
    = (Throw Str.invalid_argument,
       after_send "AT+RSSI=?" (world_of idle_device (value_module "n/a")))
  /\ RAK3172_LoRaWAN_GetRetries Out (world_of idle_device (value_module "4294967296"))
     = (Throw Str.out_of_range,
        after_send "AT+RETY=?" (world_of idle_device (value_module "4294967296"))).
Proof.
  destruct getters_throw_on_bad_value as (R & _ & _ & _ & _ & S & _).
  split.
  - exact (S (world_of idle_device (value_module "n/a")) Str.invalid_argument
             eq_refl eq_refl).
  - exact (R (world_of idle_device (value_module "4294967296")) Str.out_of_range
             eq_refl eq_refl).
Defined.

Lemma u8_reduced (v : Z) : reduced 0 255 v (Int.u8 v).
Proof.
  unfold reduced, Int.u8. change (2 ^ 8) with 256.
  pose proof (Z.mod_pos_bound v 256) as B.
  pose proof (Z.div_mod v 256) as D.
  split; [lia|]. split.
  - replace (v mod 256 - v) with (- (v / 256) * 256) by lia.
    apply Z.mod_mul. lia.
  - intros H. apply Z.mod_small. lia.
Qed.

Lemma s8_reduced (v : Z) : reduced (-128) 127 v (Int.s8 v).
Proof.
  unfold reduced, Int.s8. cbv zeta.
  change (2 ^ 8) with 256. change (2 ^ 7) with 128.
  pose proof (Z.mod_pos_bound v 256) as B.
  pose proof (Z.div_mod v 256) as D.
  destruct (Z.ltb_spec (v mod 256) 128) as [L|L].
  - split; [lia|]. split.
    + replace (v mod 256 - v) with (- (v / 256) * 256) by lia.
      apply Z.mod_mul. lia.
    + intros H. apply Z.mod_small. lia.
  - split; [lia|]. split.
    + replace (v mod 256 - 256 - v) with ((- (v / 256) - 1) * 256) by lia.
      apply Z.mod_mul. lia.
    + intros H.
      assert (Q : v / 256 = -1) by (Z.to_euclidean_division_equations; lia).
      lia.
Qed.

Lemma GetDuty_run (w : World) (Band : RAK3172_Band_t) :
  band_query_yields w Band -> has_duty_cycle Band ->
  RAK3172_LoRaWAN_GetDuty w
    = query Out "AT+DUTYTIME=?" Int.u8 (after_send "AT+BAND=?" w).
Proof.
  intros HB HS. unfold RAK3172_LoRaWAN_GetDuty.
  rewrite (check_GetBand_run _ _ w Band HB).
  assert (S1 : (negb (Band =? RAK_BAND_EU868) && negb (Band =? RAK_BAND_RU864)
                && negb (Band =? RAK_BAND_EU433))%bool = false).
  { destruct HS as [-> | [-> | ->]]; reflexivity. }
  now rewrite S1.
Qed.

Lemma query_value {T : Type} (Command : string) (cast : Z -> T) (w : World) (v : Z) :
  Error (respond w (sent w ++ [Command])%list) = RAK3172_ERR_OK ->
  Str.stoi (Value (respond w (sent w ++ [Command])%list)) = inr v ->
  fst (query Out Command cast w) = Ok (RAK3172_ERR_OK, Some (cast v)).
Proof. intros E V. rewrite query_run. cbv zeta. now rewrite E, V. Qed.

(** X25: what the numeric getters make of the number the module reports.
    When the query succeeds and [std::stoi] reads the number [v] from the
    captured value, [GetRetries], [GetSNR] and, on a band with duty cycle,
    [GetDuty] report [v] cast to [uint8_t] and [GetRSSI] reports [v] cast to
    [int8_t]: the number between 0 and 255 (between -128 and 127) that
    differs from [v] by a multiple of 256, hence [v] itself when it is in
    that range, and a number above 127 for a negative SNR. *)
Theorem getters_reduce_modulo_256 (w : World) (v : Z) :
  (let r := respond w (sent w ++ ["AT+RETY=?"])%list in
   Error r = RAK3172_ERR_OK -> Str.stoi (Value r) = inr v ->
   exists t, fst (RAK3172_LoRaWAN_GetRetries Out w) = Ok (RAK3172_ERR_OK, Some t)
             /\ reduced 0 255 v t)
  /\ (let r := respond w (sent w ++ ["AT+SNR=?"])%list in
      Error r = RAK3172_ERR_OK -> Str.stoi (Value r) = inr v ->
      exists t, fst (RAK3172_LoRaWAN_GetSNR w) = Ok (RAK3172_ERR_OK, Some t)
                /\ reduced 0 255 v t)
  /\ (let r := respond w (sent w ++ ["AT+RSSI=?"])%list in
      Error r = RAK3172_ERR_OK -> Str.stoi (Value r) = inr v ->
      exists t, fst (RAK3172_LoRaWAN_GetRSSI w) = Ok (RAK3172_ERR_OK, Some t)
                /\ reduced (-128) 127 v t)
  /\ (forall Band : RAK3172_Band_t,
        band_query_yields w Band -> has_duty_cycle Band ->
        let r := respond w (sent w ++ ["AT+BAND=?"; "AT+DUTYTIME=?"])%list in
        Error r = RAK3172_ERR_OK -> Str.stoi (Value r) = inr v ->
        exists t, fst (RAK3172_LoRaWAN_GetDuty w) = Ok (RAK3172_ERR_OK, Some t)
                  /\ reduced 0 255 v t).
Proof.
  split; [|split; [|split]].
  - intros r E V. exists (Int.u8 v). split; [|apply u8_reduced].
    now apply query_value.
  - intros r E V. exists (Int.u8 v). split; [|apply u8_reduced].
    now apply query_value.
  - intros r E V. exists (Int.s8 v). split; [|apply s8_reduced].
    now apply query_value.
  - intros Band HB HS r E V. exists (Int.u8 v). split; [|apply u8_reduced].
    rewrite (GetDuty_run w Band HB HS). apply query_value.
    + cbn [sent respond after_send]. rewrite <- app_assoc. exact E.
    + cbn [sent respond after_send]. rewrite <- app_assoc. exact V.
Qed.

Lemma getters_reduce_modulo_256_witness :
  (exists t, fst (RAK3172_LoRaWAN_GetSNR (world_of idle_device (value_module "-5")))
             = Ok (RAK3172_ERR_OK, Some t)
             /\ reduced 0 255 (-5) t)
  /\ fst (RAK3172_LoRaWAN_GetSNR (world_of idle_device (value_module "-5")))
     = Ok (RAK3172_ERR_OK, Some 251)
  /\ (exists t, fst (RAK3172_LoRaWAN_GetRSSI (world_of idle_device (value_module "-70")))
                = Ok (RAK3172_ERR_OK, Some t)
                /\ reduced (-128) 127 (-70) t).
Proof.
  destruct (getters_reduce_modulo_256 (world_of idle_device (value_module "-5")) (-5))
    as (_ & S & _).
  destruct (getters_reduce_modulo_256 (world_of idle_device (value_module "-70")) (-70))
    as (_ & _ & R & _).
  split; [exact (S eq_refl eq_refl)|]. split; [reflexivity|].
  exact (R eq_refl eq_refl).
Defined.

(** X26: [SetJoinMode] tells the module and not the handle.  The call
    leaves the handle as it was, so on a handle that is not in OTAA mode
    [SetOTAAKeys] is still refused with [RAK3172_ERR_INVALID_STATE] after
    [SetJoinMode(RAK_JOIN_OTAA)] has succeeded, and nothing is written for
    the keys. *)
Theorem SetJoinMode_keeps_handle (Mode : RAK3172_JoinMode_t)
    (k1 k2 k3 : list Byte.byte) (w : World) :
  let w' := snd (RAK3172_LoRaWAN_SetJoinMode Mode w) in
  Device w' = Device w
  /\ sent w' = (sent w ++ [("AT+NJM=" ++ Str.to_string Mode)%string])%list
  /\ (LoRaWAN_Join (Device w) <> RAK_JOIN_OTAA ->
      RAK3172_LoRaWAN_SetOTAAKeys (Some k1) (Some k2) (Some k3) w'
        = (Ok RAK3172_ERR_INVALID_STATE, w')).
Proof.
  cbv zeta. split; [reflexivity|]. split; [reflexivity|].
  intros N. unfold RAK3172_LoRaWAN_SetOTAAKeys. unfold bind at 1. unfold get.
  assert (D : Device (snd (RAK3172_LoRaWAN_SetJoinMode Mode w)) = Device w)
    by reflexivity.
  rewrite D. apply Z.eqb_neq in N. now rewrite N.
Qed.

Lemma SetJoinMode_keeps_handle_witness :
  let w := world_of abp_device accept_all in
  fst (RAK3172_LoRaWAN_SetJoinMode RAK_JOIN_OTAA w) = Ok RAK3172_ERR_OK
  /\ fst (RAK3172_LoRaWAN_SetOTAAKeys (Some key8) (Some key8) (Some key16)
            (snd (RAK3172_LoRaWAN_SetJoinMode RAK_JOIN_OTAA w)))
     = Ok RAK3172_ERR_INVALID_STATE.
Proof.
  assert (N : LoRaWAN_Join (Device (world_of abp_device accept_all)) <> RAK_JOIN_OTAA)
    by discriminate.
  destruct (SetJoinMode_keeps_handle RAK_JOIN_OTAA key8 key8 key16
              (world_of abp_device accept_all)) as (_ & _ & H).
  split; [reflexivity|]. now rewrite (H N).
Defined.

Lemma band_comes_back_all : forallb band_comes_back (seq 0 256) = true.
Proof. vm_compute. reflexivity. Qed.

(** X27: the band round trip.  On a module that keeps the band it was
    given, [GetBand] after [SetBand(Band)] returns [Band] for every band
    value that fits a [uint8_t], and [Band] modulo 256 in general, since
    [SetBand] sends the band as a [uint8_t]. *)
Theorem Band_roundtrip (Band : RAK3172_Band_t) :
  set_then_get_band Band = Ok (RAK3172_ERR_OK, Some (Int.u8 Band)).
Proof.
  assert (R : forall b, 0 <= b < 256 ->
                set_then_get_band b = Ok (RAK3172_ERR_OK, Some b)).
  { intros b Hb.
    pose proof band_comes_back_all as A. rewrite forallb_forall in A.
    specialize (A (Z.to_nat b)).
    assert (I : In (Z.to_nat b) (seq 0 256)) by (apply in_seq; lia).
    specialize (A I). unfold band_comes_back in A.
    rewrite Z2Nat.id in A by lia.
    destruct (set_then_get_band b) as [[[] [x|]]| | |]; try discriminate A.
    apply Z.eqb_eq in A. now subst x. }
  assert (U : set_then_get_band Band = set_then_get_band (Int.u8 Band)).
  { unfold set_then_get_band, RAK3172_LoRaWAN_SetBand.
    assert (UU : Int.u8 (Int.u8 Band) = Int.u8 Band)
      by (unfold Int.u8; apply Z.mod_mod; lia).
    now rewrite UU. }
  rewrite U. apply R. unfold Int.u8.
  pose proof (Z.mod_pos_bound Band (2 ^ 8)). lia.
Qed.

(** X28: the mask [SetSubBand] writes.  On CN470, for every sub-band
    from [RAK_SUB_BAND_1] to [RAK_SUB_BAND_12], the command written after
    the band query is [AT+MASK=] followed by exactly four hexadecimal
    digits (they fit the five bytes of [Temp]) that denote the single bit
    [1 << (sub-band - 2)]. *)
Theorem SetSubBand_mask_single_bit (x : RAK3172_SubBand_t) (w : World) :
  RAK_SUB_BAND_1 <= x <= RAK_SUB_BAND_12 ->
  band_query_yields w RAK_BAND_CN470 ->
  exists m : string,
    sent (snd (RAK3172_LoRaWAN_SetSubBand x w))
      = (sent w ++ ["AT+BAND=?"; ("AT+MASK=" ++ m)%string])%list
    /\ String.length m = 4%nat
    /\ hex_number m = Some (2 ^ (x - 2)).
Proof.
  intros Hx HB. unfold RAK_SUB_BAND_1, RAK_SUB_BAND_12 in Hx.
  rewrite (SetSubBand_writes x w RAK_BAND_CN470);
    [ | unfold RAK_SUB_BAND_NONE; lia | exact HB
      | right; right; reflexivity | right; reflexivity ].
  exists (Str.sprintf_hex true 4 (Int.u32 (Z.shiftl 1 (x - 2)))).
  assert (C : x = 2 \/ x = 3 \/ x = 4 \/ x = 5 \/ x = 6 \/ x = 7 \/ x = 8
              \/ x = 9 \/ x = 10 \/ x = 11 \/ x = 12 \/ x = 13) by lia.
  repeat (destruct C as [-> | C]); try subst x;
    (split; [reflexivity | split; reflexivity]).
Qed.

Lemma SetSubBand_mask_single_bit_witness :
  exists m : string,
    sent (snd (RAK3172_LoRaWAN_SetSubBand RAK_SUB_BAND_12
                 (world_of idle_device (band_module RAK_BAND_CN470))))
      = ["AT+BAND=?"; ("AT+MASK=" ++ m)%string]
    /\ String.length m = 4%nat
    /\ hex_number m = Some 2048.
Proof.
  assert (Hx : RAK_SUB_BAND_1 <= RAK_SUB_BAND_12 <= RAK_SUB_BAND_12)
    by (unfold RAK_SUB_BAND_1, RAK_SUB_BAND_12; lia).
  assert (HB : band_query_yields (world_of idle_device (band_module RAK_BAND_CN470))
                                 RAK_BAND_CN470) by (split; reflexivity).
  exact (SetSubBand_mask_single_bit RAK_SUB_BAND_12
           (world_of idle_device (band_module RAK_BAND_CN470)) Hx HB).
Defined.

(** ** The encoding in the driver *)

Lemma encodes_hex_string (upper : bool) (bs : list Byte.byte) :
  encodes upper (hex_string upper bs) bs.
Proof.
  split; [reflexivity|]. split; [apply hex_string_length|].
  split; [apply hex_string_chars | apply hex_decode_string].
Qed.

Lemma SetOTAAKeys_run (DEVEUI APPEUI APPKEY : list Byte.byte) (w : World) :
  LoRaWAN_Join (Device w) = RAK_JOIN_OTAA ->
  (8 <= List.length DEVEUI)%nat -> (8 <= List.length APPEUI)%nat ->
  (16 <= List.length APPKEY)%nat ->
  RAK3172_LoRaWAN_SetOTAAKeys (Some DEVEUI) (Some APPEUI) (Some APPKEY) w
    = after_three ("AT+DEVEUI=" ++ hex_string true (firstn 8 DEVEUI))
                  ("AT+APPEUI=" ++ hex_string true (firstn 8 APPEUI))
                  ("AT+APPKEY=" ++ hex_string true (firstn 16 APPKEY)) w.
Proof.
  intros HJ H1 H2 H3. unfold RAK3172_LoRaWAN_SetOTAAKeys.
  unfold bind at 1. unfold get. rewrite HJ.
  cbn [Z.eqb RAK_JOIN_OTAA negb Pos.eqb].
  rewrite (hex_loop2_spec true APPEUI DEVEUI 8 0 "" "") by (simpl; lia).
  rewrite (hex_loop_spec true APPKEY 16 0 "") by (simpl; lia).
  cbn [skipn append]. unfold defined.
  unfold bind at 1. unfold ret at 1. unfold bind at 1. unfold ret at 1.
  apply three_commands_run.
Qed.

Lemma SetABPKeys_run (APPSKEY NWKSKEY DEVADDR : list Byte.byte) (w : World) :
  LoRaWAN_Join (Device w) = RAK_JOIN_ABP ->
  (16 <= List.length APPSKEY)%nat -> (16 <= List.length NWKSKEY)%nat ->
  (4 <= List.length DEVADDR)%nat ->
  RAK3172_LoRaWAN_SetABPKeys (Some APPSKEY) (Some NWKSKEY) (Some DEVADDR) w
    = after_three ("AT+APPSKEY=" ++ hex_string true (firstn 16 APPSKEY))
                  ("AT+NWKSKEY=" ++ hex_string true (firstn 16 NWKSKEY))
                  ("AT+DEVADDR=" ++ hex_string true (firstn 4 DEVADDR)) w.
Proof.
  intros HJ H1 H2 H3. unfold RAK3172_LoRaWAN_SetABPKeys.
  unfold bind at 1. unfold get. rewrite HJ.
  cbn [Z.eqb RAK_JOIN_ABP negb].
  rewrite (hex_loop2_spec true APPSKEY NWKSKEY 16 0 "" "") by (simpl; lia).
  rewrite (hex_loop_spec true DEVADDR 4 0 "") by (simpl; lia).
  cbn [skipn append]. unfold defined.
  unfold bind at 1. unfold ret at 1. unfold bind at 1. unfold ret at 1.
  apply three_commands_run.
Qed.

Lemma Transmit_writes_send (fuel : nat) (Port Timeout : Z) (buf : list Byte.byte)
    (Confirmed : bool) (Wait : RAK3172_Wait_t) (w : World) :
  Port <> 0 -> LoRaWAN_isJoined (Device w) = true ->
  buf <> [] -> (List.length buf < 256)%nat ->
  Error (respond w (sent w ++ [CFM Confirmed])%list) = RAK3172_ERR_OK ->
  sent (snd (RAK3172_LoRaWAN_Transmit fuel Port (Some buf)
               (Z.of_nat (List.length buf)) Timeout Confirmed Wait w))
    = (sent w ++ [CFM Confirmed; SEND Port buf])%list.
Proof.
  intros HP HJ HB HL HC.
  rewrite (Transmit_run fuel Port Timeout buf Confirmed Wait w HP HJ HB HL).
  cbv zeta. rewrite HC. cbn [is_OK negb].
  assert (L : (sent (after_send (SEND Port buf) (after_send (CFM Confirmed) w))
               = sent w ++ [CFM Confirmed; SEND Port buf])%list)
    by (cbn [sent after_send]; now rewrite <- app_assoc).
  destruct (negb (is_OK _)); [exact L|].
  destruct (Str.contains _ "AT_BUSY_ERROR"); [exact L|].
  destruct Confirmed; [|exact L].
  rewrite Transmit_wait_sent. exact L.
Qed.

(** C4: the hex encoding the driver uses.  For every byte array the
    encoding loop, and its two-buffer form alike, yields the two
    hexadecimal characters of every byte in buffer order and nothing else:
    twice as many characters as bytes, of one case, reading back
    case-insensitively as the original bytes.  The key provisioning uses
    the upper case: [SetOTAAKeys] and [SetABPKeys] write their three
    commands with the 8, 8 and 16 (16, 16 and 4) bytes of the keys encoded
    so.  The transmission uses the lower case: on a joined device, for a
    port other than zero and a payload of 1 to 255 bytes, once the
    confirmation mode is accepted the command written is
    [AT+SEND=<port>:] followed by the payload encoded so. *)
Theorem hex_encode_roundtrip :
  (forall (upper : bool) (bs : list Byte.byte),
     exists s, hex_loop upper bs 0 (List.length bs) "" = Some s
               /\ encodes upper s bs)
  /\ (forall (upper : bool) (p q : list Byte.byte),
        List.length p = List.length q ->
        exists s t, hex_loop2 upper p q 0 (List.length p) "" "" = Some (s, t)
                    /\ encodes upper s p /\ encodes upper t q)
  /\ (forall (DEVEUI APPEUI APPKEY : list Byte.byte) (w : World),
        LoRaWAN_Join (Device w) = RAK_JOIN_OTAA ->
        List.length DEVEUI = 8%nat -> List.length APPEUI = 8%nat ->
        List.length APPKEY = 16%nat ->
        exists dev app key,
          encodes true dev DEVEUI /\ encodes true app APPEUI
          /\ encodes true key APPKEY
          /\ RAK3172_LoRaWAN_SetOTAAKeys (Some DEVEUI) (Some APPEUI) (Some APPKEY) w
             = after_three ("AT+DEVEUI=" ++ dev) ("AT+APPEUI=" ++ app)
                           ("AT+APPKEY=" ++ key) w)
  /\ (forall (APPSKEY NWKSKEY DEVADDR : list Byte.byte) (w : World),
        LoRaWAN_Join (Device w) = RAK_JOIN_ABP ->
        List.length APPSKEY = 16%nat -> List.length NWKSKEY = 16%nat ->
        List.length DEVADDR = 4%nat ->
        exists app nwk addr,
          encodes true app APPSKEY /\ encodes true nwk NWKSKEY
          /\ encodes true addr DEVADDR
          /\ RAK3172_LoRaWAN_SetABPKeys (Some APPSKEY) (Some NWKSKEY) (Some DEVADDR) w
             = after_three ("AT+APPSKEY=" ++ app) ("AT+NWKSKEY=" ++ nwk)
                           ("AT+DEVADDR=" ++ addr) w)
  /\ (forall (fuel : nat) (Port Timeout : Z) (buf : list Byte.byte)
             (Confirmed : bool) (Wait : RAK3172_Wait_t) (w : World),
        Port <> 0 -> LoRaWAN_isJoined (Device w) = true ->
        buf <> [] -> (List.length buf < 256)%nat ->
        Error (respond w (sent w ++ [CFM Confirmed])%list) = RAK3172_ERR_OK ->
        exists s,
          encodes false s buf
          /\ sent (snd (RAK3172_LoRaWAN_Transmit fuel Port (Some buf)
                          (Z.of_nat (List.length buf)) Timeout Confirmed Wait w))
             = (sent w ++ [CFM Confirmed;
                           ("AT+SEND=" ++ Str.to_string Port ++ ":" ++ s)%string])%list).
Proof.
  split; [|split; [|split; [|split]]].
  - intros upper bs. exists (hex_string upper bs).
    split; [apply hex_loop_all | apply encodes_hex_string].
  - intros upper p q E. exists (hex_string upper p), (hex_string upper q).
    rewrite (hex_loop2_spec upper p q (List.length p) 0 "" "") by lia.
    cbn [skipn append]. rewrite E at 2. rewrite !firstn_all.
    split; [reflexivity|]. split; apply encodes_hex_string.
  - intros DEVEUI APPEUI APPKEY w HJ H1 H2 H3.
    exists (hex_string true DEVEUI), (hex_string true APPEUI),
           (hex_string true APPKEY).
    split; [apply encodes_hex_string|]. split; [apply encodes_hex_string|].
    split; [apply encodes_hex_string|].
    rewrite (SetOTAAKeys_run DEVEUI APPEUI APPKEY w HJ) by lia.
    rewrite <- H1 at 1. rewrite <- H2 at 1. rewrite <- H3 at 1.
    now rewrite !firstn_all.
  - intros APPSKEY NWKSKEY DEVADDR w HJ H1 H2 H3.
    exists (hex_string true APPSKEY), (hex_string true NWKSKEY),
           (hex_string true DEVADDR).
    split; [apply encodes_hex_string|]. split; [apply encodes_hex_string|].
    split; [apply encodes_hex_string|].
    rewrite (SetABPKeys_run APPSKEY NWKSKEY DEVADDR w HJ) by lia.
    rewrite <- H1 at 1. rewrite <- H2 at 1. rewrite <- H3 at 1.
    now rewrite !firstn_all.
  - intros fuel Port Timeout buf Confirmed Wait w HP HJ HB HL HC.
    exists (hex_string false buf). split; [apply encodes_hex_string|].
    exact (Transmit_writes_send fuel Port Timeout buf Confirmed Wait w
             HP HJ HB HL HC).
Qed.

Lemma hex_encode_roundtrip_witness :
  (exists dev app key,
     encodes true dev key8 /\ encodes true app key8 /\ encodes true key key16
     /\ RAK3172_LoRaWAN_SetOTAAKeys (Some key8) (Some key8) (Some key16)
          (world_of idle_device accept_all)
        = after_three ("AT+DEVEUI=" ++ dev) ("AT+APPEUI=" ++ app)
                      ("AT+APPKEY=" ++ key) (world_of idle_device accept_all))
  /\ (exists s,
        encodes false s Hello
        /\ sent (snd (RAK3172_LoRaWAN_Transmit 0 2 (Some Hello) 5 0 false None
                        (world_of joined_device accept_all)))
           = ["AT+CFM=0"; ("AT+SEND=2:" ++ s)%string])
  /\ sent (snd (RAK3172_LoRaWAN_SetOTAAKeys (Some key8) (Some key8) (Some key16)
                  (world_of idle_device accept_all)))
     = ["AT+DEVEUI=70B3D57ED0051A2B"; "AT+APPEUI=70B3D57ED0051A2B";
        "AT+APPKEY=00112233445566778899AABBCCDDEEFF"]
  /\ sent (snd (RAK3172_LoRaWAN_Transmit 0 2 (Some Hello) 5 0 false None
                  (world_of joined_device accept_all)))
     = ["AT+CFM=0"; "AT+SEND=2:48656c6c6f"].
Proof.
  destruct hex_encode_roundtrip as (_ & _ & O & _ & T).
  assert (HP : 2 <> 0) by lia.
  assert (HB : Hello <> []) by discriminate.
  assert (HL : (List.length Hello < 256)%nat) by (simpl; lia).
  split; [|split; [|split]].
  - exact (O key8 key8 key16 (world_of idle_device accept_all)
             eq_refl eq_refl eq_refl eq_refl).
  - exact (T 0%nat 2 0 Hello false None (world_of joined_device accept_all)
             HP eq_refl HB HL eq_refl).
  - reflexivity.
  - reflexivity.
Defined.

(** ** Accessors and their round trips *)

Lemma queries_after_band_query {T : Type} (Command : string) (cast : Z -> T)
    (m : M (RAK3172_Error_t * option T)) (w : World) :
  m w = query Out Command cast (after_send "AT+BAND=?" w) ->
  queries_after_band m w Command cast.
Proof.
  intros R. unfold queries_after_band. cbv zeta. rewrite R, query_run. cbv zeta.
  destruct (after_send_fields "AT+BAND=?" w) as (A1 & A2 & _).
  rewrite A1, A2, <- app_assoc. cbn [app fst snd].
  split; [|split].
  - destruct (after_send_fields Command (after_send "AT+BAND=?" w)) as (B1 & _).
    rewrite B1, A1, <- app_assoc. reflexivity.
  - intros v E V. now rewrite E, V.
  - intros N.
    destruct (Error (respond w (sent w ++ ["AT+BAND=?"; Command])%list));
      try reflexivity; congruence.
Qed.

Lemma sends_after_band_run (Command : string) (w : World) :
  returning (RAK3172_SendCommand Command) (after_send "AT+BAND=?" w)
    = (Ok (Error (respond w (sent w ++ ["AT+BAND=?"; Command])%list)),
       after_send Command (after_send "AT+BAND=?" w)).
Proof.
  unfold returning, bind. rewrite SendCommand_after.
  destruct (after_send_fields "AT+BAND=?" w) as (A1 & A2 & _).
  rewrite A1, A2, <- app_assoc. reflexivity.
Qed.

Lemma SetRetries_run (Retries : Z) (w : World) :
  Retries <= 7 ->
  RAK3172_LoRaWAN_SetRetries Retries w
    = if is_OK (Error (respond w (sent w ++ [CFM (0 <? Retries)])%list))
      then (Ok (Error (respond w (sent w ++ [CFM (0 <? Retries);
                         ("AT+RETY=" ++ Str.to_string Retries)%string])%list)),
            after_send ("AT+RETY=" ++ Str.to_string Retries)
                       (after_send (CFM (0 <? Retries)) w))
      else (Ok (Error (respond w (sent w ++ [CFM (0 <? Retries)])%list)),
            after_send (CFM (0 <? Retries)) w).
Proof.
  intros H. unfold RAK3172_LoRaWAN_SetRetries.
  apply Z.ltb_ge in H. rewrite H. cbv zeta.
  unfold RAK3172_ERROR_CHECK, returning.
  unfold bind at 1. rewrite SendCommand_after. fold (CFM (0 <? Retries)).
  destruct (Error (respond w (sent w ++ [CFM (0 <? Retries)])%list));
    try reflexivity.
  cbn [is_OK]. unfold bind, ret. rewrite SendCommand_after.
  destruct (after_send_fields (CFM (0 <? Retries)) w) as (S1 & R1 & _).
  rewrite S1, R1, <- app_assoc. reflexivity.
Qed.

Lemma SetTxPwr_run (TxPwr : Z) (w : World) (Band : RAK3172_Band_t) :
  band_query_yields w Band ->
  sends_after_band (RAK3172_LoRaWAN_SetTxPwr TxPwr) w
    ("AT+TXP=" ++ Str.to_string (TxPwrIndex Band TxPwr)).
Proof.
  intros HB. unfold sends_after_band, RAK3172_LoRaWAN_SetTxPwr.
  rewrite (check_GetBand_run _ _ w Band HB). apply sends_after_band_run.
Qed.

Lemma SetSubBand_run (x : RAK3172_SubBand_t) (w : World) (Band : RAK3172_Band_t) :
  x <> RAK_SUB_BAND_NONE ->
  band_query_yields w Band -> has_sub_bands Band ->
  (x <= RAK_SUB_BAND_9 \/ Band = RAK_BAND_CN470) ->
  sends_after_band (RAK3172_LoRaWAN_SetSubBand x) w (MASK x).
Proof.
  intros Hx HB HS HR. unfold sends_after_band, RAK3172_LoRaWAN_SetSubBand.
  apply Z.eqb_neq in Hx. rewrite Hx.
  rewrite (check_GetBand_run _ _ w Band HB).
  assert (S1 : ((Band =? RAK_BAND_US915) || (Band =? RAK_BAND_AU915)
                || (Band =? RAK_BAND_CN470))%bool = true).
  { destruct HS as [-> | [-> | ->]]; reflexivity. }
  assert (S2 : ((RAK_SUB_BAND_9 <? x) && negb (Band =? RAK_BAND_CN470))%bool = false).
  { destruct HR as [L | ->]; [|now rewrite andb_false_r].
    apply Z.ltb_ge in L. now rewrite L. }
  rewrite S1, S2. unfold MASK.
  destruct (x =? RAK_SUB_BAND_ALL); cbv zeta; apply sends_after_band_run.
Qed.

Lemma SetSubBand_above_9 (x : RAK3172_SubBand_t) (w : World) (Band : RAK3172_Band_t) :
  band_query_yields w Band ->
  RAK_SUB_BAND_9 < x -> Band = RAK_BAND_US915 \/ Band = RAK_BAND_AU915 ->
  RAK3172_LoRaWAN_SetSubBand x w
    = (Ok RAK3172_ERR_INVALID_ARG, after_send "AT+BAND=?" w).
Proof.
  intros HB Hx HS. unfold RAK3172_LoRaWAN_SetSubBand.
  assert (N : (x =? RAK_SUB_BAND_NONE) = false)
    by (apply Z.eqb_neq; unfold RAK_SUB_BAND_9, RAK_SUB_BAND_NONE in *; lia).
  rewrite N, (check_GetBand_run _ _ w Band HB).
  apply Z.ltb_lt in Hx. rewrite Hx.
  destruct HS as [-> | ->]; reflexivity.
Qed.

Lemma GetSubBand_run (w : World) (Band : RAK3172_Band_t) :
  band_query_yields w Band -> has_sub_bands Band ->
  RAK3172_LoRaWAN_GetSubBand Out w
    = query Out "AT+MASK=?" sub_band_of_mask (after_send "AT+BAND=?" w).
Proof.
  intros HB HS. unfold RAK3172_LoRaWAN_GetSubBand. cbn [is_NULL].
  rewrite (check_GetBand_run _ _ w Band HB).
  assert (S1 : (negb (Band =? RAK_BAND_US915) && negb (Band =? RAK_BAND_AU915)
                && negb (Band =? RAK_BAND_CN470))%bool = false).
  { destruct HS as [-> | [-> | ->]]; reflexivity. }
  rewrite S1, query_run. cbv zeta.
  unfold RAK3172_ERROR_CHECK. unfold bind at 1. rewrite SendCommand_after.
  destruct (Error (respond (after_send "AT+BAND=?" w)
                     (sent (after_send "AT+BAND=?" w) ++ ["AT+MASK=?"])%list));
    try reflexivity.
  cbn [is_OK]. unfold bind at 1. unfold may_throw.
  destruct (Str.stoi _) as [e|v]; [reflexivity|].
  unfold sub_band_of_mask.
  destruct (Z.eqb_spec (Int.u32 v) 0) as [Z0|NZ]; [reflexivity|].
  assert (R : 0 < Int.u32 v < 2 ^ Z.of_nat 32).
  { unfold Int.u32 in *. pose proof (Z.mod_pos_bound v (2 ^ 32)).
    change (2 ^ Z.of_nat 32) with (2 ^ 32). lia. }
  rewrite (GetSubBand_shifts_log2 32 (Int.u32 v) 1 R) by (simpl; lia).
  unfold ret. do 4 f_equal. lia.
Qed.

(** C6, amended: the setters of PNM, confirmation, band, RX1 and RX2
    delay, data rate (up to 7), ADR and join mode are one command each;
    the getters of retries, PNM, confirmation, band, SNR, RSSI, data rate,
    ADR and join mode, given an output location, are one [<KEY>=?] query
    each, whose captured string is read by [std::stoi] and cast to the
    result.  The others make two round trips.  [SetRetries] (up to 7)
    writes [AT+CFM=] and, once that is accepted, [AT+RETY=], whose outcome
    it returns.  [SetTxPwr], [SetSubBand], [GetSubBand] and [GetDuty] first
    query the band with [AT+BAND=?]; when that query succeeds, [SetTxPwr]
    writes [AT+TXP=] and returns its outcome; on a band with sub-bands
    [SetSubBand], for a sub-band other than NONE that is not above
    [RAK_SUB_BAND_9] unless the band is CN470, writes [AT+MASK=] and
    returns its outcome, while a sub-band above [RAK_SUB_BAND_9] on US915
    or AU915 is refused after the band query alone; on a band with
    sub-bands [GetSubBand] writes [AT+MASK=?] and reports the sub-band of
    the captured mask read by [std::stoi]; on a band with duty cycle
    [GetDuty] writes [AT+DUTYTIME=?] and reports the captured value read
    by [std::stoi] and cast to [uint8_t]. *)
Theorem accessor_round_trips :
  ((forall b, sends (RAK3172_LoRaWAN_SetPNM b) ("AT+PNM=" ++ Str.to_string_bool b))
   /\ (forall b, sends (RAK3172_LoRaWAN_SetConfirmation b) (CFM b))
   /\ (forall B, sends (RAK3172_LoRaWAN_SetBand B)
                   ("AT+BAND=" ++ Str.to_string (Int.u8 B)))
   /\ (forall d, sends (RAK3172_LoRaWAN_SetRX1Delay d) ("AT+RX1DL=" ++ Str.to_string d))
   /\ (forall d, sends (RAK3172_LoRaWAN_SetRX2Delay d) ("AT+RX2DL=" ++ Str.to_string d))
   /\ (forall DR, DR <= RAK_DR_7 ->
         sends (RAK3172_LoRaWAN_SetDataRate DR) ("AT+DR=" ++ Str.to_string DR))
   /\ (forall b, sends (RAK3172_LoRaWAN_SetADR b) ("AT+ADR=" ++ Str.to_string_bool b))
   /\ (forall m, sends (RAK3172_LoRaWAN_SetJoinMode m) ("AT+NJM=" ++ Str.to_string m)))
  /\ (queries (RAK3172_LoRaWAN_GetRetries Out) "AT+RETY=?" Int.u8
      /\ queries (RAK3172_LoRaWAN_GetPNM Out) "AT+PNM=?" to_bool
      /\ queries (RAK3172_LoRaWAN_GetConfirmation Out) "AT+CFM=?" to_bool
      /\ queries (RAK3172_LoRaWAN_GetBand Out) "AT+BAND=?" (fun v => v)
      /\ queries RAK3172_LoRaWAN_GetSNR "AT+SNR=?" Int.u8
      /\ queries RAK3172_LoRaWAN_GetRSSI "AT+RSSI=?" Int.s8
      /\ queries (RAK3172_LoRaWAN_GetDataRate Out) "AT+DR=?" (fun v => v)
      /\ queries (RAK3172_LoRaWAN_GetADR Out) "AT+ADR=?" to_bool
      /\ queries (RAK3172_LoRaWAN_GetJoinMode Out) "AT+NJM=?" (fun v => v))
  /\ ((forall Retries w, Retries <= 7 ->
         let c1 := CFM (0 <? Retries) in
         let c2 := "AT+RETY=" ++ Str.to_string Retries in
         RAK3172_LoRaWAN_SetRetries Retries w
           = if is_OK (Error (respond w (sent w ++ [c1])%list))
             then (Ok (Error (respond w (sent w ++ [c1; c2])%list)),
                   after_send c2 (after_send c1 w))
             else (Ok (Error (respond w (sent w ++ [c1])%list)),
                   after_send c1 w))
      /\ (forall TxPwr w Band, band_query_yields w Band ->
            sends_after_band (RAK3172_LoRaWAN_SetTxPwr TxPwr) w
              ("AT+TXP=" ++ Str.to_string (TxPwrIndex Band TxPwr)))
      /\ (forall x w Band, x <> RAK_SUB_BAND_NONE ->
            band_query_yields w Band -> has_sub_bands Band ->
            (x <= RAK_SUB_BAND_9 \/ Band = RAK_BAND_CN470) ->
            sends_after_band (RAK3172_LoRaWAN_SetSubBand x) w (MASK x))
      /\ (forall x w Band, band_query_yields w Band ->
            RAK_SUB_BAND_9 < x ->
            Band = RAK_BAND_US915 \/ Band = RAK_BAND_AU915 ->
            RAK3172_LoRaWAN_SetSubBand x w
              = (Ok RAK3172_ERR_INVALID_ARG, after_send "AT+BAND=?" w))
      /\ (forall w Band, band_query_yields w Band -> has_sub_bands Band ->
            queries_after_band (RAK3172_LoRaWAN_GetSubBand Out) w
              "AT+MASK=?" sub_band_of_mask)
      /\ (forall w Band, band_query_yields w Band -> has_duty_cycle Band ->
            queries_after_band RAK3172_LoRaWAN_GetDuty w
              "AT+DUTYTIME=?" Int.u8)).
Proof.
  split; [|split].
  - repeat split; intros; try apply returning_sends.
    unfold RAK3172_LoRaWAN_SetDataRate.
    match goal with H : _ <= RAK_DR_7 |- _ => apply Z.ltb_ge in H; rewrite H end.
    apply returning_sends.
  - repeat apply conj; apply query_queries.
  - repeat apply conj.
    + intros Retries w H. cbv zeta. now apply SetRetries_run.
    + intros TxPwr w Band HB. now apply SetTxPwr_run.
    + intros x w Band Hx HB HS HR. now apply (SetSubBand_run x w Band).
    + intros x w Band HB Hx HS. now apply (SetSubBand_above_9 x w Band).
    + intros w Band HB HS. apply queries_after_band_query.
      now apply (GetSubBand_run w Band).
    + intros w Band HB HS. apply queries_after_band_query.
      now apply (GetDuty_run w Band).
Qed.

Lemma accessor_round_trips_witness :
  let w := world_of idle_device (mask_module RAK_BAND_AU915) in
  let d := world_of idle_device (duty_module "300") in
  RAK3172_LoRaWAN_SetRetries 3 w
    = (Ok RAK3172_ERR_OK, after_send "AT+RETY=3" (after_send "AT+CFM=1" w))
  /\ RAK3172_LoRaWAN_SetSubBand RAK_SUB_BAND_2 w
     = (Ok RAK3172_ERR_OK, after_send "AT+MASK=0002" (after_send "AT+BAND=?" w))
  /\ RAK3172_LoRaWAN_SetSubBand RAK_SUB_BAND_10 w
     = (Ok RAK3172_ERR_INVALID_ARG, after_send "AT+BAND=?" w)
  /\ RAK3172_LoRaWAN_SetDataRate 5 w
     = (Ok RAK3172_ERR_OK, after_send "AT+DR=5" w)
  /\ (sent (snd (RAK3172_LoRaWAN_GetSubBand Out w)) = ["AT+BAND=?"; "AT+MASK=?"]
      /\ fst (RAK3172_LoRaWAN_GetSubBand Out w)
         = Ok (RAK3172_ERR_OK, Some RAK_SUB_BAND_ALL))
  /\ (sent (snd (RAK3172_LoRaWAN_GetDuty d)) = ["AT+BAND=?"; "AT+DUTYTIME=?"]
      /\ fst (RAK3172_LoRaWAN_GetDuty d) = Ok (RAK3172_ERR_OK, Some 44)).
Proof.
  destruct accessor_round_trips
    as ((_ & _ & _ & _ & _ & DR & _) & _ & (R & _ & SB & SX & GS & GD)).
  assert (HB : band_query_yields (world_of idle_device (mask_module RAK_BAND_AU915))
                                 RAK_BAND_AU915) by (split; reflexivity).
  assert (HE : band_query_yields (world_of idle_device (duty_module "300"))
                                 RAK_BAND_EU868) by (split; reflexivity).
  assert (H3 : 3 <= 7) by lia.
  assert (H5 : 5 <= RAK_DR_7) by (unfold RAK_DR_7; lia).
  assert (HN : RAK_SUB_BAND_2 <> RAK_SUB_BAND_NONE) by discriminate.
  assert (HS : has_sub_bands RAK_BAND_AU915) by (right; left; reflexivity).
  assert (HD : has_duty_cycle RAK_BAND_EU868) by (left; reflexivity).
  assert (HR : RAK_SUB_BAND_2 <= RAK_SUB_BAND_9 \/ RAK_BAND_AU915 = RAK_BAND_CN470)
    by (left; unfold RAK_SUB_BAND_2, RAK_SUB_BAND_9; lia).
  assert (HX : RAK_SUB_BAND_9 < RAK_SUB_BAND_10)
    by (unfold RAK_SUB_BAND_9, RAK_SUB_BAND_10; lia).
  assert (HA : RAK_BAND_AU915 = RAK_BAND_US915 \/ RAK_BAND_AU915 = RAK_BAND_AU915)
    by (right; reflexivity).
  split; [|split; [|split; [|split; [|split]]]].
  - exact (R 3 (world_of idle_device (mask_module RAK_BAND_AU915)) H3).
  - exact (SB RAK_SUB_BAND_2 _ RAK_BAND_AU915 HN HB HS HR).
  - exact (SX RAK_SUB_BAND_10 _ RAK_BAND_AU915 HB HX HA).
  - exact (DR 5 H5 (world_of idle_device (mask_module RAK_BAND_AU915))).
  - destruct (GS _ RAK_BAND_AU915 HB HS) as (S1 & V1 & _).
    split; [exact S1 | exact (V1 0 eq_refl eq_refl)].
  - destruct (GD _ RAK_BAND_EU868 HE HD) as (S1 & V1 & _).
    split; [exact S1 | exact (V1 300 eq_refl eq_refl)].
Defined.
